(** * RSS-AI: the settings API, the WeCom client, report alignment and the
      keyword filter of the fetch pipeline.

    A shallow embedding of [backend/app/main.py] and
    [backend/app/wecom_client.py].  Python values are modelled as the
    interpreter has them: a [str] is a sequence of Unicode code points,
    an [int] is unbounded, an exception is a value of an error type that
    [try]/[except] inspects. *)

From Stdlib Require Import ZArith NArith List Bool Lia.
From Stdlib Require Import Strings.String Strings.Ascii.
From Stdlib Require Import Floats.PrimFloat.
Import ListNotations.

Set Implicit Arguments.

(* ================================================================== *)
(** ** The Python runtime *)
(* ================================================================== *)

Module Py.

(** A [str] is a list of code points; [len] counts code points. *)
Definition codepoint := N.
Definition pystr := list codepoint.

Definition lit (s : String.string) : pystr :=
  map N_of_ascii (list_ascii_of_string s).

Definition len {A} (l : list A) : Z := Z.of_nat (List.length l).

Definition cp_eqb (a b : codepoint) : bool := N.eqb a b.

Fixpoint str_eqb (a b : pystr) : bool :=
  match a, b with
  | [], [] => true
  | x :: a', y :: b' => cp_eqb x y && str_eqb a' b'
  | _, _ => false
  end.

Definition str_eq_dec (a b : pystr) : {a = b} + {a <> b} :=
  list_eq_dec N.eq_dec a b.

(** Truthiness of a [str]: the empty string is falsy. *)
Definition truthy (s : pystr) : bool :=
  match s with [] => false | _ :: _ => true end.

(** Truthiness of an [Optional[str]]: [None] and the empty string are falsy. *)
Definition truthy_opt (s : option pystr) : bool :=
  match s with Some (_ :: _) => true | _ => false end.

(** Truthiness of a [list]. *)
Definition nonempty {A} (l : list A) : bool :=
  match l with [] => false | _ :: _ => true end.

(** [x or s] with [s] the empty string, on an [Optional[str]] *)
Definition or_empty (x : option pystr) : pystr :=
  match x with Some s => s | None => [] end.

(** *** Character classes (CPython 3.11, Unicode 14 tables) *)

Fixpoint in_ranges (c : N) (rs : list (N * N)) : bool :=
  match rs with
  | [] => false
  | (lo, hi) :: rs' => (N.leb lo c && N.leb c hi) || in_ranges c rs'
  end.

(** [str.isspace] on one character. *)
Definition whitespace_ranges : list (N * N) :=
  [ (9, 13); (28, 32); (133, 133); (160, 160); (5760, 5760); (8192, 8202);
    (8232, 8233); (8239, 8239); (8287, 8287); (12288, 12288) ]%N.

Definition isspace_cp (c : codepoint) : bool := in_ranges c whitespace_ranges.

(** [str.isdigit] on one character: Numeric_Type Digit or Decimal. *)
Definition digit_ranges : list (N * N) :=
  [ (48, 57); (178, 179); (185, 185); (1632, 1641); (1776, 1785); (1984, 1993);
    (2406, 2415); (2534, 2543); (2662, 2671); (2790, 2799); (2918, 2927); (3046, 3055);
    (3174, 3183); (3302, 3311); (3430, 3439); (3558, 3567); (3664, 3673); (3792, 3801);
    (3872, 3881); (4160, 4169); (4240, 4249); (4969, 4977); (6112, 6121); (6160, 6169);
    (6470, 6479); (6608, 6618); (6784, 6793); (6800, 6809); (6992, 7001); (7088, 7097);
    (7232, 7241); (7248, 7257); (8304, 8304); (8308, 8313); (8320, 8329); (9312, 9320);
    (9332, 9340); (9352, 9360); (9450, 9450); (9461, 9469); (9471, 9471); (10102, 10110);
    (10112, 10120); (10122, 10130); (42528, 42537); (43216, 43225); (43264, 43273); (43472, 43481);
    (43504, 43513); (43600, 43609); (44016, 44025); (65296, 65305); (66720, 66729); (68160, 68163);
    (68912, 68921); (69216, 69224); (69714, 69722); (69734, 69743); (69872, 69881); (69942, 69951);
    (70096, 70105); (70384, 70393); (70736, 70745); (70864, 70873); (71248, 71257); (71360, 71369);
    (71472, 71481); (71904, 71913); (72016, 72025); (72784, 72793); (73040, 73049); (73120, 73129);
    (92768, 92777); (92864, 92873); (93008, 93017); (120782, 120831); (123200, 123209); (123632, 123641);
    (125264, 125273); (127232, 127242); (130032, 130041) ]%N.

Definition isdigit_cp (c : codepoint) : bool := in_ranges c digit_ranges.

(** Decimal digits (category Nd): every block starts at a digit of value 0
    and runs through the ten values in order. *)
Definition decimal_ranges : list (N * N) :=
  [ (48, 57); (1632, 1641); (1776, 1785); (1984, 1993); (2406, 2415); (2534, 2543);
    (2662, 2671); (2790, 2799); (2918, 2927); (3046, 3055); (3174, 3183); (3302, 3311);
    (3430, 3439); (3558, 3567); (3664, 3673); (3792, 3801); (3872, 3881); (4160, 4169);
    (4240, 4249); (6112, 6121); (6160, 6169); (6470, 6479); (6608, 6617); (6784, 6793);
    (6800, 6809); (6992, 7001); (7088, 7097); (7232, 7241); (7248, 7257); (42528, 42537);
    (43216, 43225); (43264, 43273); (43472, 43481); (43504, 43513); (43600, 43609); (44016, 44025);
    (65296, 65305); (66720, 66729); (68912, 68921); (69734, 69743); (69872, 69881); (69942, 69951);
    (70096, 70105); (70384, 70393); (70736, 70745); (70864, 70873); (71248, 71257); (71360, 71369);
    (71472, 71481); (71904, 71913); (72016, 72025); (72784, 72793); (73040, 73049); (73120, 73129);
    (92768, 92777); (92864, 92873); (93008, 93017); (120782, 120831); (123200, 123209); (123632, 123641);
    (125264, 125273); (130032, 130041) ]%N.

Fixpoint decimal_in (c : N) (rs : list (N * N)) : option Z :=
  match rs with
  | [] => None
  | (lo, hi) :: rs' =>
      if N.leb lo c && N.leb c hi then Some (Z.of_N ((c - lo) mod 10))
      else decimal_in c rs'
  end.

Definition decimal_value (c : codepoint) : option Z := decimal_in c decimal_ranges.

(** *** [str] methods *)

(** [s.isdigit()]: non-empty and every character a digit. *)
Definition isdigit (s : pystr) : bool :=
  match s with [] => false | _ :: _ => forallb isdigit_cp s end.

Fixpoint lstrip (s : pystr) : pystr :=
  match s with
  | c :: s' => if isspace_cp c then lstrip s' else s
  | [] => []
  end.

Definition rstrip (s : pystr) : pystr := rev (lstrip (rev s)).

(** [s.strip()] *)
Definition strip (s : pystr) : pystr := rstrip (lstrip s).

(** [s.split(sep)] for a one-character separator: never the empty list. *)
Fixpoint split (sep : codepoint) (s : pystr) : list pystr :=
  match s with
  | [] => [[]]
  | c :: s' =>
      if cp_eqb c sep then [] :: split sep s'
      else match split sep s' with
           | w :: ws => (c :: w) :: ws
           | [] => [[c]]
           end
  end.

(** [sep.join(parts)] *)
Fixpoint join (sep : pystr) (parts : list pystr) : pystr :=
  match parts with
  | [] => []
  | p :: rest =>
      match rest with
      | [] => p
      | _ :: _ => p ++ sep ++ join sep rest
      end
  end.

Fixpoint startswith (p s : pystr) : bool :=
  match p, s with
  | [], _ => true
  | a :: p', b :: s' => cp_eqb a b && startswith p' s'
  | _ :: _, [] => false
  end.

(** [needle in hay] on strings: literal substring search. *)
Fixpoint contains (needle hay : pystr) : bool :=
  startswith needle hay ||
  match hay with
  | [] => false
  | _ :: hay' => contains needle hay'
  end.

(** *** [int(s)]

    [int] on a [str] in base 10: optional surrounding whitespace, an optional
    sign, then decimal digits with single underscores between digits.
    Characters below 127 are read as they are (so only the C locale's six
    whitespace characters count there); above, Unicode whitespace and Unicode
    decimal digits are accepted.  The limit on the number of digits
    ([sys.set_int_max_str_digits]) is not part of the model. *)
Definition int_space (c : codepoint) : bool :=
  (if N.ltb c 127 then (N.leb 9 c && N.leb c 13) || N.eqb c 32
   else isspace_cp c)%N.

Fixpoint skip_spaces (s : pystr) : pystr :=
  match s with
  | c :: s' => if int_space c then skip_spaces s' else s
  | [] => []
  end.

Definition underscore : codepoint := 95%N.

Fixpoint int_digits (acc : Z) (prev_underscore : bool) (s : pystr)
  : option (Z * pystr) :=
  match s with
  | [] => if prev_underscore then None else Some (acc, [])
  | c :: s' =>
      if cp_eqb c underscore then
        if prev_underscore then None else int_digits acc true s'
      else
        match decimal_value c with
        | Some d => int_digits (10 * acc + d)%Z false s'
        | None => if prev_underscore then None else Some (acc, s)
        end
  end.

Definition int_sign (s : pystr) : bool * pystr :=
  match s with
  | c :: r =>
      if cp_eqb c 43%N then (false, r)
      else if cp_eqb c 45%N then (true, r)
      else (false, s)
  | [] => (false, [])
  end.

(** [None] stands for the [ValueError] that [int] raises. *)
Definition int (s : pystr) : option Z :=
  let (neg, body) := int_sign (skip_spaces s) in
  match body with
  | c :: _ =>
      match decimal_value c with
      | Some _ =>
          match int_digits 0%Z false body with
          | Some (v, rest) =>
              match skip_spaces rest with
              | [] => Some (if neg then (- v)%Z else v)
              | _ :: _ => None
              end
          | None => None
          end
      | None => None
      end
  | [] => None
  end.

(** *** Exceptions *)

Inductive exn : Type :=
| ValueError
| AttributeError
| TypeError
| JSONDecodeError
| TransportError                      (* httpx.TransportError and subclasses *)
| HTTPStatusError (status_code : Z)   (* raised by [raise_for_status] *)
| HTTPException (status_code : Z) (detail : pystr).

(** A computation that returns or raises. *)
Inductive result (A : Type) : Type :=
| Ok (a : A)
| Raise (e : exn).
Arguments Ok {A} a.
Arguments Raise {A} e.

Definition bind {A B} (m : result A) (k : A -> result B) : result B :=
  match m with
  | Ok a => k a
  | Raise e => Raise e
  end.

(** [try: body / except Exception: handler]: every constructor of [exn] is a
    subclass of [Exception]. *)
Definition try_except {A} (body : result A) (handler : exn -> result A)
  : result A :=
  match body with
  | Ok a => Ok a
  | Raise e => handler e
  end.

(** *** Values produced by [json] *)

Unset Elimination Schemes.
Inductive value : Type :=
| PyNone
| PyBool (b : bool)
| PyInt (z : Z)
| PyFloat (f : float)
| PyStr (s : pystr)
| PyList (l : list value)
| PyDict (d : list (pystr * value)).
Set Elimination Schemes.

(** Lookup in a [dict] kept as its items in insertion order (keys are
    unique in a [dict]; the first binding is the binding). *)
Fixpoint lookup {V} (key : pystr) (d : list (pystr * V)) : option V :=
  match d with
  | [] => None
  | (k, v) :: d' => if str_eqb k key then Some v else lookup key d'
  end.

(** [data.get(key, default)]: an [AttributeError] on a non-dict without
    a [get] method. *)
Definition get (data : value) (key : pystr) (default : value) : result value :=
  match data with
  | PyDict d =>
      match lookup key d with
      | Some v => Ok v
      | None => Ok default
      end
  | _ => Raise AttributeError
  end.

(** [v != 0]: numbers compare by value ([False == 0], [0.0 == 0]); a value
    of any other type differs from [0]. *)
Definition ne_zero (v : value) : bool :=
  match v with
  | PyInt z => negb (Z.eqb z 0%Z)
  | PyBool b => b
  | PyFloat f => negb (PrimFloat.eqb f 0%float)
  | _ => true
  end.

(** [list(dict.fromkeys(l))]: the distinct elements, each at its first
    position. *)
Fixpoint fromkeys_acc (seen : list pystr) (l : list pystr) : list pystr :=
  match l with
  | [] => []
  | x :: l' =>
      if existsb (str_eqb x) seen then fromkeys_acc seen l'
      else x :: fromkeys_acc (x :: seen) l'
  end.

Definition fromkeys (l : list pystr) : list pystr := fromkeys_acc [] l.

End Py.

Import Py.

Notation "x <- m ;; k" := (Py.bind m (fun x => k))
  (at level 61, m at next level, right associativity).


(* ================================================================== *)
(** ** [wecom_client.py]: the WeCom webhook client *)
(* ================================================================== *)

Module WeCom.

Open Scope Z_scope.

Definition newline : codepoint := 10%N.

(** What [httpx] hands back for a request: the status code and what
    [resp.json()] does (it raises on a body that is not JSON). *)
Record Response : Type := {
  status_code : Z;
  json : result value
}.

Record WeComClient : Type := {
  webhook_key : pystr;
  timeout : float;
  webhook_url : pystr
}.

(** [WeComClient.__init__] *)
Definition init (webhook_key : pystr) (timeout : float) : WeComClient :=
  {| webhook_key := webhook_key;
     timeout := timeout;
     webhook_url :=
       lit "https://qyapi.weixin.qq.com/cgi-bin/webhook/send?key=" ++ webhook_key |}.

(** The loop of [_truncate_text]: [break] returns what was accumulated. *)
Fixpoint truncate_loop (max_length : Z) (lines : list pystr)
    (result : list pystr) (current_length : Z) : list pystr :=
  match lines with
  | [] => result
  | line :: rest =>
      if current_length + len line + 1 >? max_length - 3 then result
      else truncate_loop max_length rest (result ++ [line])
                         (current_length + len line + 1)
  end.

Definition ellipsis : pystr := lit "...".

(** [WeComClient._truncate_text] *)
Definition _truncate_text (text : pystr) (max_length : Z) : pystr :=
  if len text <=? max_length then text
  else
    let lines := split newline text in
    let result := truncate_loop max_length lines [] 0 in
    let truncated := join [newline] result in
    if len truncated <? len text then truncated ++ ellipsis else truncated.

(** The labels of the message, as code points. *)
Definition label_link : pystr := [21407; 25991; 38142; 25509]%N.
Definition label_pub_date : pystr := [21457; 24067; 26102; 38388; 65306]%N.
Definition label_author : pystr := [20316; 32773; 65306]%N.
Definition label_keywords : pystr := [20851; 38190; 35789; 65306]%N.
Definition ideographic_comma : pystr := [12289%N].

(** [WeComClient.format_markdown_message]; [matched_keywords] is
    [Optional[list[str]]]. *)
Definition format_markdown_message (title link pub_date author summary_text : pystr)
    (matched_keywords : option (list pystr)) : pystr :=
  let parts := [ lit "**" ++ title ++ lit "**";
                 lit "[" ++ label_link ++ lit "](" ++ link ++ lit ")" ] in
  let meta := [] in
  let meta := if truthy pub_date then meta ++ [label_pub_date ++ pub_date] else meta in
  let meta := if truthy author then meta ++ [label_author ++ author] else meta in
  let meta :=
    match matched_keywords with
    | Some ((_ :: _) as kws) =>
        meta ++ [label_keywords ++ join ideographic_comma kws]
    | _ => meta
    end in
  let parts := if nonempty meta then parts ++ [join (lit " | ") meta] else parts in
  let parts :=
    if truthy summary_text
    then parts ++ [[newline] ++ _truncate_text summary_text 1000]
    else parts in
  join [newline] parts.

Section Send.

(** [httpx.Client(timeout).post(url, json=payload)]: the network is an
    oracle that answers or raises. *)
Variable post : pystr -> float -> value -> result Response.

(** Whether [resp.raise_for_status()] raises for a status code; this is
    [httpx]'s classification, not the repository's. *)
Variable raises_for_status : Z -> bool.

Definition raise_for_status (resp : Response) : result unit :=
  if raises_for_status (status_code resp)
  then Raise (HTTPStatusError (status_code resp))
  else Ok tt.

Definition payload_of (content : pystr) : value :=
  PyDict [ (lit "msgtype", PyStr (lit "markdown"));
           (lit "markdown", PyDict [ (lit "content", PyStr content) ]) ].

(** [WeComClient.send_message]; logging is not modelled. *)
Definition send_message (self : WeComClient) (content : pystr) : result bool :=
  if negb (truthy (webhook_key self)) then Ok false
  else
    let payload := payload_of content in
    try_except
      (resp <- post (webhook_url self) (timeout self) payload ;;
       _ <- raise_for_status resp ;;
       data <- json resp ;;
       errcode <- get data (lit "errcode") (PyInt (-1)) ;;
       if ne_zero errcode then Ok false else Ok true)
      (fun exc => Ok false).

End Send.

End WeCom.

(* ================================================================== *)
(** ** [main.py]: the settings endpoints *)
(* ================================================================== *)

(** Modelled from the spec: the settings records of [models.py], which is
    not among the sources; the sections and their attributes are those of
    the specification's data model.  A string attribute is a [str]: where
    the code tests one for truth, an absent value behaves as the empty
    string does. *)
Module FetchSettings.
Record t : Type := {
  feeds : list pystr;
  interval_minutes : Z;
  per_feed_limit : Z;
  max_items : Z;
  use_article_page : bool;
  article_timeout_seconds : float;
  filter_keywords : list value
}.
End FetchSettings.

Module AISettings.
Record t : Type := {
  enabled : bool;
  api_key : pystr;
  base_url : pystr;
  model : pystr;
  temperature : float;
  timeout_seconds : float;
  system_prompt : pystr;
  user_prompt_template : pystr
}.
Definition set_api_key (v : pystr) (a : t) : t :=
  {| enabled := enabled a; api_key := v; base_url := base_url a; model := model a;
     temperature := temperature a; timeout_seconds := timeout_seconds a;
     system_prompt := system_prompt a;
     user_prompt_template := user_prompt_template a |}.
Definition set_timeout_seconds (v : float) (a : t) : t :=
  {| enabled := enabled a; api_key := api_key a; base_url := base_url a; model := model a;
     temperature := temperature a; timeout_seconds := v;
     system_prompt := system_prompt a;
     user_prompt_template := user_prompt_template a |}.
Definition set_system_prompt (v : pystr) (a : t) : t :=
  {| enabled := enabled a; api_key := api_key a; base_url := base_url a; model := model a;
     temperature := temperature a; timeout_seconds := timeout_seconds a;
     system_prompt := v;
     user_prompt_template := user_prompt_template a |}.
Definition set_user_prompt_template (v : pystr) (a : t) : t :=
  {| enabled := enabled a; api_key := api_key a; base_url := base_url a; model := model a;
     temperature := temperature a; timeout_seconds := timeout_seconds a;
     system_prompt := system_prompt a;
     user_prompt_template := v |}.
End AISettings.

Module TelegramSettings.
Record t : Type := {
  enabled : bool;
  bot_token : pystr;
  chat_id : pystr;
  push_mode : pystr;
  push_summary : bool;
  fetch_summary_enabled : bool
}.
Definition set_bot_token (v : pystr) (a : t) : t :=
  {| enabled := enabled a; bot_token := v; chat_id := chat_id a;
     push_mode := push_mode a; push_summary := push_summary a;
     fetch_summary_enabled := fetch_summary_enabled a |}.
End TelegramSettings.

Module WeComSettings.
Record t : Type := {
  enabled : bool;
  webhook_key : pystr;
  push_mode : pystr;
  push_summary : bool;
  fetch_summary_enabled : bool
}.
Definition set_webhook_key (v : pystr) (a : t) : t :=
  {| enabled := enabled a; webhook_key := v;
     push_mode := push_mode a; push_summary := push_summary a;
     fetch_summary_enabled := fetch_summary_enabled a |}.
End WeComSettings.

Module ReportSettings.
Record t : Type := {
  daily_enabled : bool;
  hourly_enabled : bool;
  daily_report_time : pystr;
  system_prompt : pystr;
  user_prompt_template : pystr;
  report_timeout_seconds : float
}.
Definition set_system_prompt (v : pystr) (a : t) : t :=
  {| daily_enabled := daily_enabled a; hourly_enabled := hourly_enabled a;
     daily_report_time := daily_report_time a; system_prompt := v;
     user_prompt_template := user_prompt_template a;
     report_timeout_seconds := report_timeout_seconds a |}.
Definition set_user_prompt_template (v : pystr) (a : t) : t :=
  {| daily_enabled := daily_enabled a; hourly_enabled := hourly_enabled a;
     daily_report_time := daily_report_time a; system_prompt := system_prompt a;
     user_prompt_template := v;
     report_timeout_seconds := report_timeout_seconds a |}.
Definition set_report_timeout_seconds (v : float) (a : t) : t :=
  {| daily_enabled := daily_enabled a; hourly_enabled := hourly_enabled a;
     daily_report_time := daily_report_time a; system_prompt := system_prompt a;
     user_prompt_template := user_prompt_template a;
     report_timeout_seconds := v |}.
End ReportSettings.

Module ServerSettings.
Record t : Type := { host : pystr; port : Z }.
End ServerSettings.

Module LoggingSettings.
Record t : Type := { level : pystr; file : pystr }.
End LoggingSettings.

Module SecuritySettings.
Record t : Type := { admin_password : pystr }.
End SecuritySettings.

Module AppSettings.
Record t : Type := {
  fetch : FetchSettings.t;
  ai : AISettings.t;
  telegram : TelegramSettings.t;
  wecom : WeComSettings.t;
  reports : ReportSettings.t;
  server : ServerSettings.t;
  logging : LoggingSettings.t;
  security : option SecuritySettings.t      (* the code tests it for [None] *)
}.
Definition set_ai (v : AISettings.t) (s : t) : t :=
  {| fetch := fetch s; ai := v; telegram := telegram s; wecom := wecom s;
     reports := reports s; server := server s; logging := logging s;
     security := security s |}.
Definition set_telegram (v : TelegramSettings.t) (s : t) : t :=
  {| fetch := fetch s; ai := ai s; telegram := v; wecom := wecom s;
     reports := reports s; server := server s; logging := logging s;
     security := security s |}.
Definition set_wecom (v : WeComSettings.t) (s : t) : t :=
  {| fetch := fetch s; ai := ai s; telegram := telegram s; wecom := v;
     reports := reports s; server := server s; logging := logging s;
     security := security s |}.
Definition set_reports (v : ReportSettings.t) (s : t) : t :=
  {| fetch := fetch s; ai := ai s; telegram := telegram s; wecom := wecom s;
     reports := v; server := server s; logging := logging s;
     security := security s |}.
Definition set_security (v : option SecuritySettings.t) (s : t) : t :=
  {| fetch := fetch s; ai := ai s; telegram := telegram s; wecom := wecom s;
     reports := reports s; server := server s; logging := logging s;
     security := v |}.
End AppSettings.

Module Api.

Open Scope Z_scope.

(** Modelled from the spec: [UpdateSettingsRequest] of [models.py]: the
    settings document, the current password and an optional new one. *)
Record UpdateSettingsRequest : Type := {
  settings : AppSettings.t;
  password : option pystr;
  new_password : option pystr
}.

(** The process state the endpoints touch: the persisted settings document
    ([load_settings]/[save_settings] of [config.py]), the global
    [_scheduler] (its interval, when it exists) and [_report_schedulers]
    (the daily scheduler keeps the report time it was created with). *)
Record State : Type := {
  stored : AppSettings.t;
  fetch_scheduler : option Z;
  hourly_scheduler : bool;
  daily_scheduler : option pystr
}.

Definition load_settings (st : State) : AppSettings.t := stored st.

Definition save_settings (s : AppSettings.t) (st : State) : State :=
  {| stored := s; fetch_scheduler := fetch_scheduler st;
     hourly_scheduler := hourly_scheduler st;
     daily_scheduler := daily_scheduler st |}.

(** [_scheduler.update_interval(n)] under [if _scheduler:]. *)
Definition update_interval (n : Z) (st : State) : State :=
  {| stored := stored st;
     fetch_scheduler := match fetch_scheduler st with
                        | Some _ => Some n
                        | None => None
                        end;
     hourly_scheduler := hourly_scheduler st;
     daily_scheduler := daily_scheduler st |}.

(** [_configure_report_schedulers]: a scheduler is created when its report
    is enabled and none runs, kept when one runs, and stopped and dropped
    when the report is disabled. *)
Definition _configure_report_schedulers (s : AppSettings.t) (st : State) : State :=
  let r := AppSettings.reports s in
  {| stored := stored st;
     fetch_scheduler := fetch_scheduler st;
     hourly_scheduler := ReportSettings.hourly_enabled r;
     daily_scheduler :=
       if ReportSettings.daily_enabled r then
         match daily_scheduler st with
         | Some t => Some t
         | None => Some (ReportSettings.daily_report_time r)
         end
       else None |}.

Definition sentinel : pystr := lit "***".

(** [not (s and s.strip())] *)
Definition blank (s : pystr) : bool := negb (truthy s && truthy (strip s)).

(** [not x] on a float: zero is falsy. *)
Definition float_falsy (f : float) : bool := PrimFloat.eqb f 0%float.

Definition detail_password_format : pystr :=
  [23494; 30721; 24517; 39035; 20026; 52; 20301; 25968; 23383]%N.
Definition detail_password_wrong : pystr :=
  [23494; 30721; 38169; 35823]%N.
Definition detail_new_password_format : pystr :=
  [26032; 23494; 30721; 24517; 39035; 20026; 52; 20301; 25968; 23383]%N.

Section Endpoints.

(** [AppSettings()], the built-in defaults of [models.py]. *)
Variable defaults : AppSettings.t.

(** The prompt and timeout back-filling shared by both endpoints. *)
Definition fill_defaults (s : AppSettings.t) : AppSettings.t :=
  let s := if blank (AISettings.system_prompt (AppSettings.ai s))
           then AppSettings.set_ai
                  (AISettings.set_system_prompt
                     (AISettings.system_prompt (AppSettings.ai defaults))
                     (AppSettings.ai s)) s
           else s in
  let s := if blank (AISettings.user_prompt_template (AppSettings.ai s))
           then AppSettings.set_ai
                  (AISettings.set_user_prompt_template
                     (AISettings.user_prompt_template (AppSettings.ai defaults))
                     (AppSettings.ai s)) s
           else s in
  let s := if float_falsy (AISettings.timeout_seconds (AppSettings.ai s))
           then AppSettings.set_ai
                  (AISettings.set_timeout_seconds
                     (AISettings.timeout_seconds (AppSettings.ai defaults))
                     (AppSettings.ai s)) s
           else s in
  let s := if blank (ReportSettings.system_prompt (AppSettings.reports s))
           then AppSettings.set_reports
                  (ReportSettings.set_system_prompt
                     (ReportSettings.system_prompt (AppSettings.reports defaults))
                     (AppSettings.reports s)) s
           else s in
  let s := if blank (ReportSettings.user_prompt_template (AppSettings.reports s))
           then AppSettings.set_reports
                  (ReportSettings.set_user_prompt_template
                     (ReportSettings.user_prompt_template (AppSettings.reports defaults))
                     (AppSettings.reports s)) s
           else s in
  let s := if float_falsy (ReportSettings.report_timeout_seconds (AppSettings.reports s))
           then AppSettings.set_reports
                  (ReportSettings.set_report_timeout_seconds
                     (ReportSettings.report_timeout_seconds (AppSettings.reports defaults))
                     (AppSettings.reports s)) s
           else s in
  s.

(** [get_settings]: works on a deep copy, the state is only read. *)
Definition get_settings (st : State) : AppSettings.t :=
  let s := load_settings st in
  let safe := s in
  let safe := if truthy (AISettings.api_key (AppSettings.ai safe))
              then AppSettings.set_ai
                     (AISettings.set_api_key sentinel (AppSettings.ai safe)) safe
              else safe in
  let safe := if truthy (TelegramSettings.bot_token (AppSettings.telegram safe))
              then AppSettings.set_telegram
                     (TelegramSettings.set_bot_token sentinel (AppSettings.telegram safe)) safe
              else safe in
  let safe := if truthy (WeComSettings.webhook_key (AppSettings.wecom safe))
              then AppSettings.set_wecom
                     (WeComSettings.set_webhook_key sentinel (AppSettings.wecom safe)) safe
              else safe in
  let safe := match AppSettings.security safe with
              | Some sec =>
                  if truthy (SecuritySettings.admin_password sec)
                  then AppSettings.set_security
                         (Some {| SecuritySettings.admin_password := [] |}) safe
                  else safe
              | None => safe
              end in
  fill_defaults safe.

(** The part of [update_settings] before [save_settings]: the document to
    persist, or the exception raised.  [old.security.admin_password] and
    [new_settings.security.admin_password = ...] raise [AttributeError] on
    a [security] that is [None]. *)
Definition validated_settings (req : UpdateSettingsRequest) (old : AppSettings.t)
  : result AppSettings.t :=
  let password := strip (or_empty (password req)) in
  if negb (isdigit password && (len password =? 4)) then
    Raise (HTTPException 400 detail_password_format)
  else
    old_security <- match AppSettings.security old with
                    | Some sec => Ok sec
                    | None => Raise AttributeError
                    end ;;
    if negb (str_eqb password (SecuritySettings.admin_password old_security)) then
      Raise (HTTPException 403 detail_password_wrong)
    else
      let new_settings := settings req in
      let new_settings :=
        if str_eqb (AISettings.api_key (AppSettings.ai new_settings)) sentinel
        then AppSettings.set_ai
               (AISettings.set_api_key (AISettings.api_key (AppSettings.ai old))
                  (AppSettings.ai new_settings)) new_settings
        else new_settings in
      let new_settings :=
        if str_eqb (TelegramSettings.bot_token (AppSettings.telegram new_settings)) sentinel
        then AppSettings.set_telegram
               (TelegramSettings.set_bot_token
                  (TelegramSettings.bot_token (AppSettings.telegram old))
                  (AppSettings.telegram new_settings)) new_settings
        else new_settings in
      let new_settings :=
        if str_eqb (WeComSettings.webhook_key (AppSettings.wecom new_settings)) sentinel
        then AppSettings.set_wecom
               (WeComSettings.set_webhook_key
                  (WeComSettings.webhook_key (AppSettings.wecom old))
                  (AppSettings.wecom new_settings)) new_settings
        else new_settings in
      let new_settings := fill_defaults new_settings in
      let new_settings :=
        match AppSettings.security new_settings with
        | None => AppSettings.set_security (AppSettings.security defaults) new_settings
        | Some _ => new_settings
        end in
      let new_password := strip (or_empty (new_password req)) in
      admin_password <-
        (if truthy new_password then
           if negb (isdigit new_password && (len new_password =? 4)) then
             Raise (HTTPException 400 detail_new_password_format)
           else Ok new_password
         else Ok (SecuritySettings.admin_password old_security)) ;;
      match AppSettings.security new_settings with
      | None => Raise AttributeError
      | Some _ =>
          Ok (AppSettings.set_security
                (Some {| SecuritySettings.admin_password := admin_password |})
                new_settings)
      end.

(** [update_settings]: nothing is written unless the checks pass; then the
    document is saved, the schedulers follow it, and the redacted document
    is returned. *)
Definition update_settings (req : UpdateSettingsRequest) (st : State)
  : result AppSettings.t * State :=
  let old := load_settings st in
  match validated_settings req old with
  | Raise e => (Raise e, st)
  | Ok new_settings =>
      let st := save_settings new_settings st in
      let st := update_interval
                  (FetchSettings.interval_minutes (AppSettings.fetch new_settings)) st in
      let st := _configure_report_schedulers new_settings st in
      (Ok (get_settings st), st)
  end.

End Endpoints.

End Api.

(* ================================================================== *)
(** ** [main.py]: alignment of the report schedulers *)
(* ================================================================== *)

Module Schedule.

Open Scope Z_scope.

Definition us_per_second : Z := 1000000.
Definition us_per_minute : Z := 60000000.
Definition us_per_hour : Z := 3600000000.
Definition us_per_day : Z := 86400000000.

(** An aware [datetime]: the date as its proleptic Gregorian ordinal
    ([date.toordinal()]), the time of day, and the offset of its [tzinfo]
    from UTC in microseconds.  [datetime] itself keeps dates as ordinals
    when it adds a [timedelta]; the bounds [datetime.min] and
    [datetime.max] are not part of the model, ordinals range over [Z]. *)
Record datetime : Type := {
  ordinal : Z;
  hour : Z;
  minute : Z;
  second : Z;
  microsecond : Z;
  utcoffset : Z
}.

(** A [timedelta], in microseconds. *)
Definition timedelta := Z.
Definition hours (n : Z) : timedelta := n * us_per_hour.
Definition days (n : Z) : timedelta := n * us_per_day.

(** Microseconds from ordinal 0, midnight, on the datetime's own clock. *)
Definition wall (d : datetime) : Z :=
  (((ordinal d * 24 + hour d) * 60 + minute d) * 60 + second d) * us_per_second
  + microsecond d.

Definition of_wall (offset : Z) (w : Z) : datetime :=
  {| ordinal := w / us_per_day;
     hour := (w mod us_per_day) / us_per_hour;
     minute := (w mod us_per_hour) / us_per_minute;
     second := (w mod us_per_minute) / us_per_second;
     microsecond := w mod us_per_second;
     utcoffset := offset |}.

(** The instant a datetime denotes: microseconds from ordinal 0, midnight, UTC. *)
Definition instant (d : datetime) : Z := wall d - utcoffset d.

(** [d.astimezone(tz)] *)
Definition astimezone (tz : Z) (d : datetime) : datetime :=
  of_wall tz (instant d + tz).

(** [d + delta]: the clock fields move, the [tzinfo] stays. *)
Definition add (d : datetime) (delta : timedelta) : datetime :=
  of_wall (utcoffset d) (wall d + delta).

(** [a >= b] on aware datetimes. *)
Definition ge (a b : datetime) : bool := instant a >=? instant b.

(** [d.replace(hour=..., minute=..., second=..., microsecond=...)]; an
    argument left out is [None]. *)
Definition replace (h m s us : option Z) (d : datetime) : datetime :=
  let pick (o : option Z) (old : Z) := match o with Some v => v | None => old end in
  {| ordinal := ordinal d;
     hour := pick h (hour d);
     minute := pick m (minute d);
     second := pick s (second d);
     microsecond := pick us (microsecond d);
     utcoffset := utcoffset d |}.

Definition utc : Z := 0.

(** Modelled from the spec: [BEIJING_TZ] of [report_service.py], the
    reference time zone UTC+8. *)
Definition BEIJING_TZ : Z := 8 * us_per_hour.

(** [_next_top_of_hour] *)
Definition _next_top_of_hour (now : datetime) : datetime :=
  let local := astimezone BEIJING_TZ now in
  let aligned := replace None (Some 0) (Some 0) (Some 0) local in
  let aligned := if ge local aligned then add aligned (hours 1) else aligned in
  astimezone utc aligned.

Definition colon : codepoint := 58%N.

Definition int_or_raise (s : pystr) : result Z :=
  match Py.int s with
  | Some z => Ok z
  | None => Raise ValueError
  end.

(** [hour, minute = map(int, parts)]: the items are converted as the
    unpacking pulls them; a failed conversion, a missing item and an item
    too many all raise [ValueError]. *)
Definition unpack_two_ints (parts : list pystr) : result (Z * Z) :=
  match parts with
  | a :: b :: rest =>
      hour <- int_or_raise a ;;
      minute <- int_or_raise b ;;
      match rest with
      | [] => Ok (hour, minute)
      | _ :: _ => Raise ValueError
      end
  | _ => Raise ValueError
  end.

(** The [try]/[except] of [_next_midnight]: the parsed and clamped hour and
    minute, or 00:00 on any exception. *)
Definition report_hour_minute (report_time : pystr) : Z * Z :=
  match
    try_except
      (hm <- unpack_two_ints (split colon report_time) ;;
       let (hour, minute) := hm in
       let hour := Z.max 0 (Z.min 23 hour) in
       let minute := Z.max 0 (Z.min 59 minute) in
       Ok (hour, minute))
      (fun _ => Ok (0, 0))
  with
  | Ok hm => hm
  | Raise _ => (0, 0)
  end.

(** [_next_midnight] *)
Definition _next_midnight (now : datetime) (report_time : pystr) : datetime :=
  let local := astimezone BEIJING_TZ now in
  let (hour, minute) := report_hour_minute report_time in
  let aligned := replace (Some hour) (Some minute) (Some 0) (Some 0) local in
  let aligned := if ge local aligned then add aligned (days 1) else aligned in
  astimezone utc aligned.

End Schedule.

(* ================================================================== *)
(** ** [main.py]: one entry of the fetch pipeline *)
(* ================================================================== *)

Module Pipeline.

Open Scope Z_scope.

(** Modelled from the spec: the feed entry of [rss_service.py], the summary
    object of [ai_client.py] (a [dict] read with [get]) and [ArticleCreate]
    of [models.py].  An attribute that may be absent is an [option]. *)
Record FeedEntry : Type := {
  uid : pystr;
  title : option pystr;
  link : option pystr;
  pub_date : option pystr;
  author : option pystr;
  content : option pystr
}.

Record Usage : Type := {
  prompt_tokens : Z;
  completion_tokens : Z;
  total_tokens : Z
}.

Record Summary : Type := {
  s_title : option pystr;
  s_pubDate : option pystr;
  s_author : option pystr;
  s_summary_text : option pystr;
  _ai_usage : option Usage
}.

Record ArticleCreate : Type := {
  feed_url : pystr;
  item_uid : pystr;
  a_title : option pystr;
  a_link : option pystr;
  a_pub_date : option pystr;
  a_author : option pystr;
  content_text : pystr;
  summary_text : pystr;
  matched_keywords : list pystr
}.

(** The counters of [do_fetch_once] that the loop body updates. *)
Record Counters : Type := {
  processed : Z;
  dup : Z;
  new_items : Z;
  failed_items : Z;
  ai_calls : Z;
  ai_success : Z;
  ai_failed : Z;
  tokens_prompt : Z;
  tokens_completion : Z;
  tokens_total : Z;
  keyword_match_hits : Z;
  keyword_match_articles : Z
}.

(** The calls the loop body makes to the other components, in order. *)
Inductive event : Type :=
| Extract (url : pystr)
| Summarize (e : FeedEntry) (content : pystr)
| Fallback (e : FeedEntry) (content : option pystr)
| Insert (a : ArticleCreate)
| Prune (max_items : Z)
| PushTelegram (chat_id : pystr) (item : Summary) (keywords : list pystr)
| PushWeCom (item : Summary) (keywords : list pystr).

(** [a or b] on optional strings: [a] when truthy, else [b]. *)
Definition or_else (a b : option pystr) : option pystr :=
  if truthy_opt a then a else b.

(** [filter_keywords] of [do_fetch_once]:
    [[kw.strip() for kw in raw_keywords if isinstance(kw, str) and kw.strip()]] *)
Fixpoint normalize_keywords (raw_keywords : list value) : list pystr :=
  match raw_keywords with
  | [] => []
  | PyStr kw :: rest =>
      if truthy (strip kw) then strip kw :: normalize_keywords rest
      else normalize_keywords rest
  | _ :: rest => normalize_keywords rest
  end.

Definition haystack_separator : pystr := lit " " ++ [10%N] ++ lit " ".

(** [[part for part in haystack_parts if part]] *)
Fixpoint truthy_parts (parts : list (option pystr)) : list pystr :=
  match parts with
  | [] => []
  | Some ((_ :: _) as p) :: rest => p :: truthy_parts rest
  | _ :: rest => truthy_parts rest
  end.

Definition haystack_of (e : FeedEntry) (extracted_content : option pystr) : pystr :=
  join haystack_separator
       (truthy_parts [title e; author e; content e; extracted_content]).

(** [[kw for kw in keyword_terms if kw and kw in haystack]] *)
Definition keyword_hits (keyword_terms : list pystr) (haystack : pystr) : list pystr :=
  filter (fun kw => truthy kw && contains kw haystack) keyword_terms.

(** The keyword block of the loop body: [(matched_keywords, keywords_matched)]. *)
Definition match_keywords (keyword_terms : list pystr) (haystack : pystr)
  : list pystr * bool :=
  match keyword_terms with
  | _ :: _ =>
      let matched_keywords := keyword_hits keyword_terms haystack in
      let matched_keywords :=
        if nonempty matched_keywords then fromkeys matched_keywords
        else matched_keywords in
      (matched_keywords, nonempty matched_keywords)
  | [] => ([], true)
  end.

(** [mode in ("all", "article_only")] *)
Definition pushes_articles (push_mode : pystr) : bool :=
  str_eqb push_mode (lit "all") || str_eqb push_mode (lit "article_only").

Section Entry.

(** The other components, as the loop body sees them. *)
Variable exists_article : pystr -> pystr -> bool.
Variable extract_from_url : pystr -> float -> option pystr.
Variable summarize : FeedEntry -> pystr -> pystr -> pystr -> option Summary.
Variable fallback_summary : FeedEntry -> option pystr -> Summary.
Variable insert_article : ArticleCreate -> result (option Z).

(** [prune_articles]: what it returns is dropped; it may raise. *)
Variable prune_articles : Z -> result unit.

(** The push of an article to a platform: the message is formatted
    ([_format_telegram_message], [_format_wecom_message]) and handed to the
    client's [send_message], for Telegram with the chat id.  The outcome is
    that of the two calls together: the [bool] that is only logged, or the
    exception that either raises. *)
Variable push_telegram : pystr -> Summary -> list pystr -> result bool.
Variable push_wecom : Summary -> list pystr -> result bool.

Variable settings : AppSettings.t.

(** [_build_ai_client], [_build_telegram_client], [_build_wecom_client]:
    whether a client is built. *)
Definition ai_built : bool :=
  AISettings.enabled (AppSettings.ai settings)
  && truthy (AISettings.api_key (AppSettings.ai settings)).

Definition tg_built : bool :=
  TelegramSettings.enabled (AppSettings.telegram settings)
  && truthy (TelegramSettings.bot_token (AppSettings.telegram settings))
  && truthy (TelegramSettings.chat_id (AppSettings.telegram settings)).

Definition wecom_built : bool :=
  WeComSettings.enabled (AppSettings.wecom settings)
  && truthy (WeComSettings.webhook_key (AppSettings.wecom settings)).

Definition tg_push_articles : bool :=
  pushes_articles (TelegramSettings.push_mode (AppSettings.telegram settings)).

Definition wecom_push_articles : bool :=
  pushes_articles (WeComSettings.push_mode (AppSettings.wecom settings)).

Definition filter_keywords : list pystr :=
  normalize_keywords (FetchSettings.filter_keywords (AppSettings.fetch settings)).

(** What one pass of the loop body leaves behind. *)
Record Outcome : Type := {
  counters : Counters;
  trace : list event;
  keywords_matched : option bool;       (* [None] when the entry was skipped *)
  entry_keywords : list pystr
}.

Definition bump_processed (c : Counters) : Counters :=
  {| processed := processed c + 1; dup := dup c; new_items := new_items c;
     failed_items := failed_items c; ai_calls := ai_calls c;
     ai_success := ai_success c; ai_failed := ai_failed c;
     tokens_prompt := tokens_prompt c; tokens_completion := tokens_completion c;
     tokens_total := tokens_total c;
     keyword_match_hits := keyword_match_hits c;
     keyword_match_articles := keyword_match_articles c |}.

Definition bump_dup (c : Counters) : Counters :=
  {| processed := processed c; dup := dup c + 1; new_items := new_items c;
     failed_items := failed_items c; ai_calls := ai_calls c;
     ai_success := ai_success c; ai_failed := ai_failed c;
     tokens_prompt := tokens_prompt c; tokens_completion := tokens_completion c;
     tokens_total := tokens_total c;
     keyword_match_hits := keyword_match_hits c;
     keyword_match_articles := keyword_match_articles c |}.

Definition bump_keywords (hits : Z) (c : Counters) : Counters :=
  {| processed := processed c; dup := dup c; new_items := new_items c;
     failed_items := failed_items c; ai_calls := ai_calls c;
     ai_success := ai_success c; ai_failed := ai_failed c;
     tokens_prompt := tokens_prompt c; tokens_completion := tokens_completion c;
     tokens_total := tokens_total c;
     keyword_match_hits := keyword_match_hits c + hits;
     keyword_match_articles := keyword_match_articles c + 1 |}.

Definition bump_ai (calls success failed : Z) (u : Usage) (c : Counters) : Counters :=
  {| processed := processed c; dup := dup c; new_items := new_items c;
     failed_items := failed_items c; ai_calls := ai_calls c + calls;
     ai_success := ai_success c + success; ai_failed := ai_failed c + failed;
     tokens_prompt := tokens_prompt c + prompt_tokens u;
     tokens_completion := tokens_completion c + completion_tokens u;
     tokens_total := tokens_total c + total_tokens u;
     keyword_match_hits := keyword_match_hits c;
     keyword_match_articles := keyword_match_articles c |}.

Definition bump_new (c : Counters) : Counters :=
  {| processed := processed c; dup := dup c; new_items := new_items c + 1;
     failed_items := failed_items c; ai_calls := ai_calls c;
     ai_success := ai_success c; ai_failed := ai_failed c;
     tokens_prompt := tokens_prompt c; tokens_completion := tokens_completion c;
     tokens_total := tokens_total c;
     keyword_match_hits := keyword_match_hits c;
     keyword_match_articles := keyword_match_articles c |}.

Definition bump_failed (c : Counters) : Counters :=
  {| processed := processed c; dup := dup c; new_items := new_items c;
     failed_items := failed_items c + 1; ai_calls := ai_calls c;
     ai_success := ai_success c; ai_failed := ai_failed c;
     tokens_prompt := tokens_prompt c; tokens_completion := tokens_completion c;
     tokens_total := tokens_total c;
     keyword_match_hits := keyword_match_hits c;
     keyword_match_articles := keyword_match_articles c |}.

Definition no_usage : Usage :=
  {| prompt_tokens := 0; completion_tokens := 0; total_tokens := 0 |}.

(** The [try] block that ends the loop body: [insert_article], then for a
    row id that is truthy [prune_articles] and the two pushes.  Each call
    is recorded when it is made.  Whichever call raises first ends the
    block: what follows it is not called, and the [except] branch counts
    the entry as failed, also when it was already counted as new.  What
    the pushes return is only logged. *)
Definition store_and_push (article : ArticleCreate) (ai_obj : Summary)
    (matched_keywords : list pystr) (keywords_matched : bool)
    (tr : list event) (c : Counters) : list event * Counters :=
  let tr := tr ++ [Insert article] in
  match insert_article article with
  | Raise _ => (tr, bump_failed c)
  | Ok row_id =>
      if match row_id with Some id => negb (id =? 0) | None => false end then
        let c := bump_new c in
        let max_items := FetchSettings.max_items (AppSettings.fetch settings) in
        let tr := tr ++ [Prune max_items] in
        match prune_articles max_items with
        | Raise _ => (tr, bump_failed c)
        | Ok _ =>
            (* send to telegram *)
            let to_telegram := tg_built && keywords_matched && tg_push_articles in
            let chat_id := TelegramSettings.chat_id (AppSettings.telegram settings) in
            let tr :=
              if to_telegram
              then tr ++ [PushTelegram chat_id ai_obj matched_keywords]
              else tr in
            match
              (if to_telegram then push_telegram chat_id ai_obj matched_keywords
               else Ok false)
            with
            | Raise _ => (tr, bump_failed c)
            | Ok _ =>
                (* send to wecom *)
                let to_wecom :=
                  wecom_built && keywords_matched && wecom_push_articles in
                let tr :=
                  if to_wecom then tr ++ [PushWeCom ai_obj matched_keywords]
                  else tr in
                match
                  (if to_wecom then push_wecom ai_obj matched_keywords
                   else Ok false)
                with
                | Raise _ => (tr, bump_failed c)
                | Ok _ => (tr, c)
                end
            end
        end
      else (tr, c)
  end.

(** The body of [for e in entries] in [do_fetch_once], for the feed [feed].
    Each call to another component is recorded when it is made.
    [exists_article], [extract_from_url] and the summarizers are called
    outside the [try] block and are taken to return. *)
Definition do_fetch_once_entry (force : bool) (feed : pystr) (e : FeedEntry)
    (c : Counters) : Outcome :=
  let c := bump_processed c in
  if negb force && exists_article feed (uid e) then
    {| counters := bump_dup c; trace := []; keywords_matched := None;
       entry_keywords := [] |}
  else
    let extracting :=
      FetchSettings.use_article_page (AppSettings.fetch settings)
      && truthy_opt (link e) in
    let extracted_content :=
      if extracting
      then extract_from_url (or_empty (link e))
             (FetchSettings.article_timeout_seconds (AppSettings.fetch settings))
      else None in
    let tr := if extracting then [Extract (or_empty (link e))] else [] in
    let content_source :=
      or_empty (or_else (or_else extracted_content (content e)) (Some [])) in
    let haystack := haystack_of e extracted_content in
    let keyword_terms := filter_keywords in
    let (matched_keywords, keywords_matched) :=
      match_keywords keyword_terms haystack in
    let c :=
      if nonempty keyword_terms && keywords_matched
      then bump_keywords (len matched_keywords) c else c in
    (* summarize via AI when keywords matched; otherwise fallback *)
    let attempted_ai := ai_built && keywords_matched in
    let ai_obj :=
      if attempted_ai
      then summarize e content_source
             (AISettings.system_prompt (AppSettings.ai settings))
             (AISettings.user_prompt_template (AppSettings.ai settings))
      else None in
    let tr := if attempted_ai then tr ++ [Summarize e content_source] else tr in
    let c :=
      if attempted_ai
      then bump_ai 1 0 (match ai_obj with None => 1 | Some _ => 0 end) no_usage c
      else c in
    let fallback_content :=
      if truthy content_source then Some content_source else content e in
    let '(ai_obj, tr, c) :=
      match ai_obj with
      | None =>
          (fallback_summary e fallback_content,
           tr ++ [Fallback e fallback_content], c)
      | Some obj =>
          (obj, tr,
           bump_ai 0 1 0
             (match _ai_usage obj with Some u => u | None => no_usage end) c)
      end in
    let article :=
      {| feed_url := feed;
         item_uid := uid e;
         a_title := or_else (s_title ai_obj) (title e);
         a_link := link e;
         a_pub_date := or_else (s_pubDate ai_obj) (pub_date e);
         a_author := or_else (s_author ai_obj) (author e);
         content_text := content_source;
         summary_text := or_empty (or_else (s_summary_text ai_obj) (Some []));
         matched_keywords := matched_keywords |} in
    let '(tr, c) :=
      store_and_push article ai_obj matched_keywords keywords_matched tr c in
    {| counters := c; trace := tr; keywords_matched := Some keywords_matched;
       entry_keywords := matched_keywords |}.

End Entry.

End Pipeline.

(* ================================================================== *)
(** ** Vocabulary of the statements *)
(* ================================================================== *)

Module Vocabulary.

Open Scope Z_scope.

(** The running length the truncation loop keeps: each line and its newline. *)
Fixpoint total (lines : list pystr) : Z :=
  match lines with
  | [] => 0
  | l :: rest => len l + 1 + total rest
  end.

(** Literal substring: the needle sits between two pieces of the haystack. *)
Definition substring (needle hay : pystr) : Prop :=
  exists before after, hay = before ++ needle ++ after.

(** A password that passes the format check of [update_settings]: digits
    only, four of them. *)
Definition well_formed (password : pystr) : bool :=
  isdigit password && (len password =? 4).

(** Whether an outcome is an [HTTPException] with the given status. *)
Definition is_http_error {A} (status : Z) (r : result A) : bool :=
  match r with
  | Raise (HTTPException s _) => s =? status
  | _ => false
  end.

Definition is_ok {A} (r : result A) : bool :=
  match r with Ok _ => true | Raise _ => false end.

(** A report time that parses: two fields around one colon, each accepted
    by [int]. *)
Definition parses_as (report_time : pystr) (hour minute : Z) : Prop :=
  exists a b,
    split Schedule.colon report_time = [a; b] /\
    Py.int a = Some hour /\ Py.int b = Some minute.

(** The clock reading of an instant in the reference zone, in microseconds
    from ordinal 0, midnight. *)
Definition local_clock (now : Schedule.datetime) : Z :=
  Schedule.instant now + Schedule.BEIJING_TZ.

(** Whether the clock of a datetime is at or past [hour]:[minute]:00. *)
Definition at_or_past (d : Schedule.datetime) (hour minute : Z) : bool :=
  hour * 60 + minute <=? Schedule.hour d * 60 + Schedule.minute d.

(** A datetime on an exact hour. *)
Definition on_the_hour (d : Schedule.datetime) : Prop :=
  Schedule.minute d = 0 /\ Schedule.second d = 0 /\ Schedule.microsecond d = 0.

(** A clock reading in the reference zone, on the day with ordinal [day]. *)
Definition beijing (day h m s : Z) : Schedule.datetime :=
  {| Schedule.ordinal := day; Schedule.hour := h; Schedule.minute := m;
     Schedule.second := s; Schedule.microsecond := 0;
     Schedule.utcoffset := Schedule.BEIJING_TZ |}.

(** [out] lists its elements in the order in which they are first seen in
    [src]: an element of [out] occurs in [src] before any occurrence of the
    elements that follow it in [out]. *)
Definition first_seen_order (src out : list pystr) : Prop :=
  forall before x after y,
    out = before ++ x :: after -> In y after ->
    exists s1 s2, src = s1 ++ x :: s2 /\ ~ In y s1.

(** The parts that are not absent: an absent part is [None] or empty. *)
Definition present (parts : list (option pystr)) : list pystr :=
  filter truthy (map or_empty parts).

(** The calls recorded in a trace, by kind. *)
Definition is_summarize (ev : Pipeline.event) : bool :=
  match ev with Pipeline.Summarize _ _ => true | _ => false end.
Definition is_fallback (ev : Pipeline.event) : bool :=
  match ev with Pipeline.Fallback _ _ => true | _ => false end.
Definition is_insert (ev : Pipeline.event) : bool :=
  match ev with Pipeline.Insert _ => true | _ => false end.
Definition is_prune (ev : Pipeline.event) : bool :=
  match ev with Pipeline.Prune _ => true | _ => false end.
Definition is_push_telegram (ev : Pipeline.event) : bool :=
  match ev with Pipeline.PushTelegram _ _ _ => true | _ => false end.
Definition is_push_wecom (ev : Pipeline.event) : bool :=
  match ev with Pipeline.PushWeCom _ _ => true | _ => false end.

(** A string ends with a given suffix. *)
Definition endswith (s suffix : pystr) : Prop :=
  exists before, s = before ++ suffix.

End Vocabulary.

Import Vocabulary.

(** The rendering of a WeCom article notice, part by part; [keyword_separator]
    is what joins the matched keywords. *)
Module Rendering.

Definition bold (title : pystr) : pystr := lit "**" ++ title ++ lit "**".

Definition markdown_link (label url : pystr) : pystr :=
  lit "[" ++ label ++ lit "](" ++ url ++ lit ")".

(** A labelled part, present only for a non-empty value. *)
Definition labelled (label value : pystr) : list pystr :=
  match value with
  | [] => []
  | _ :: _ => [label ++ value]
  end.

Definition keywords_part (keyword_separator : pystr)
    (matched_keywords : option (list pystr)) : list pystr :=
  match matched_keywords with
  | Some ((_ :: _) as kws) => [WeCom.label_keywords ++ join keyword_separator kws]
  | _ => []
  end.

(** The metadata line: the parts that are present, joined by a pipe; no
    line at all when none is present. *)
Definition metadata_line (keyword_separator pub_date author : pystr)
    (matched_keywords : option (list pystr)) : list pystr :=
  match labelled WeCom.label_pub_date pub_date
        ++ labelled WeCom.label_author author
        ++ keywords_part keyword_separator matched_keywords with
  | [] => []
  | (_ :: _) as present => [join (lit " | ") present]
  end.

Definition summary_block (summary_text : pystr) : list pystr :=
  match summary_text with
  | [] => []
  | _ :: _ => [[WeCom.newline] ++ WeCom._truncate_text summary_text 1000]
  end.

Definition rendered (keyword_separator title link pub_date author summary_text : pystr)
    (matched_keywords : option (list pystr)) : pystr :=
  join [WeCom.newline]
       ([bold title; markdown_link WeCom.label_link link]
        ++ metadata_line keyword_separator pub_date author matched_keywords
        ++ summary_block summary_text).

(** The rendering as the specification words it: the matched keywords
    joined by a pipe. *)
Definition rendered_as_specified := rendered (lit " | ").

End Rendering.

(* ================================================================== *)
(** ** Sample data *)
(* ================================================================== *)

Module Samples.

Open Scope Z_scope.

Definition fetch0 : FetchSettings.t :=
  {| FetchSettings.feeds := [lit "https://example.com/rss"];
     FetchSettings.interval_minutes := 30;
     FetchSettings.per_feed_limit := 20;
     FetchSettings.max_items := 500;
     FetchSettings.use_article_page := false;
     FetchSettings.article_timeout_seconds := 15%float;
     FetchSettings.filter_keywords := [PyStr (lit "alpha"); PyStr (lit " beta ")] |}.

Definition ai0 : AISettings.t :=
  {| AISettings.enabled := true;
     AISettings.api_key := lit "sk-secret";
     AISettings.base_url := lit "https://api.example.com/v1";
     AISettings.model := lit "m1";
     AISettings.temperature := 0.5%float;
     AISettings.timeout_seconds := 30%float;
     AISettings.system_prompt := lit "Summarize the article.";
     AISettings.user_prompt_template := lit "{title} {content}" |}.

Definition telegram0 : TelegramSettings.t :=
  {| TelegramSettings.enabled := true;
     TelegramSettings.bot_token := lit "tg-token";
     TelegramSettings.chat_id := lit "42";
     TelegramSettings.push_mode := lit "all";
     TelegramSettings.push_summary := true;
     TelegramSettings.fetch_summary_enabled := true |}.

Definition wecom0 : WeComSettings.t :=
  {| WeComSettings.enabled := true;
     WeComSettings.webhook_key := lit "wc-key";
     WeComSettings.push_mode := lit "all";
     WeComSettings.push_summary := true;
     WeComSettings.fetch_summary_enabled := true |}.

Definition reports0 : ReportSettings.t :=
  {| ReportSettings.daily_enabled := true;
     ReportSettings.hourly_enabled := false;
     ReportSettings.daily_report_time := lit "09:30";
     ReportSettings.system_prompt := lit "Write a report.";
     ReportSettings.user_prompt_template := lit "{articles}";
     ReportSettings.report_timeout_seconds := 60%float |}.

Definition server0 : ServerSettings.t :=
  {| ServerSettings.host := lit "0.0.0.0"; ServerSettings.port := 8000 |}.

Definition logging0 : LoggingSettings.t :=
  {| LoggingSettings.level := lit "INFO"; LoggingSettings.file := lit "logs/app.log" |}.

Definition with_password (p : pystr) : option SecuritySettings.t :=
  Some {| SecuritySettings.admin_password := p |}.

(** The stored document: every secret set, the admin password 1234. *)
Definition stored0 : AppSettings.t :=
  {| AppSettings.fetch := fetch0; AppSettings.ai := ai0;
     AppSettings.telegram := telegram0; AppSettings.wecom := wecom0;
     AppSettings.reports := reports0; AppSettings.server := server0;
     AppSettings.logging := logging0;
     AppSettings.security := with_password (lit "1234") |}.

Definition defaults0 : AppSettings.t :=
  {| AppSettings.fetch := fetch0;
     AppSettings.ai := AISettings.set_api_key [] ai0;
     AppSettings.telegram := TelegramSettings.set_bot_token [] telegram0;
     AppSettings.wecom := WeComSettings.set_webhook_key [] wecom0;
     AppSettings.reports := reports0; AppSettings.server := server0;
     AppSettings.logging := logging0;
     AppSettings.security := with_password (lit "0000") |}.

Definition state0 : Api.State :=
  {| Api.stored := stored0; Api.fetch_scheduler := Some 30;
     Api.hourly_scheduler := false; Api.daily_scheduler := Some (lit "09:30") |}.

(** The document as the settings page sends it back: the three masked
    secrets as the sentinel. *)
Definition masked0 : AppSettings.t :=
  AppSettings.set_ai (AISettings.set_api_key Api.sentinel ai0)
    (AppSettings.set_telegram (TelegramSettings.set_bot_token Api.sentinel telegram0)
       (AppSettings.set_wecom (WeComSettings.set_webhook_key Api.sentinel wecom0)
          stored0)).


(** A new API key, submitted with the password padded by blanks. *)
Definition padded_password_request : Api.UpdateSettingsRequest :=
  {| Api.settings := AppSettings.set_ai (AISettings.set_api_key (lit "sk-new") ai0) stored0;
     Api.password := Some (lit " 1234 ");
     Api.new_password := None |}.

(** Both passwords padded by blanks. *)
Definition padded_new_password_request : Api.UpdateSettingsRequest :=
  {| Api.settings := masked0;
     Api.password := Some (lit " 1234 ");
     Api.new_password := Some (lit " 5678 ") |}.

Definition request_with_password (p : pystr) : Api.UpdateSettingsRequest :=
  {| Api.settings := AppSettings.set_ai (AISettings.set_api_key (lit "sk-new") ai0) stored0;
     Api.password := Some p;
     Api.new_password := None |}.

(** The current [httpx]: [raise_for_status] raises unless the status is 2xx. *)
Definition httpx_raises (status : Z) : bool :=
  negb ((200 <=? status) && (status <=? 299)).

(** A webhook that answers 200 with a JSON object that has no [errcode]. *)
Definition response_without_errcode : WeCom.Response :=
  {| WeCom.status_code := 200;
     WeCom.json := Ok (PyDict [(lit "errmsg", PyStr (lit "ok"))]) |}.

Definition post_without_errcode (url : pystr) (timeout : float) (payload : value)
  : result WeCom.Response :=
  Ok response_without_errcode.

(** A webhook that answers 200 with the given [errcode]. *)
Definition post_errcode (code : Z) (url : pystr) (timeout : float) (payload : value)
  : result WeCom.Response :=
  Ok {| WeCom.status_code := 200;
        WeCom.json := Ok (PyDict [(lit "errcode", PyInt code);
                                  (lit "errmsg", PyStr (lit "x"))]) |}.

Definition post_unreachable (url : pystr) (timeout : float) (payload : value)
  : result WeCom.Response :=
  Raise TransportError.

Definition client0 : WeCom.WeComClient := WeCom.init (lit "wc-key") 20%float.

(** Stand-ins for the storage, the extractor and the summarizers. *)
Definition no_article (feed uid : pystr) : bool := false.

Definition no_extraction (url : pystr) (timeout : float) : option pystr := None.

Definition echo_summary (e : Pipeline.FeedEntry) (content : option pystr)
  : Pipeline.Summary :=
  {| Pipeline.s_title := Pipeline.title e;
     Pipeline.s_pubDate := Pipeline.pub_date e;
     Pipeline.s_author := Pipeline.author e;
     Pipeline.s_summary_text := content;
     Pipeline._ai_usage := None |}.

Definition ai_summary (e : Pipeline.FeedEntry)
    (content system_prompt user_prompt_template : pystr) : option Pipeline.Summary :=
  Some {| Pipeline.s_title := Pipeline.title e;
          Pipeline.s_pubDate := Pipeline.pub_date e;
          Pipeline.s_author := Pipeline.author e;
          Pipeline.s_summary_text := Some (lit "AI: " ++ content);
          Pipeline._ai_usage :=
            Some {| Pipeline.prompt_tokens := 10; Pipeline.completion_tokens := 5;
                    Pipeline.total_tokens := 15 |} |}.

Definition insert_new (a : Pipeline.ArticleCreate) : result (option Z) := Ok (Some 1).

Definition feed0 : pystr := lit "https://example.com/rss".

(** An entry whose haystack has alpha twice and beta once. *)
Definition entry_alpha : Pipeline.FeedEntry :=
  {| Pipeline.uid := lit "u1";
     Pipeline.title := Some (lit "alpha and beta");
     Pipeline.link := Some (lit "https://example.com/1");
     Pipeline.pub_date := None;
     Pipeline.author := Some (lit "alpha");
     Pipeline.content := Some (lit "text") |}.

(** An entry that mentions no keyword. *)
Definition entry_gamma : Pipeline.FeedEntry :=
  {| Pipeline.uid := lit "u2";
     Pipeline.title := Some (lit "gamma");
     Pipeline.link := Some (lit "https://example.com/2");
     Pipeline.pub_date := None;
     Pipeline.author := None;
     Pipeline.content := Some (lit "text") |}.

Definition counters0 : Pipeline.Counters :=
  {| Pipeline.processed := 0; Pipeline.dup := 0; Pipeline.new_items := 0;
     Pipeline.failed_items := 0; Pipeline.ai_calls := 0; Pipeline.ai_success := 0;
     Pipeline.ai_failed := 0; Pipeline.tokens_prompt := 0;
     Pipeline.tokens_completion := 0; Pipeline.tokens_total := 0;
     Pipeline.keyword_match_hits := 0; Pipeline.keyword_match_articles := 0 |}.

(** Pruning and pushes that go through, and pruning that raises. *)
Definition prune_done (max_items : Z) : result unit := Ok tt.

Definition prune_raises (max_items : Z) : result unit := Raise TransportError.

Definition telegram_sent (chat_id : pystr) (item : Pipeline.Summary)
    (keywords : list pystr) : result bool := Ok true.

Definition telegram_raises (chat_id : pystr) (item : Pipeline.Summary)
    (keywords : list pystr) : result bool := Raise TransportError.

Definition wecom_sent (item : Pipeline.Summary) (keywords : list pystr)
  : result bool := Ok true.

Definition process_sample (e : Pipeline.FeedEntry) : Pipeline.Outcome :=
  Pipeline.do_fetch_once_entry no_article no_extraction ai_summary echo_summary insert_new
    prune_done telegram_sent wecom_sent stored0 false feed0 e counters0.

(** The same run with a database that fails to prune, and with a Telegram
    client that raises. *)
Definition process_sample_prune_raises (e : Pipeline.FeedEntry) : Pipeline.Outcome :=
  Pipeline.do_fetch_once_entry no_article no_extraction ai_summary echo_summary insert_new
    prune_raises telegram_sent wecom_sent stored0 false feed0 e counters0.

Definition process_sample_telegram_raises (e : Pipeline.FeedEntry) : Pipeline.Outcome :=
  Pipeline.do_fetch_once_entry no_article no_extraction ai_summary echo_summary insert_new
    prune_done telegram_raises wecom_sent stored0 false feed0 e counters0.

End Samples.

(* ================================================================== *)
(** ** [main.py]: message formats, manual endpoints, entry selection *)
(* ================================================================== *)

From Stdlib Require DecimalString.
From Stdlib Require Import Sorting.Permutation.

Module Notices.

Open Scope Z_scope.

(** [str(n)] for an [int]. *)
Definition str_of_int (n : Z) : pystr :=
  lit (DecimalString.NilZero.string_of_int (Z.to_int n)).

(** What an f-string makes of a value that is a [str] or [None]. *)
Definition fmt (v : option pystr) : pystr :=
  match v with
  | Some s => s
  | None => lit "None"
  end.

(** The [item] dict of the formatters, read through [item.get(key, s)]
    with [s] the empty string: each field is a [str] ([Some]) or [None]; a
    missing key reads as the empty string.  (These are the values
    [api_push_article] puts in; other JSON types are outside the model.) *)
Record Item : Type := {
  title : option pystr;
  link : option pystr;
  pubDate : option pystr;
  author : option pystr;
  summary_text : option pystr
}.

Definition quote : pystr := [34%N].

(** [_format_telegram_message] *)
Definition _format_telegram_message (item : Item)
    (matched_keywords : option (list pystr)) : pystr :=
  let keywords := match matched_keywords with Some l => l | None => [] end in
  let parts := [ lit "<b>" ++ fmt (title item) ++ lit "</b>";
                 lit "<a href=" ++ quote ++ fmt (link item) ++ quote ++ lit ">"
                   ++ WeCom.label_link ++ lit "</a>" ] in
  let meta := [] in
  let meta := if truthy_opt (pubDate item)
              then meta ++ [WeCom.label_pub_date ++ fmt (pubDate item)] else meta in
  let meta := if truthy_opt (author item)
              then meta ++ [WeCom.label_author ++ fmt (author item)] else meta in
  let meta := if nonempty keywords
              then meta ++ [WeCom.label_keywords ++ join WeCom.ideographic_comma keywords]
              else meta in
  let parts := if nonempty meta then parts ++ [join (lit " | ") meta] else parts in
  let parts := if truthy_opt (summary_text item)
               then parts ++ [[WeCom.newline] ++ or_empty (summary_text item)]
               else parts in
  join [WeCom.newline] parts.

(** [_format_wecom_message]: the title and the link go through the
    f-strings of [format_markdown_message]; the other fields are only
    formatted when truthy, so a [None] there behaves as the empty string. *)
Definition _format_wecom_message (item : Item)
    (matched_keywords : option (list pystr)) : pystr :=
  let keywords := match matched_keywords with Some l => l | None => [] end in
  WeCom.format_markdown_message (fmt (title item)) (fmt (link item))
    (or_empty (pubDate item)) (or_empty (author item))
    (or_empty (summary_text item)) (Some keywords).

(** Modelled from the spec: [ReportInDB] of [models.py]; the two ends of
    the time frame as the f-string renders them. *)
Record Report : Type := {
  report_id : Z;
  report_type : pystr;
  report_title : pystr;
  report_summary : pystr;
  timeframe_start : pystr;
  timeframe_end : pystr;
  article_count : Z
}.

Definition label_timeframe : pystr := [26102; 38388; 33539; 22260; 65306]%N.
Definition label_article_count : pystr := [25991; 31456; 24635; 25968; 65306]%N.

(** The message that [api_push_report] builds for either platform, before
    it is cut. *)
Definition report_message (report : Report) : pystr :=
  let header := lit "RSS-AI " ++ report_type report in
  let body_lines :=
    [ header;
      label_timeframe ++ timeframe_start report ++ lit " ~ " ++ timeframe_end report;
      label_article_count ++ str_of_int (article_count report);
      [];
      report_summary report ] in
  join [WeCom.newline] body_lines.

(** [if len(message) > max_len: message = message[: max_len - 3] + "..."] *)
Definition cut (max_len : Z) (message : pystr) : pystr :=
  if len message >? max_len
  then firstn (Z.to_nat (max_len - 3)) message ++ WeCom.ellipsis
  else message.

End Notices.

Module Manual.

Open Scope Z_scope.

(** Modelled from the spec: [ArticleInDB] and [ManualPushRequest] of
    [models.py]. *)
Record Article : Type := {
  id : Z;
  feed_url : pystr;
  item_uid : pystr;
  title : option pystr;
  link : option pystr;
  pub_date : option pystr;
  author : option pystr;
  content_text : option pystr;
  summary_text : option pystr;
  matched_keywords : option (list pystr);
  created_at : pystr
}.

Record ManualPushRequest : Type := {
  platforms : list pystr
}.

Record PushResult : Type := {
  platform : pystr;
  success : bool;
  message : pystr
}.

(** The calls made to the two clients, in order. *)
Inductive sent : Type :=
| SentTelegram (chat_id text : pystr) (parse_mode : option pystr)
               (disable_web_page_preview : bool)
| SentWeCom (client : WeCom.WeComClient) (text : pystr).

Definition msg_pushed : pystr := [25512; 36865; 25104; 21151]%N.
Definition msg_failed : pystr := [25512; 36865; 22833; 36133]%N.
Definition msg_exception : pystr := [25512; 36865; 24322; 24120; 58; 32]%N.

(** [x in platforms] *)
Definition requested (name : pystr) (platforms : list pystr) : bool :=
  existsb (str_eqb name) platforms.

Definition outcome_message (ok : bool) : pystr :=
  if ok then msg_pushed else msg_failed.

Section Endpoints.

(** The storage, the Telegram client and the network, as the endpoints see
    them; [exn_str] is [str(e)]. *)
Variable get_article : Z -> option Article.
Variable get_report : Z -> option Notices.Report.
Variable tg_send : pystr -> pystr -> option pystr -> bool -> result bool.
Variable post : pystr -> float -> value -> result WeCom.Response.
Variable raises_for_status : Z -> bool.
Variable exn_str : exn -> pystr.

(** One guarded push: the [try] block's result entry, or the [except]
    block's. *)
Definition attempt (name : pystr) (call : result bool) : PushResult :=
  match call with
  | Ok ok => {| platform := name; success := ok; message := outcome_message ok |}
  | Raise e => {| platform := name; success := false;
                  message := msg_exception ++ exn_str e |}
  end.

(** [_build_wecom_client]: the client, when one is built. *)
Definition _build_wecom_client (settings : AppSettings.t) : option WeCom.WeComClient :=
  if Pipeline.wecom_built settings
  then Some (WeCom.init (WeComSettings.webhook_key (AppSettings.wecom settings))
                        20%float)
  else None.

(** The two guarded pushes shared by [api_push_article] and
    [api_push_report], given the message for each platform. *)
Definition push_to_platforms (settings : AppSettings.t) (req : ManualPushRequest)
    (telegram_message : pystr) (parse_mode : option pystr) (disable_preview : bool)
    (wecom_message : pystr) : list PushResult * list sent :=
  let results := [] in
  let calls := [] in
  let '(results, calls) :=
    if requested (lit "telegram") (platforms req)
       && Pipeline.tg_built settings
       && TelegramSettings.enabled (AppSettings.telegram settings)
    then
      let chat_id := TelegramSettings.chat_id (AppSettings.telegram settings) in
      (results ++ [attempt (lit "telegram")
                     (tg_send chat_id telegram_message parse_mode disable_preview)],
       calls ++ [SentTelegram chat_id telegram_message parse_mode disable_preview])
    else (results, calls) in
  let '(results, calls) :=
    match _build_wecom_client settings with
    | Some wecom_client =>
        if requested (lit "wecom") (platforms req)
           && WeComSettings.enabled (AppSettings.wecom settings)
        then
          (results ++ [attempt (lit "wecom")
                         (WeCom.send_message post raises_for_status wecom_client
                            wecom_message)],
           calls ++ [SentWeCom wecom_client wecom_message])
        else (results, calls)
    | None => (results, calls)
    end in
  (results, calls).

(** [api_push_article] *)
Definition api_push_article (article_id : Z) (req : ManualPushRequest)
    (st : Api.State) : result (list PushResult) * list sent :=
  match get_article article_id with
  | None => (Raise (HTTPException 404 (lit "Article not found")), [])
  | Some item =>
      let settings := Api.load_settings st in
      let item_dict :=
        {| Notices.title := title item;
           Notices.link := link item;
           Notices.pubDate := pub_date item;
           Notices.author := author item;
           Notices.summary_text := summary_text item |} in
      let (results, calls) :=
        push_to_platforms settings req
          (Notices._format_telegram_message item_dict (matched_keywords item))
          (Some (lit "HTML")) false
          (Notices._format_wecom_message item_dict (matched_keywords item)) in
      (Ok results, calls)
  end.

(** [api_push_report] *)
Definition api_push_report (report_id : Z) (req : ManualPushRequest)
    (st : Api.State) : result (list PushResult) * list sent :=
  match get_report report_id with
  | None => (Raise (HTTPException 404 (lit "Report not found")), [])
  | Some report =>
      let settings := Api.load_settings st in
      let (results, calls) :=
        push_to_platforms settings req
          (Notices.cut 3900 (Notices.report_message report)) None true
          (Notices.cut 4000 (Notices.report_message report)) in
      (Ok results, calls)
  end.

End Endpoints.

(** [_manual_report_timeframe], with [datetime.now(BEIJING_TZ)] as [now]
    read in the reference zone. *)
Definition _manual_report_timeframe (now : Schedule.datetime) (report_type : pystr)
  : result (Schedule.datetime * Schedule.datetime) :=
  let now_local := Schedule.astimezone Schedule.BEIJING_TZ now in
  window <-
    (if str_eqb report_type (lit "daily") then
       Ok (Schedule.replace (Some 0) (Some 0) (Some 0) (Some 0) now_local, now_local)
     else if str_eqb report_type (lit "hourly") then
       Ok (Schedule.add now_local (- Schedule.hours 1), now_local)
     else Raise ValueError) ;;
  let (start_local, end_local) := window in
  Ok (Schedule.astimezone Schedule.utc start_local,
      Schedule.astimezone Schedule.utc end_local).

End Manual.

Module Selection.

Open Scope Z_scope.

Section Select.

(** [getattr(x, 'sort_ts', 0)]: the timestamp an entry is sorted by, taken
    as an integer. *)
Variable sort_ts : Pipeline.FeedEntry -> Z.

(** [entries.sort(key=..., reverse=True)] is the stable sort by decreasing
    key; a stable sort has one result, computed here by insertion. *)
Fixpoint insert_newest_first (x : Pipeline.FeedEntry) (sorted : list Pipeline.FeedEntry)
  : list Pipeline.FeedEntry :=
  match sorted with
  | [] => [x]
  | y :: rest =>
      if sort_ts x <? sort_ts y then y :: insert_newest_first x rest
      else x :: y :: rest
  end.

Fixpoint sort_newest_first (entries : list Pipeline.FeedEntry)
  : list Pipeline.FeedEntry :=
  match entries with
  | [] => []
  | x :: rest => insert_newest_first x (sort_newest_first rest)
  end.

(** The [if entries:] block of [do_fetch_once]: sort, then cap. *)
Definition select_entries (per_feed_limit : Z) (entries : list Pipeline.FeedEntry)
  : list Pipeline.FeedEntry :=
  match entries with
  | [] => entries
  | _ :: _ =>
      let entries := sort_newest_first entries in
      let limit := Z.max 1 per_feed_limit in
      if len entries >? limit then firstn (Z.to_nat limit) entries else entries
  end.

End Select.

End Selection.

(* ================================================================== *)
(** ** Further vocabulary and sample data *)
(* ================================================================== *)

Module Terms.

Open Scope Z_scope.

(** The first line of a text. *)
Definition first_line (text : pystr) : pystr := hd [] (split WeCom.newline text).

(** The keywords a message shows. *)
Definition shown_keywords (matched_keywords : option (list pystr)) : list pystr :=
  match matched_keywords with Some l => l | None => [] end.

(** The first two lines of an article notice, for each platform. *)
Definition html_head (item : Notices.Item) : pystr :=
  lit "<b>" ++ Notices.fmt (Notices.title item) ++ lit "</b>" ++ [WeCom.newline]
  ++ lit "<a href=" ++ Notices.quote ++ Notices.fmt (Notices.link item)
  ++ Notices.quote ++ lit ">" ++ WeCom.label_link ++ lit "</a>".

Definition markdown_head (item : Notices.Item) : pystr :=
  lit "**" ++ Notices.fmt (Notices.title item) ++ lit "**" ++ [WeCom.newline]
  ++ lit "[" ++ WeCom.label_link ++ lit "](" ++ Notices.fmt (Notices.link item)
  ++ lit ")".

(** The lines of an article notice after the first two: the metadata line
    and the summary block ([shown] is the summary as the platform shows
    it, [None] when there is none). *)
Definition notice_rest (pub_date author : pystr) (keywords : list pystr)
    (shown : option pystr) : list pystr :=
  Rendering.metadata_line WeCom.ideographic_comma pub_date author (Some keywords)
  ++ match shown with
     | Some text => [[WeCom.newline] ++ text]
     | None => []
     end.

(** Further lines, each after a newline. *)
Definition tail_lines (rest : list pystr) : pystr :=
  match rest with
  | [] => []
  | _ :: _ => [WeCom.newline] ++ join [WeCom.newline] rest
  end.

(** A prompt or a timeout after back-filling: the default when the value
    is blank (zero for a timeout), the value otherwise. *)
Definition pick_str (default x : pystr) : pystr :=
  if Api.blank x then default else x.

Definition pick_float (default x : float) : float :=
  if Api.float_falsy x then default else x.

(** A settings document with its six prompts and timeouts back-filled from
    the defaults, field by field. *)
Definition filled (defaults s : AppSettings.t) : AppSettings.t :=
  let a := AppSettings.ai s in
  let da := AppSettings.ai defaults in
  let r := AppSettings.reports s in
  let dr := AppSettings.reports defaults in
  {| AppSettings.fetch := AppSettings.fetch s;
     AppSettings.ai :=
       {| AISettings.enabled := AISettings.enabled a;
          AISettings.api_key := AISettings.api_key a;
          AISettings.base_url := AISettings.base_url a;
          AISettings.model := AISettings.model a;
          AISettings.temperature := AISettings.temperature a;
          AISettings.timeout_seconds :=
            pick_float (AISettings.timeout_seconds da) (AISettings.timeout_seconds a);
          AISettings.system_prompt :=
            pick_str (AISettings.system_prompt da) (AISettings.system_prompt a);
          AISettings.user_prompt_template :=
            pick_str (AISettings.user_prompt_template da)
                     (AISettings.user_prompt_template a) |};
     AppSettings.telegram := AppSettings.telegram s;
     AppSettings.wecom := AppSettings.wecom s;
     AppSettings.reports :=
       {| ReportSettings.daily_enabled := ReportSettings.daily_enabled r;
          ReportSettings.hourly_enabled := ReportSettings.hourly_enabled r;
          ReportSettings.daily_report_time := ReportSettings.daily_report_time r;
          ReportSettings.system_prompt :=
            pick_str (ReportSettings.system_prompt dr) (ReportSettings.system_prompt r);
          ReportSettings.user_prompt_template :=
            pick_str (ReportSettings.user_prompt_template dr)
                     (ReportSettings.user_prompt_template r);
          ReportSettings.report_timeout_seconds :=
            pick_float (ReportSettings.report_timeout_seconds dr)
                       (ReportSettings.report_timeout_seconds r) |};
     AppSettings.server := AppSettings.server s;
     AppSettings.logging := AppSettings.logging s;
     AppSettings.security := AppSettings.security s |}.

(** No prompt is blank and no timeout is zero. *)
Definition prompts_present (s : AppSettings.t) : bool :=
  negb (Api.blank (AISettings.system_prompt (AppSettings.ai s)))
  && negb (Api.blank (AISettings.user_prompt_template (AppSettings.ai s)))
  && negb (Api.float_falsy (AISettings.timeout_seconds (AppSettings.ai s)))
  && negb (Api.blank (ReportSettings.system_prompt (AppSettings.reports s)))
  && negb (Api.blank (ReportSettings.user_prompt_template (AppSettings.reports s)))
  && negb (Api.float_falsy
             (ReportSettings.report_timeout_seconds (AppSettings.reports s))).

(** The request the settings page sends when the document it read is
    saved unchanged. *)
Definition save_unchanged (defaults : AppSettings.t) (st : Api.State)
    (current_password : pystr) : Api.UpdateSettingsRequest :=
  {| Api.settings := Api.get_settings defaults st;
     Api.password := Some current_password;
     Api.new_password := None |}.

(** Whether a platform has a client and is enabled. *)
Definition platform_ready (settings : AppSettings.t) (name : pystr) : bool :=
  if str_eqb name (lit "telegram") then
    Pipeline.tg_built settings
    && TelegramSettings.enabled (AppSettings.telegram settings)
  else if str_eqb name (lit "wecom") then
    Pipeline.wecom_built settings
    && WeComSettings.enabled (AppSettings.wecom settings)
  else false.

(** The client [_build_wecom_client] builds, when it builds one. *)
Definition wecom_client_of (settings : AppSettings.t) : WeCom.WeComClient :=
  WeCom.init (WeComSettings.webhook_key (AppSettings.wecom settings)) 20%float.

(** The platforms a manual push reaches: those requested and ready, Telegram
    first. *)
Definition reached (settings : AppSettings.t) (req : Manual.ManualPushRequest)
  : list pystr :=
  filter (fun name => Manual.requested name (Manual.platforms req)
                      && platform_ready settings name)
         [lit "telegram"; lit "wecom"].

(** The text a recorded call carries. *)
Definition text_of (c : Manual.sent) : pystr :=
  match c with
  | Manual.SentTelegram _ text _ _ => text
  | Manual.SentWeCom _ text => text
  end.

Definition is_telegram_call (c : Manual.sent) : bool :=
  match c with Manual.SentTelegram _ _ _ _ => true | _ => false end.

(** The calls that prepare an article: extraction and the two summarizers. *)
Definition prepares (ev : Pipeline.event) : bool :=
  match ev with
  | Pipeline.Extract _ | Pipeline.Summarize _ _ | Pipeline.Fallback _ _ => true
  | _ => false
  end.

(** [if row_id:] on what [insert_article] gave: a row id that is truthy. *)
Definition new_row (r : result (option Z)) : bool :=
  match r with
  | Ok (Some id) => negb (id =? 0)
  | _ => false
  end.

(** Whether the entry went past the keyword filter; an entry skipped as a
    duplicate did not. *)
Definition passed (matched : option bool) : bool :=
  match matched with Some flag => flag | None => false end.

(** Newest first: no entry is older than one that follows it. *)
Fixpoint newest_first (sort_ts : Pipeline.FeedEntry -> Z)
    (entries : list Pipeline.FeedEntry) : Prop :=
  match entries with
  | [] => True
  | x :: rest =>
      (forall y, In y rest -> sort_ts y <= sort_ts x) /\ newest_first sort_ts rest
  end.

End Terms.

Import Terms.

Module MoreSamples.

Open Scope Z_scope.

Definition three_lines : pystr :=
  lit "ab" ++ [WeCom.newline] ++ lit "cd" ++ [WeCom.newline] ++ lit "efghij".

Definition item0 : Notices.Item :=
  {| Notices.title := Some (lit "Title");
     Notices.link := Some (lit "https://example.com/1");
     Notices.pubDate := Some (lit "2024-01-01");
     Notices.author := None;
     Notices.summary_text := Some (lit "short summary") |}.

Definition article0 : Manual.Article :=
  {| Manual.id := 7; Manual.feed_url := lit "https://example.com/rss";
     Manual.item_uid := lit "u1"; Manual.title := Some (lit "Title");
     Manual.link := Some (lit "https://example.com/1");
     Manual.pub_date := Some (lit "2024-01-01"); Manual.author := None;
     Manual.content_text := Some (lit "content");
     Manual.summary_text := Some (lit "short summary");
     Manual.matched_keywords := Some [lit "alpha"];
     Manual.created_at := lit "2024-01-01 00:00:00" |}.

Definition report0 : Notices.Report :=
  {| Notices.report_id := 3; Notices.report_type := lit "daily";
     Notices.report_title := lit "Daily";
     Notices.report_summary := lit "Nothing happened.";
     Notices.timeframe_start := lit "2024-01-01 00:00";
     Notices.timeframe_end := lit "2024-01-02 00:00";
     Notices.article_count := 12 |}.

Definition get_article0 (article_id : Z) : option Manual.Article :=
  if article_id =? 7 then Some article0 else None.

Definition get_report0 (report_id : Z) : option Notices.Report :=
  if report_id =? 3 then Some report0 else None.

(** A Telegram client whose request fails with an exception. *)
Definition tg_raises (chat_id text : pystr) (parse_mode : option pystr)
    (disable_preview : bool) : result bool := Raise TransportError.

Definition exn_str0 (e : exn) : pystr := lit "error".

Definition both_platforms : Manual.ManualPushRequest :=
  {| Manual.platforms := [lit "wecom"; lit "telegram"; lit "wecom"] |}.

(** The stored document with the daily report moved to 10:00. *)
Definition report_time_request : Api.UpdateSettingsRequest :=
  {| Api.settings :=
       AppSettings.set_reports
         {| ReportSettings.daily_enabled := true;
            ReportSettings.hourly_enabled := true;
            ReportSettings.daily_report_time := lit "10:00";
            ReportSettings.system_prompt := lit "Write a report.";
            ReportSettings.user_prompt_template := lit "{articles}";
            ReportSettings.report_timeout_seconds := 60%float |}
         Samples.masked0;
     Api.password := Some (lit "1234");
     Api.new_password := None |}.

End MoreSamples.

(* ================================================================== *)
(** * Properties *)
(* ================================================================== *)

Unset Implicit Arguments.

(** ** Strings *)

Module PyFacts.

Import Vocabulary.
Open Scope Z_scope.

Lemma len_nil {A} : len (@nil A) = 0.
Proof. reflexivity. Qed.

Lemma len_cons {A} (x : A) (l : list A) : len (x :: l) = len l + 1.
Proof. unfold len. cbn [List.length]. lia. Qed.

Lemma len_app {A} (a b : list A) : len (a ++ b) = len a + len b.
Proof. unfold len. rewrite length_app. lia. Qed.

Lemma len_nonneg {A} (l : list A) : 0 <= len l.
Proof. unfold len. lia. Qed.

Lemma len_zero_nil {A} (l : list A) : len l = 0 -> l = [].
Proof. destruct l; [reflexivity | rewrite len_cons; pose proof (len_nonneg l); lia]. Qed.

Lemma cp_eqb_eq (a b : codepoint) : cp_eqb a b = true <-> a = b.
Proof. apply N.eqb_eq. Qed.

Lemma str_eqb_eq (a b : pystr) : str_eqb a b = true <-> a = b.
Proof.
  revert b. induction a as [|x a IH]; intros [|y b]; cbn; try (split; congruence).
  rewrite andb_true_iff, cp_eqb_eq, IH. split.
  - intros [-> ->]. reflexivity.
  - intros H. inversion H. auto.
Qed.

Lemma str_eqb_refl (a : pystr) : str_eqb a a = true.
Proof. apply str_eqb_eq. reflexivity. Qed.

Lemma str_eqb_neq (a b : pystr) : str_eqb a b = false <-> a <> b.
Proof.
  rewrite <- str_eqb_eq. destruct (str_eqb a b); split; congruence.
Qed.

Lemma truthy_true (s : pystr) : truthy s = true <-> s <> [].
Proof. destruct s; cbn; split; congruence. Qed.

Lemma total_app (a b : list pystr) : total (a ++ b) = total a + total b.
Proof. induction a as [|x a IH]; cbn [total app]; lia. Qed.

Lemma total_nonneg (l : list pystr) : 0 <= total l.
Proof. induction l as [|x l IH]; cbn [total]; [lia | pose proof (len_nonneg x); lia]. Qed.

Lemma total_pos (x : pystr) (l : list pystr) : 1 <= total (x :: l).
Proof. cbn [total]. pose proof (len_nonneg x). pose proof (total_nonneg l). lia. Qed.

(** Joining with a one-character separator: one character less than the
    running length, unless nothing was joined. *)
Lemma len_join (c : codepoint) (l : list pystr) :
  len (join [c] l) = match l with [] => 0 | _ :: _ => total l - 1 end.
Proof.
  induction l as [|x l IH]; [reflexivity|].
  cbn [join]. destruct l as [|y l].
  - cbn [total]. lia.
  - rewrite !len_app, IH. cbn [total]. rewrite len_cons, len_nil. lia.
Qed.

Lemma split_nonempty (sep : codepoint) (s : pystr) : split sep s <> [].
Proof.
  destruct s as [|c s]; cbn; [congruence|].
  destruct (cp_eqb c sep); [congruence|].
  destruct (split sep s); congruence.
Qed.

Lemma total_split (sep : codepoint) (s : pystr) : total (split sep s) = len s + 1.
Proof.
  induction s as [|c s IH]; [reflexivity|].
  cbn [split]. destruct (cp_eqb c sep).
  - cbn [total]. rewrite IH, len_nil, len_cons. lia.
  - destruct (split sep s) as [|w ws] eqn:E.
    + exfalso. exact (split_nonempty _ _ E).
    + cbn [total] in *. rewrite !len_cons in *. lia.
Qed.

(** Splitting and joining on the same character gives the string back. *)
Lemma join_split (sep : codepoint) (s : pystr) : join [sep] (split sep s) = s.
Proof.
  induction s as [|c s IH]; [reflexivity|].
  cbn [split]. destruct (cp_eqb c sep) eqn:E.
  - apply cp_eqb_eq in E. subst c.
    cbn [join]. destruct (split sep s) as [|w ws] eqn:Es.
    + exfalso. exact (split_nonempty _ _ Es).
    + cbn [app]. f_equal. exact IH.
  - destruct (split sep s) as [|w ws] eqn:Es.
    + exfalso. exact (split_nonempty _ _ Es).
    + cbn [join] in *. destruct ws; cbn [app] in *; f_equal; exact IH.
Qed.

Lemma startswith_spec (p s : pystr) :
  startswith p s = true <-> exists after, s = p ++ after.
Proof.
  revert s. induction p as [|a p IH]; intros s.
  - cbn. split; [intros _; exists s; reflexivity | reflexivity].
  - destruct s as [|b s]; cbn.
    + split; [congruence | intros [r H]; discriminate H].
    + rewrite andb_true_iff, cp_eqb_eq, IH. split.
      * intros [-> [r ->]]. exists r. reflexivity.
      * intros [r H]. inversion H. split; [reflexivity | exists r; reflexivity].
Qed.

Lemma contains_spec (needle hay : pystr) :
  contains needle hay = true <-> substring needle hay.
Proof.
  unfold substring. induction hay as [|c hay IH].
  - cbn [contains]. rewrite orb_false_r, startswith_spec. split.
    + intros [r H]. exists [], r. exact H.
    + intros [b [a H]]. destruct b; [exists a; exact H | discriminate H].
  - cbn [contains]. rewrite orb_true_iff, startswith_spec, IH. split.
    + intros [[r H] | [b [a H]]].
      * exists [], r. exact H.
      * exists (c :: b), a. cbn. f_equal. exact H.
    + intros [b [a H]]. destruct b as [|x b].
      * left. exists a. exact H.
      * right. inversion H. exists b, a. reflexivity.
Qed.

End PyFacts.

Import PyFacts.

(** ** The WeCom client *)

Module WeComFacts.

Import WeCom.
Open Scope Z_scope.

(** The loop keeps a prefix of the lines: it stops at the first line that
    would push the running length past [max_length - 3]. *)
Lemma truncate_loop_spec (max_length : Z) (lines result : list pystr) (cur : Z) :
  cur = total result ->
  exists kept rest,
    lines = kept ++ rest /\
    truncate_loop max_length lines result cur = result ++ kept /\
    (kept = [] \/ total (result ++ kept) <= max_length - 3) /\
    (rest = [] \/
     exists line rest', rest = line :: rest' /\
       total (result ++ kept) + len line + 1 > max_length - 3).
Proof.
  revert result cur. induction lines as [|line lines IH]; intros result cur Hcur.
  - exists [], []. cbn [truncate_loop app]. repeat split; rewrite ?app_nil_r; auto.
  - cbn [truncate_loop].
    destruct (cur + len line + 1 >? max_length - 3) eqn:G.
    + exists [], (line :: lines). repeat split; rewrite ?app_nil_r; auto.
      right. exists line, lines. split; [reflexivity|]. lia.
    + destruct (IH (result ++ [line]) (cur + len line + 1)) as (kept & rest & H1 & H2 & H3 & H4).
      { rewrite total_app. cbn [total]. lia. }
      exists (line :: kept), rest.
      replace (result ++ line :: kept) with ((result ++ [line]) ++ kept)
        by (rewrite <- app_assoc; reflexivity).
      repeat split.
      * cbn. f_equal. exact H1.
      * exact H2.
      * right. destruct H3 as [-> | H3]; [|exact H3].
        rewrite app_nil_r, total_app. cbn [total]. lia.
      * exact H4.
Qed.

Lemma truncate_text_fits (text : pystr) (max_length : Z) :
  len text <= max_length -> _truncate_text text max_length = text.
Proof.
  intros H. unfold _truncate_text.
  destruct (len text <=? max_length) eqn:E; [reflexivity | lia].
Qed.

(** A text longer than a positive [max_length] is cut at a line boundary,
    greedily, and always gets the ellipsis. *)
Lemma truncate_text_greedy (text : pystr) (max_length : Z) :
  0 < max_length -> max_length < len text ->
  exists kept line rest,
    split newline text = kept ++ line :: rest /\
    (kept = [] \/ total kept <= max_length - 3) /\
    total kept + len line + 1 > max_length - 3 /\
    _truncate_text text max_length = join [newline] kept ++ ellipsis.
Proof.
  intros Hpos Hlong. unfold _truncate_text.
  destruct (len text <=? max_length) eqn:E; [lia|].
  destruct (truncate_loop_spec max_length (split newline text) [] 0 eq_refl)
    as (kept & rest & H1 & H2 & H3 & H4).
  cbn [app] in H2, H3, H4. rewrite H2.
  assert (Hrest : exists line rest', rest = line :: rest' /\
                     total kept + len line + 1 > max_length - 3).
  { destruct H4 as [-> | H4]; [|exact H4]. exfalso.
    rewrite app_nil_r in H1. subst kept.
    pose proof (total_split newline text) as Ht.
    destruct H3 as [H3 | H3]; [exact (split_nonempty _ _ H3) | lia]. }
  destruct Hrest as (line & rest' & -> & Hover).
  exists kept, line, rest'. repeat split; auto.
  assert (Hlen : len (join [newline] kept) < len text).
  { rewrite len_join. destruct kept as [|k kept]; [lia|].
    destruct H3 as [H3 | H3]; [discriminate H3 | lia]. }
  destruct (len (join [newline] kept) <? len text) eqn:E2; [reflexivity | lia].
Qed.

(** With room for the ellipsis the result stays within [max_length]. *)
Lemma truncate_text_bound (text : pystr) (max_length : Z) :
  3 <= max_length -> len (_truncate_text text max_length) <= max_length.
Proof.
  intros H3. destruct (Z_le_gt_dec (len text) max_length) as [Hfit | Hlong].
  - rewrite truncate_text_fits; assumption.
  - destruct (truncate_text_greedy text max_length) as (kept & line & rest & _ & Hk & _ & ->);
      [lia | lia |].
    rewrite len_app, len_join. change (len ellipsis) with 3.
    destruct kept as [|k kept]; [lia|].
    destruct Hk as [Hk | Hk]; [discriminate Hk | lia].
Qed.

Lemma truncate_text_ellipsis (text : pystr) (max_length : Z) :
  0 < max_length -> max_length < len text ->
  endswith (_truncate_text text max_length) ellipsis.
Proof.
  intros Hpos Hlong.
  destruct (truncate_text_greedy text max_length Hpos Hlong) as (kept & line & rest & _ & _ & _ & ->).
  exists (join [newline] kept). reflexivity.
Qed.

(** [send_message] as one case analysis: it always returns. *)
Lemma send_message_cases
    (post : pystr -> float -> value -> result Response)
    (raises_for_status : Z -> bool) (self : WeComClient) (content : pystr) :
  send_message post raises_for_status self content =
  Ok match webhook_key self with
     | [] => false
     | _ :: _ =>
         match post (webhook_url self) (timeout self) (payload_of content) with
         | Raise _ => false
         | Ok resp =>
             if raises_for_status (status_code resp) then false
             else match json resp with
                  | Ok (PyDict d) =>
                      match lookup (lit "errcode") d with
                      | Some v => negb (ne_zero v)
                      | None => false
                      end
                  | _ => false
                  end
         end
     end.
Proof.
  unfold send_message, raise_for_status.
  destruct (webhook_key self) as [|k ks]; [reflexivity|]. cbn [truthy negb].
  destruct (post _ _ _) as [resp|e]; [|reflexivity]. cbn [bind try_except].
  destruct (raises_for_status _); [reflexivity|]. cbn [bind try_except].
  destruct (json resp) as [[ | b | z | f | s | l | d ] | e]; try reflexivity.
  cbn [bind get]. destruct (lookup _ d) as [v|]; cbn [bind try_except].
  - destruct (ne_zero v); reflexivity.
  - reflexivity.
Qed.

End WeComFacts.

Module WeComClaims.

Import WeCom Rendering.
Open Scope Z_scope.

(** C3, counterexample to the bound for every positive [max_length].  For
    the text "abcd" and [max_length = 2] the text does not fit, no line
    can be kept, and [_truncate_text] returns the bare ellipsis as the rule
    of the claim prescribes: three characters, one more than
    [max_length].  No rule that always appends the three-character
    ellipsis can stay within a [max_length] of 1 or 2. *)
Lemma truncate_text_exceeds_small_max_length :
  2 < len (lit "abcd") /\
  _truncate_text (lit "abcd") 2 = ellipsis /\
  len (_truncate_text (lit "abcd") 2) = 3.
Proof. repeat split. Qed.

(** C3.  For every positive [max_length]: a text that fits is returned
    unchanged; a text that does not fit is split on newlines, whole lines
    are accumulated greedily while the running length (line length plus
    one) stays within [max_length - 3], the accumulated lines are joined
    and the ellipsis is appended, so the result ends with it.  For every
    [max_length] of at least 3, which leaves room for the ellipsis, the
    result never exceeds [max_length] characters. *)
Theorem truncate_text_within_max_length (text : pystr) (max_length : Z) :
  0 < max_length ->
  (len text <= max_length -> _truncate_text text max_length = text) /\
  (max_length < len text ->
     exists kept line rest,
       split newline text = kept ++ line :: rest /\
       (kept = [] \/ total kept <= max_length - 3) /\
       total kept + len line + 1 > max_length - 3 /\
       _truncate_text text max_length = join [newline] kept ++ lit "...") /\
  (max_length < len text -> endswith (_truncate_text text max_length) (lit "...")) /\
  (3 <= max_length -> len (_truncate_text text max_length) <= max_length).
Proof.
  intros Hpos. split; [|split; [|split]].
  - apply WeComFacts.truncate_text_fits.
  - intros Hlong. exact (WeComFacts.truncate_text_greedy text max_length Hpos Hlong).
  - intros Hlong. exact (WeComFacts.truncate_text_ellipsis text max_length Hpos Hlong).
  - apply WeComFacts.truncate_text_bound.
Qed.

Lemma truncate_text_within_max_length_witness :
  0 < 10 /\
  10 < len MoreSamples.three_lines /\
  endswith (_truncate_text MoreSamples.three_lines 10) (lit "...") /\
  len (_truncate_text MoreSamples.three_lines 10) <= 10.
Proof.
  destruct (truncate_text_within_max_length MoreSamples.three_lines 10 eq_refl)
    as (_ & _ & He & Hb).
  split; [reflexivity|]. split; [reflexivity|].
  split; [apply He; reflexivity | apply Hb; discriminate].
Defined.

(** C4.  [send_message] never raises: it returns [False] when the webhook
    key is empty, when the request raises, when [raise_for_status] raises,
    and when the body's [errcode] differs from [0]; it returns [True]
    exactly when the key is set, the request is answered with a status that
    [raise_for_status] accepts, the body is a JSON object, and its
    [errcode] is present and equal to [0]. *)
Theorem send_message_outcome
    (post : pystr -> float -> value -> result Response)
    (raises_for_status : Z -> bool) (self : WeComClient) (content : pystr) :
  let r := send_message post raises_for_status self content in
  let sent := post (webhook_url self) (timeout self) (payload_of content) in
  (exists b, r = Ok b) /\
  (webhook_key self = [] -> r = Ok false) /\
  (forall e, sent = Raise e -> r = Ok false) /\
  (forall resp, sent = Ok resp ->
     raises_for_status (status_code resp) = true -> r = Ok false) /\
  (forall resp e, sent = Ok resp -> json resp = Raise e -> r = Ok false) /\
  (forall resp d v, sent = Ok resp -> json resp = Ok (PyDict d) ->
     lookup (lit "errcode") d = Some v -> ne_zero v = true -> r = Ok false) /\
  (r = Ok true <->
     webhook_key self <> [] /\
     exists resp d v,
       sent = Ok resp /\ raises_for_status (status_code resp) = false /\
       json resp = Ok (PyDict d) /\
       lookup (lit "errcode") d = Some v /\ ne_zero v = false).
Proof.
  intros r sent. subst r sent. rewrite WeComFacts.send_message_cases.
  split; [eexists; reflexivity|].
  split. { intros K. rewrite K. reflexivity. }
  split. { intros e He. rewrite He. destruct (webhook_key self); reflexivity. }
  split. { intros resp He Hs. rewrite He, Hs. destruct (webhook_key self); reflexivity. }
  split. { intros resp e He Hj. rewrite He, Hj.
           destruct (webhook_key self); [|destruct (raises_for_status _)]; reflexivity. }
  split. { intros resp d v He Hj Hl Hz. rewrite He, Hj, Hl, Hz.
           destruct (webhook_key self); [|destruct (raises_for_status _)]; reflexivity. }
  split.
  - intros H. destruct (webhook_key self) as [|k ks]; [discriminate H|].
    split; [discriminate|].
    destruct (post _ _ _) as [resp|e] eqn:He; [|discriminate H].
    destruct (raises_for_status (status_code resp)) eqn:Hs; [discriminate H|].
    destruct (json resp) as [[ | b | z | f | s | l | d ] | e] eqn:Hj; try discriminate H.
    destruct (lookup (lit "errcode") d) as [v|] eqn:Hl; [|discriminate H].
    destruct (ne_zero v) eqn:Hz; [discriminate H|].
    exists resp, d, v. repeat split; assumption.
  - intros (K & resp & d & v & He & Hs & Hj & Hl & Hz).
    rewrite He, Hs, Hj, Hl, Hz.
    destruct (webhook_key self); [congruence | reflexivity].
Qed.

(** C10.  A response that [raise_for_status] accepts and whose JSON object
    has no [errcode] key: [data.get] yields the default [-1], which
    differs from [0], and [send_message] returns [False]. *)
Theorem send_message_missing_errcode
    (post : pystr -> float -> value -> result Response)
    (raises_for_status : Z -> bool) (self : WeComClient) (content : pystr)
    (resp : Response) (d : list (pystr * value)) :
  webhook_key self <> [] ->
  post (webhook_url self) (timeout self) (payload_of content) = Ok resp ->
  raises_for_status (status_code resp) = false ->
  json resp = Ok (PyDict d) ->
  lookup (lit "errcode") d = None ->
  get (PyDict d) (lit "errcode") (PyInt (-1)) = Ok (PyInt (-1)) /\
  ne_zero (PyInt (-1)) = true /\
  send_message post raises_for_status self content = Ok false.
Proof.
  intros Hkey Hpost Hstatus Hjson Hlook.
  unfold send_message, raise_for_status, get.
  destruct (webhook_key self) as [|k ks]; [congruence|].
  cbn [truthy negb]. rewrite Hpost. cbn [bind]. rewrite Hstatus. cbn [bind].
  rewrite Hjson. cbn [bind]. rewrite Hlook. repeat split.
Qed.

Lemma send_message_missing_errcode_witness :
  webhook_key Samples.client0 <> [] /\
  lookup (lit "errcode") [(lit "errmsg", PyStr (lit "ok"))] = None /\
  send_message Samples.post_without_errcode Samples.httpx_raises Samples.client0 (lit "hi")
  = Ok false.
Proof.
  split; [discriminate|]. split; [reflexivity|].
  apply (send_message_missing_errcode Samples.post_without_errcode Samples.httpx_raises
           Samples.client0 (lit "hi") Samples.response_without_errcode
           [(lit "errmsg", PyStr (lit "ok"))]);
    [discriminate | reflexivity | reflexivity | reflexivity | reflexivity].
Defined.

(** C8, as the specification words it, fails: with two matched keywords and
    neither date nor author the code joins the keywords with the
    ideographic comma, so the message has no pipe in it and differs from
    the rendering with pipe-joined keywords. *)
Lemma format_markdown_message_keywords_not_pipe_joined :
  let out := format_markdown_message (lit "T") (lit "L") [] [] []
               (Some [lit "a"; lit "b"]) in
  out = lit "**T**" ++ [newline] ++ lit "[" ++ label_link ++ lit "](L)" ++ [newline]
        ++ label_keywords ++ lit "a" ++ ideographic_comma ++ lit "b" /\
  contains (lit "|") out = false /\
  str_eqb out
    (rendered_as_specified (lit "T") (lit "L") [] [] [] (Some [lit "a"; lit "b"]))
  = false /\
  str_eqb out
    (rendered (lit "|") (lit "T") (lit "L") [] [] [] (Some [lit "a"; lit "b"]))
  = false.
Proof. repeat split. Qed.

(** C8, amended.  The message is, in order and one per line: the title in
    bold, the link labelled "original link", the metadata line (the
    non-empty ones among publish time, author and the matched keywords
    joined by the ideographic comma, joined by a pipe; no line when
    all three are empty), and, after a blank line, the summary cut by
    [_truncate_text] to at most 1000 characters (no summary block for an
    empty summary). *)
Theorem format_markdown_message_layout
    (title link pub_date author summary_text : pystr)
    (matched_keywords : option (list pystr)) :
  format_markdown_message title link pub_date author summary_text matched_keywords
  = rendered ideographic_comma title link pub_date author summary_text matched_keywords
  /\ len (_truncate_text summary_text 1000) <= 1000.
Proof.
  split.
  - unfold format_markdown_message, rendered, metadata_line, summary_block,
      labelled, keywords_part, bold, markdown_link.
    destruct pub_date as [|p ps]; destruct author as [|a au];
      destruct matched_keywords as [[|k ks]|]; destruct summary_text as [|s ss];
      reflexivity.
  - apply WeComFacts.truncate_text_bound. lia.
Qed.

End WeComClaims.

(** ** The settings endpoints *)

Module ApiFacts.

Import Api.
Open Scope Z_scope.

Section WithDefaults.

Variable defaults : AppSettings.t.

(** Back-filling touches prompts and timeouts only. *)
Lemma fill_defaults_frame (s : AppSettings.t) :
  let s' := fill_defaults defaults s in
  AISettings.api_key (AppSettings.ai s') = AISettings.api_key (AppSettings.ai s) /\
  AppSettings.telegram s' = AppSettings.telegram s /\
  AppSettings.wecom s' = AppSettings.wecom s /\
  AppSettings.security s' = AppSettings.security s /\
  AppSettings.fetch s' = AppSettings.fetch s.
Proof.
  unfold fill_defaults.
  repeat match goal with
         | |- context [if ?c then _ else _] => destruct c
         end; cbn; repeat split.
Qed.

(** What a successful validation hands to [save_settings]. *)
Lemma validated_settings_ok (req : UpdateSettingsRequest) (old new : AppSettings.t) :
  validated_settings defaults req old = Ok new ->
  exists old_security,
    AppSettings.security old = Some old_security /\
    well_formed (strip (or_empty (password req))) = true /\
    strip (or_empty (password req)) = SecuritySettings.admin_password old_security /\
    AISettings.api_key (AppSettings.ai new) =
      (if str_eqb (AISettings.api_key (AppSettings.ai (settings req))) sentinel
       then AISettings.api_key (AppSettings.ai old)
       else AISettings.api_key (AppSettings.ai (settings req))) /\
    TelegramSettings.bot_token (AppSettings.telegram new) =
      (if str_eqb (TelegramSettings.bot_token (AppSettings.telegram (settings req))) sentinel
       then TelegramSettings.bot_token (AppSettings.telegram old)
       else TelegramSettings.bot_token (AppSettings.telegram (settings req))) /\
    WeComSettings.webhook_key (AppSettings.wecom new) =
      (if str_eqb (WeComSettings.webhook_key (AppSettings.wecom (settings req))) sentinel
       then WeComSettings.webhook_key (AppSettings.wecom old)
       else WeComSettings.webhook_key (AppSettings.wecom (settings req))) /\
    AppSettings.security new =
      Some {| SecuritySettings.admin_password :=
                if truthy (strip (or_empty (new_password req)))
                then strip (or_empty (new_password req))
                else SecuritySettings.admin_password old_security |} /\
    (truthy (strip (or_empty (new_password req))) = true ->
     well_formed (strip (or_empty (new_password req))) = true).
Proof.
  unfold validated_settings, well_formed.
  destruct (isdigit (strip (or_empty (password req))) &&
            (len (strip (or_empty (password req))) =? 4)) eqn:Hfmt;
    cbn [negb]; [|discriminate].
  destruct (AppSettings.security old) as [old_security|]; cbn [bind]; [|discriminate].
  destruct (str_eqb (strip (or_empty (password req)))
              (SecuritySettings.admin_password old_security)) eqn:Hpw;
    cbn [negb]; [|discriminate].
  apply str_eqb_eq in Hpw.
  set (s1 := if str_eqb (AISettings.api_key (AppSettings.ai (settings req))) sentinel
             then _ else _).
  set (s2 := if str_eqb (TelegramSettings.bot_token (AppSettings.telegram s1)) sentinel
             then _ else _).
  set (s3 := if str_eqb (WeComSettings.webhook_key (AppSettings.wecom s2)) sentinel
             then _ else _).
  set (s4 := fill_defaults defaults s3).
  set (s5 := match AppSettings.security s4 with None => _ | Some _ => s4 end).
  intros H. exists old_security.
  assert (Hnp : exists admin,
             AppSettings.security s5 <> None /\
             new = AppSettings.set_security
                     (Some {| SecuritySettings.admin_password := admin |}) s5 /\
             admin = (if truthy (strip (or_empty (new_password req)))
                      then strip (or_empty (new_password req))
                      else SecuritySettings.admin_password old_security) /\
             (truthy (strip (or_empty (new_password req))) = true ->
              isdigit (strip (or_empty (new_password req))) &&
              (len (strip (or_empty (new_password req))) =? 4) = true)).
  { destruct (truthy (strip (or_empty (new_password req)))).
    - destruct (isdigit (strip (or_empty (new_password req))) &&
                (len (strip (or_empty (new_password req))) =? 4));
        cbn [negb bind] in H; [|discriminate H].
      destruct (AppSettings.security s5); [|discriminate H].
      eexists. repeat split; [discriminate | congruence].
    - cbn [bind] in H. destruct (AppSettings.security s5); [|discriminate H].
      eexists. repeat split; [discriminate | congruence | discriminate]. }
  destruct Hnp as (admin & _ & -> & -> & Hwf).
  destruct (fill_defaults_frame s3) as (Hk & Ht & Hw & Hs & _). fold s4 in Hk, Ht, Hw, Hs.
  assert (Hai5 : AppSettings.ai s5 = AppSettings.ai s4)
    by (subst s5; destruct (AppSettings.security s4); reflexivity).
  assert (Htg5 : AppSettings.telegram s5 = AppSettings.telegram s4)
    by (subst s5; destruct (AppSettings.security s4); reflexivity).
  assert (Hwc5 : AppSettings.wecom s5 = AppSettings.wecom s4)
    by (subst s5; destruct (AppSettings.security s4); reflexivity).
  repeat split; try assumption; cbn [AppSettings.set_security AppSettings.ai
    AppSettings.telegram AppSettings.wecom AppSettings.security].
  - rewrite Hai5, Hk. subst s3 s2 s1.
    repeat match goal with
           | |- context [if ?c then _ else _] => destruct c
           end; reflexivity.
  - rewrite Htg5, Ht. subst s3 s2 s1.
    repeat match goal with
           | |- context [if ?c then _ else _] => destruct c eqn:?
           end; cbn in *; congruence.
  - rewrite Hwc5, Hw. subst s3 s2 s1.
    repeat match goal with
           | |- context [if ?c then _ else _] => destruct c eqn:?
           end; cbn in *; congruence.
Qed.

(** A failed validation leaves the state alone. *)
Lemma update_settings_raise (req : UpdateSettingsRequest) (st : State) (e : exn) :
  validated_settings defaults req (load_settings st) = Raise e ->
  update_settings defaults req st = (Raise e, st).
Proof. intros H. unfold update_settings. rewrite H. reflexivity. Qed.

(** A successful one persists exactly the validated document. *)
Lemma update_settings_ok (req : UpdateSettingsRequest) (st : State) (new : AppSettings.t) :
  validated_settings defaults req (load_settings st) = Ok new ->
  stored (snd (update_settings defaults req st)) = new /\
  exists out, fst (update_settings defaults req st) = Ok out.
Proof.
  intros H. unfold update_settings. rewrite H. cbn. split; [reflexivity|].
  eexists. reflexivity.
Qed.

End WithDefaults.

End ApiFacts.

Module ApiClaims.

Import Api.
Open Scope Z_scope.



(** C2, as stated, fails: the password " 1234 " is not exactly four numeric
    characters (it has six, two of them blanks) and is not the stored
    "1234", yet the request is neither a 400 nor a 403: it is accepted and
    the stored document changes. *)
Lemma update_settings_padded_password_accepted :
  let req := Samples.padded_password_request in
  let after := update_settings Samples.defaults0 req Samples.state0 in
  password req = Some (lit " 1234 ") /\
  well_formed (lit " 1234 ") = false /\
  str_eqb (lit " 1234 ") (lit "1234") = false /\
  AppSettings.security (stored Samples.state0) = Samples.with_password (lit "1234") /\
  is_ok (fst after) = true /\
  is_http_error 400 (fst after) = false /\
  is_http_error 403 (fst after) = false /\
  AISettings.api_key (AppSettings.ai (stored Samples.state0)) = lit "sk-secret" /\
  AISettings.api_key (AppSettings.ai (stored (snd after))) = lit "sk-new".
Proof. repeat split. Qed.

(** C2, amended.  With the submitted password stripped of leading and
    trailing whitespace: a stripped password that is not exactly four
    digits is rejected with status 400, and a well-formed one that differs
    from the stored [admin_password] with status 403; in both cases the
    state is what it was, nothing is saved. *)
Theorem update_settings_rejects_before_write
    (defaults : AppSettings.t) (st : State) (req : UpdateSettingsRequest) :
  let given := strip (or_empty (password req)) in
  let after := update_settings defaults req st in
  (well_formed given = false ->
   fst after = Raise (HTTPException 400 detail_password_format) /\ snd after = st) /\
  (forall sec, well_formed given = true ->
     AppSettings.security (stored st) = Some sec ->
     given <> SecuritySettings.admin_password sec ->
     fst after = Raise (HTTPException 403 detail_password_wrong) /\ snd after = st).
Proof.
  intros given after. subst given after. unfold well_formed. split.
  - intros H.
    rewrite (ApiFacts.update_settings_raise defaults req st
               (HTTPException 400 detail_password_format)); [split; reflexivity|].
    unfold validated_settings. rewrite H. reflexivity.
  - intros sec H Hsec Hne.
    rewrite (ApiFacts.update_settings_raise defaults req st
               (HTTPException 403 detail_password_wrong)); [split; reflexivity|].
    unfold validated_settings, load_settings. rewrite H, Hsec. cbn [negb bind].
    apply str_eqb_neq in Hne. rewrite Hne. reflexivity.
Qed.

(** C9.  The passwords are stripped before they are checked: a request
    whose [password] strips to the stored four-digit password
    authenticates (the outcome is neither the 400 of a malformed password
    nor the 403 of a wrong one); if moreover [new_password] strips to four
    digits the update is saved with the stripped new password, and with
    no new password it is saved with the old one.  ([AppSettings()] is
    taken to have a [security] section.) *)
Theorem update_settings_strips_passwords
    (defaults : AppSettings.t) (st : State) (req : UpdateSettingsRequest)
    (sec : SecuritySettings.t) :
  AppSettings.security defaults <> None ->
  AppSettings.security (stored st) = Some sec ->
  well_formed (SecuritySettings.admin_password sec) = true ->
  strip (or_empty (password req)) = SecuritySettings.admin_password sec ->
  let after := update_settings defaults req st in
  let fresh := strip (or_empty (new_password req)) in
  fst after <> Raise (HTTPException 400 detail_password_format) /\
  fst after <> Raise (HTTPException 403 detail_password_wrong) /\
  (well_formed fresh = true ->
   is_ok (fst after) = true /\
   AppSettings.security (stored (snd after))
   = Some {| SecuritySettings.admin_password := fresh |}) /\
  (fresh = [] ->
   is_ok (fst after) = true /\
   AppSettings.security (stored (snd after)) = Some sec).
Proof.
  intros Hdef Hsec Hwf Hpw after fresh. subst after fresh.
  assert (V : validated_settings defaults req (load_settings st) =
    match (if truthy (strip (or_empty (new_password req))) then
             if negb (well_formed (strip (or_empty (new_password req))))
             then Raise (HTTPException 400 detail_new_password_format)
             else Ok (strip (or_empty (new_password req)))
           else Ok (SecuritySettings.admin_password sec)) with
    | Ok admin =>
        match validated_settings defaults req (load_settings st) with
        | Ok doc => Ok doc
        | Raise _ => Raise AttributeError
        end
    | Raise e => Raise e
    end /\
    (forall admin,
       (if truthy (strip (or_empty (new_password req))) then
          if negb (well_formed (strip (or_empty (new_password req))))
          then Raise (HTTPException 400 detail_new_password_format)
          else Ok (strip (or_empty (new_password req)))
        else Ok (SecuritySettings.admin_password sec)) = Ok admin ->
       exists doc, validated_settings defaults req (load_settings st) = Ok doc)).
  { unfold validated_settings, load_settings, well_formed in *.
    rewrite Hsec, Hpw, Hwf. cbn [negb bind]. rewrite str_eqb_refl. cbn [negb].
    match goal with
    | |- context [match AppSettings.security (fill_defaults defaults ?x) with _ => _ end] =>
        set (s4 := fill_defaults defaults x)
    end.
    set (s5 := match AppSettings.security s4 with
               | None => AppSettings.set_security (AppSettings.security defaults) s4
               | Some _ => s4
               end).
    assert (H5 : AppSettings.security s5 <> None).
    { subst s5. destruct (AppSettings.security s4) eqn:E4; cbn; congruence. }
    destruct (AppSettings.security s5) as [sec5|] eqn:E5; [|congruence].
    destruct (truthy (strip (or_empty (new_password req)))).
    - destruct (isdigit (strip (or_empty (new_password req))) &&
                (len (strip (or_empty (new_password req))) =? 4));
        cbn [negb bind]; split; try reflexivity; intros admin H;
        try discriminate H; eexists; reflexivity.
    - cbn [bind]. split; [reflexivity|]. intros admin _. eexists; reflexivity. }
  destruct V as [V Vok].
  assert (Hno400 : forall e,
            validated_settings defaults req (load_settings st) = Raise e ->
            e <> HTTPException 400 detail_password_format /\
            e <> HTTPException 403 detail_password_wrong).
  { intros e He. rewrite He in V.
    destruct (truthy (strip (or_empty (new_password req)))).
    - destruct (negb (well_formed (strip (or_empty (new_password req))))).
      + inversion V; subst. split; discriminate.
      + inversion V; subst. split; discriminate.
    - inversion V; subst. split; discriminate. }
  destruct (validated_settings defaults req (load_settings st)) as [doc|e] eqn:E.
  - destruct (ApiFacts.validated_settings_ok defaults req _ doc E)
      as (osec & Hosec & _ & _ & _ & _ & _ & Hs & _).
    destruct (ApiFacts.update_settings_ok defaults req st doc E) as (Hst & out1 & Hout).
    rewrite Hst, Hout. unfold load_settings in Hosec.
    rewrite Hsec in Hosec. inversion Hosec; subst osec.
    split; [discriminate|]. split; [discriminate|]. split.
    + intros Hf. split; [reflexivity|]. rewrite Hs.
      destruct (strip (or_empty (new_password req))); [discriminate Hf | reflexivity].
    + intros Hf. split; [reflexivity|]. rewrite Hs, Hf. cbn. destruct sec. reflexivity.
  - rewrite (ApiFacts.update_settings_raise defaults req st e E). cbn [fst snd].
    destruct (Hno400 e eq_refl) as [N1 N2].
    split; [congruence|]. split; [congruence|]. split.
    + intros Hf. exfalso.
      destruct (Vok (strip (or_empty (new_password req)))) as [doc Hdoc]; [|discriminate Hdoc].
      rewrite Hf. cbn [negb].
      destruct (truthy (strip (or_empty (new_password req)))) eqn:T; [reflexivity|].
      destruct (strip (or_empty (new_password req))); [discriminate Hf | discriminate T].
    + intros Hf. exfalso.
      destruct (Vok (SecuritySettings.admin_password sec)) as [doc Hdoc]; [|discriminate Hdoc].
      rewrite Hf. reflexivity.
Qed.

Lemma update_settings_strips_passwords_witness :
  AppSettings.security Samples.defaults0 <> None /\
  AppSettings.security (stored Samples.state0) = Samples.with_password (lit "1234") /\
  well_formed (lit "1234") = true /\
  password Samples.padded_new_password_request = Some (lit " 1234 ") /\
  new_password Samples.padded_new_password_request = Some (lit " 5678 ") /\
  is_ok (fst (update_settings Samples.defaults0 Samples.padded_new_password_request
                Samples.state0)) = true /\
  AppSettings.security
    (stored (snd (update_settings Samples.defaults0 Samples.padded_new_password_request
                    Samples.state0)))
  = Samples.with_password (lit "5678").
Proof.
  split; [discriminate|].
  do 4 (split; [reflexivity|]).
  apply (update_settings_strips_passwords Samples.defaults0 Samples.state0
           Samples.padded_new_password_request
           {| SecuritySettings.admin_password := lit "1234" |});
    [discriminate | reflexivity | reflexivity | reflexivity | reflexivity].
Defined.

End ApiClaims.

(** ** Alignment of the report schedulers *)

Module ScheduleFacts.

Import Schedule.
Open Scope Z_scope.

Ltac clock_arith :=
  unfold us_per_day, us_per_hour, us_per_minute, us_per_second in *;
  Z.div_mod_to_equations; lia.

(** Breaking a clock reading into fields loses nothing. *)
Lemma wall_of_wall (offset w : Z) : wall (of_wall offset w) = w.
Proof. unfold wall, of_wall. cbn. clock_arith. Qed.

Lemma instant_of_wall (offset w : Z) : instant (of_wall offset w) = w - offset.
Proof. unfold instant. rewrite wall_of_wall. reflexivity. Qed.

(** Changing the zone keeps the instant. *)
Lemma instant_astimezone (tz : Z) (d : datetime) :
  instant (astimezone tz d) = instant d.
Proof. unfold astimezone. rewrite instant_of_wall. lia. Qed.

Lemma wall_astimezone (tz : Z) (d : datetime) :
  wall (astimezone tz d) = instant d + tz.
Proof. unfold astimezone. apply wall_of_wall. Qed.

Lemma of_wall_fields (offset w : Z) :
  let d := of_wall offset w in
  0 <= hour d < 24 /\ 0 <= minute d < 60 /\ 0 <= second d < 60 /\
  0 <= microsecond d < 1000000.
Proof. unfold of_wall. cbn. clock_arith. Qed.

(** The clock of the aligned hour: the local clock with minutes, seconds
    and microseconds dropped. *)
Lemma wall_top_of_hour (offset w : Z) :
  wall (replace None (Some 0) (Some 0) (Some 0) (of_wall offset w))
  = w - w mod us_per_hour.
Proof. unfold wall, replace, of_wall. cbn. clock_arith. Qed.

(** The clock of the day's target. *)
Lemma wall_target (offset w h m : Z) :
  wall (replace (Some h) (Some m) (Some 0) (Some 0) (of_wall offset w))
  = w - w mod us_per_day + h * us_per_hour + m * us_per_minute.
Proof. unfold wall, replace, of_wall. cbn. clock_arith. Qed.

Lemma utcoffset_replace (h m s us : option Z) (d : datetime) :
  utcoffset (replace h m s us d) = utcoffset d.
Proof. reflexivity. Qed.

(** [_next_top_of_hour] always takes the branch that adds the hour. *)
Lemma next_top_of_hour_instant (now : datetime) :
  instant (_next_top_of_hour now)
  = local_clock now - local_clock now mod us_per_hour + us_per_hour - BEIJING_TZ
  /\ utcoffset (_next_top_of_hour now) = utc.
Proof.
  unfold _next_top_of_hour. cbv zeta. split; [|reflexivity].
  rewrite instant_astimezone.
  change (astimezone BEIJING_TZ now) with (of_wall BEIJING_TZ (local_clock now)).
  set (l := local_clock now).
  assert (G : ge (of_wall BEIJING_TZ l)
                 (replace None (Some 0) (Some 0) (Some 0) (of_wall BEIJING_TZ l)) = true).
  { unfold ge. rewrite instant_of_wall. unfold instant. rewrite wall_top_of_hour.
    rewrite utcoffset_replace. cbn [utcoffset of_wall]. apply Z.geb_le.
    pose proof (Z.mod_pos_bound l us_per_hour eq_refl). lia. }
  rewrite G. unfold add. rewrite instant_of_wall, wall_top_of_hour.
  rewrite utcoffset_replace. cbn [utcoffset of_wall]. unfold hours. lia.
Qed.

(** [_next_midnight]: the target of the local day, or of the next one when
    the local clock has reached it. *)
Lemma next_midnight_instant (now : datetime) (report_time : pystr) :
  let h := fst (report_hour_minute report_time) in
  let m := snd (report_hour_minute report_time) in
  let target := h * us_per_hour + m * us_per_minute in
  let l := local_clock now in
  instant (_next_midnight now report_time)
  = l - l mod us_per_day + target
    + (if target <=? l mod us_per_day then us_per_day else 0) - BEIJING_TZ
  /\ utcoffset (_next_midnight now report_time) = utc.
Proof.
  intros h m target l. unfold _next_midnight.
  destruct (report_hour_minute report_time) as [h' m'] eqn:E. cbn [fst snd] in h, m.
  subst h m. cbv zeta. split; [|reflexivity].
  rewrite instant_astimezone.
  change (astimezone BEIJING_TZ now) with (of_wall BEIJING_TZ l).
  set (aligned := replace (Some h') (Some m') (Some 0) (Some 0) (of_wall BEIJING_TZ l)).
  assert (Hw : wall aligned = l - l mod us_per_day + target).
  { subst aligned. rewrite wall_target. unfold target. lia. }
  assert (Ho : utcoffset aligned = BEIJING_TZ) by reflexivity.
  assert (Hi : instant aligned = l - l mod us_per_day + target - BEIJING_TZ).
  { unfold instant. rewrite Hw, Ho. reflexivity. }
  unfold ge. rewrite instant_of_wall, Hi.
  pose proof (Z.mod_pos_bound l us_per_day eq_refl) as Hmod.
  destruct (target <=? l mod us_per_day) eqn:T.
  - apply Z.leb_le in T.
    replace (l - BEIJING_TZ >=? l - l mod us_per_day + target - BEIJING_TZ) with true
      by (symmetry; apply Z.geb_le; lia).
    unfold add. rewrite instant_of_wall, Hw, Ho. unfold days. lia.
  - apply Z.leb_gt in T.
    replace (l - BEIJING_TZ >=? l - l mod us_per_day + target - BEIJING_TZ) with false
      by (symmetry; rewrite Z.geb_leb; apply Z.leb_gt; lia).
    rewrite Hi. lia.
Qed.

(** The parsed hour and minute are clamped, whatever was parsed. *)
Lemma report_hour_minute_range (report_time : pystr) :
  0 <= fst (report_hour_minute report_time) <= 23 /\
  0 <= snd (report_hour_minute report_time) <= 59.
Proof.
  unfold report_hour_minute, unpack_two_ints, int_or_raise.
  destruct (split colon report_time) as [|a [|b rest]]; cbn; try lia.
  destruct (Py.int a) as [hh|]; cbn; try lia.
  destruct (Py.int b) as [mm|]; cbn; try lia.
  destruct rest; cbn; lia.
Qed.

Lemma report_hour_minute_parsed (report_time : pystr) (hh mm : Z) :
  Vocabulary.parses_as report_time hh mm ->
  report_hour_minute report_time = (Z.max 0 (Z.min 23 hh), Z.max 0 (Z.min 59 mm)).
Proof.
  intros (a & b & Hs & Ha & Hb).
  unfold report_hour_minute, unpack_two_ints, int_or_raise.
  rewrite Hs, Ha, Hb. reflexivity.
Qed.

Lemma report_hour_minute_unparsed (report_time : pystr) :
  (forall hh mm, ~ Vocabulary.parses_as report_time hh mm) ->
  report_hour_minute report_time = (0, 0).
Proof.
  intros H. unfold report_hour_minute, unpack_two_ints, int_or_raise.
  destruct (split colon report_time) as [|a [|b rest]] eqn:Hs; try reflexivity.
  destruct (Py.int a) as [hh|] eqn:Ha; [|reflexivity].
  destruct (Py.int b) as [mm|] eqn:Hb; [|reflexivity].
  destruct rest; [|reflexivity].
  exfalso. apply (H hh mm). exists a, b. auto.
Qed.

End ScheduleFacts.

Module ScheduleClaims.

Import Schedule.
Open Scope Z_scope.

(** C6.  The run computed by [_next_top_of_hour] is a UTC datetime that,
    read in the reference zone UTC+8, is on an exact hour, lies strictly
    after [now] and at most one hour after it: the top of the next hour.
    When [now] is itself on an exact hour the run is exactly one hour
    later.  On any day, 14:00:00 and 14:30:00 both give 15:00:00. *)
Theorem next_top_of_hour_is_next_hour (now : datetime) :
  let next := _next_top_of_hour now in
  let local := astimezone BEIJING_TZ now in
  let local_next := astimezone BEIJING_TZ next in
  utcoffset next = utc /\
  on_the_hour local_next /\
  instant now < instant next <= instant now + hours 1 /\
  (on_the_hour local -> instant next = instant now + hours 1) /\
  (forall day,
     astimezone BEIJING_TZ (_next_top_of_hour (beijing day 14 0 0)) = beijing day 15 0 0) /\
  (forall day,
     astimezone BEIJING_TZ (_next_top_of_hour (beijing day 14 30 0)) = beijing day 15 0 0).
Proof.
  assert (Hview : forall d,
            astimezone BEIJING_TZ (_next_top_of_hour d)
            = of_wall BEIJING_TZ
                (local_clock d - local_clock d mod us_per_hour + us_per_hour)).
  { intros d. unfold astimezone. f_equal.
    destruct (ScheduleFacts.next_top_of_hour_instant d) as [-> _]. lia. }
  intros next local local_next. subst next local local_next.
  destruct (ScheduleFacts.next_top_of_hour_instant now) as [Hi Ho].
  split; [exact Ho|]. split; [|split; [|split; [|split]]].
  - rewrite Hview. unfold on_the_hour, of_wall. cbn [minute second microsecond].
    ScheduleFacts.clock_arith.
  - rewrite Hi. unfold local_clock, hours.
    pose proof (Z.mod_pos_bound (instant now + BEIJING_TZ) us_per_hour eq_refl). lia.
  - intros (Hm & Hs & Hu). rewrite Hi.
    unfold astimezone, of_wall in Hm, Hs, Hu. cbn [minute second microsecond] in Hm, Hs, Hu.
    unfold local_clock, hours.
    assert ((instant now + BEIJING_TZ) mod us_per_hour = 0)
      by (revert Hm Hs Hu; generalize (instant now + BEIJING_TZ); intros l;
          ScheduleFacts.clock_arith).
    lia.
  - intros day. rewrite Hview.
    unfold local_clock, instant, wall, of_wall, beijing, BEIJING_TZ. cbn.
    f_equal; ScheduleFacts.clock_arith.
  - intros day. rewrite Hview.
    unfold local_clock, instant, wall, of_wall, beijing, BEIJING_TZ. cbn.
    f_equal; ScheduleFacts.clock_arith.
Qed.

(** C7.  [_next_midnight] aims at the hour and minute read from
    [daily_report_time]: a time that parses has its hour clamped into
    [0, 23] and its minute into [0, 59], any other string gives 00:00.
    The run is a UTC datetime that, read in the reference zone UTC+8, shows
    that hour and minute with zero seconds: on the next day when the local
    clock of [now] is at or past the target, on the same day otherwise. *)
Theorem next_midnight_is_daily_target (now : datetime) (report_time : pystr) :
  let h := fst (report_hour_minute report_time) in
  let m := snd (report_hour_minute report_time) in
  let next := _next_midnight now report_time in
  let local := astimezone BEIJING_TZ now in
  let local_next := astimezone BEIJING_TZ next in
  (forall hh mm, parses_as report_time hh mm ->
     h = Z.max 0 (Z.min 23 hh) /\ m = Z.max 0 (Z.min 59 mm)) /\
  ((forall hh mm, ~ parses_as report_time hh mm) -> h = 0 /\ m = 0) /\
  0 <= h <= 23 /\ 0 <= m <= 59 /\
  utcoffset next = utc /\
  hour local_next = h /\ minute local_next = m /\
  second local_next = 0 /\ microsecond local_next = 0 /\
  ordinal local_next
  = (if at_or_past local h m then ordinal local + 1 else ordinal local) /\
  instant now < instant next.
Proof.
  intros h m next local local_next.
  destruct (ScheduleFacts.next_midnight_instant now report_time) as [Hi Ho].
  destruct (ScheduleFacts.report_hour_minute_range report_time) as [Hh Hm].
  fold h in Hi, Hh. fold m in Hi, Hm. fold next in Hi, Ho.
  split.
  { intros hh mm P. subst h m.
    rewrite (ScheduleFacts.report_hour_minute_parsed report_time hh mm P). cbn. auto. }
  split.
  { intros P. subst h m.
    rewrite (ScheduleFacts.report_hour_minute_unparsed report_time P). cbn. auto. }
  split; [exact Hh|]. split; [exact Hm|]. split; [exact Ho|].
  assert (Hlater : instant now < instant next).
  { rewrite Hi. unfold local_clock.
    pose proof (Z.mod_pos_bound (instant now + BEIJING_TZ) us_per_day eq_refl) as B.
    destruct (_ <=? _) eqn:T; [apply Z.leb_le in T | apply Z.leb_gt in T];
      unfold local_clock, us_per_day, us_per_hour, us_per_minute in *; lia. }
  assert (Hnext : local_next
                  = of_wall BEIJING_TZ
                      (local_clock now - local_clock now mod us_per_day
                       + (h * us_per_hour + m * us_per_minute)
                       + (if h * us_per_hour + m * us_per_minute
                             <=? local_clock now mod us_per_day
                          then us_per_day else 0) - BEIJING_TZ + BEIJING_TZ)).
  { subst local_next. unfold astimezone. rewrite Hi. reflexivity. }
  assert (Hlocal : local = of_wall BEIJING_TZ (local_clock now)) by reflexivity.
  rewrite Hnext, Hlocal. clear Hnext Hlocal Hi Ho.
  generalize (local_clock now) as l. intros l.
  assert (Hpast : at_or_past (of_wall BEIJING_TZ l) h m
                  = (h * us_per_hour + m * us_per_minute <=? l mod us_per_day)).
  { unfold at_or_past, of_wall. cbn [hour minute].
    apply Bool.eq_true_iff_eq. rewrite !Z.leb_le.
    ScheduleFacts.clock_arith. }
  rewrite Hpast.
  unfold of_wall. cbn [hour minute second microsecond ordinal].
  destruct (h * us_per_hour + m * us_per_minute <=? l mod us_per_day) eqn:T;
    [apply Z.leb_le in T | apply Z.leb_gt in T];
    unfold BEIJING_TZ; repeat split; try exact Hlater; ScheduleFacts.clock_arith.
Qed.

End ScheduleClaims.

(** ** The keyword filter of the fetch pipeline *)

Module PipelineFacts.

Import Pipeline.
Open Scope Z_scope.

Lemma existsb_str_eqb (x : pystr) (l : list pystr) :
  existsb (str_eqb x) l = true <-> In x l.
Proof.
  rewrite existsb_exists. split.
  - intros (y & Hy & E). apply str_eqb_eq in E. subst. exact Hy.
  - intros H. exists x. split; [exact H | apply str_eqb_refl].
Qed.

Lemma existsb_str_eqb_false (x : pystr) (l : list pystr) :
  existsb (str_eqb x) l = false <-> ~ In x l.
Proof.
  rewrite <- existsb_str_eqb. destruct (existsb (str_eqb x) l); split; congruence.
Qed.

(** Normalized keywords are never empty. *)
Lemma normalize_keywords_nonempty (raw : list value) (kw : pystr) :
  In kw (normalize_keywords raw) -> kw <> [].
Proof.
  induction raw as [|v raw IH]; cbn [normalize_keywords]; [intros []|].
  destruct v; auto.
  destruct (truthy (strip s)) eqn:T; auto.
  intros [<- | H]; auto. apply truthy_true. exact T.
Qed.

Section Fromkeys.

Lemma fromkeys_acc_In (seen l : list pystr) (x : pystr) :
  In x (fromkeys_acc seen l) <-> In x l /\ ~ In x seen.
Proof.
  revert seen. induction l as [|a l IH]; intros seen; cbn [fromkeys_acc].
  - cbn. tauto.
  - destruct (existsb (str_eqb a) seen) eqn:E.
    + apply existsb_str_eqb in E. rewrite IH. cbn. split.
      * intros [H1 H2]. auto.
      * intros [[-> | H1] H2]; [contradiction | auto].
    + apply existsb_str_eqb_false in E. cbn. rewrite IH. cbn. split.
      * intros [-> | [H1 H2]]; auto.
      * intros [[-> | H1] H2]; [auto|].
        destruct (str_eq_dec a x) as [-> | N]; [auto|]. right. split; [auto|].
        intros [F | F]; auto.
Qed.

Lemma fromkeys_acc_NoDup (seen l : list pystr) : NoDup (fromkeys_acc seen l).
Proof.
  revert seen. induction l as [|a l IH]; intros seen; cbn [fromkeys_acc].
  - constructor.
  - destruct (existsb (str_eqb a) seen); [apply IH|].
    constructor; [|apply IH].
    rewrite fromkeys_acc_In. cbn. tauto.
Qed.

Lemma fromkeys_acc_order (seen l before after : list pystr) (x y : pystr) :
  fromkeys_acc seen l = before ++ x :: after -> In y after ->
  exists s1 s2, l = s1 ++ x :: s2 /\ ~ In y s1.
Proof.
  revert seen before. induction l as [|a l IH]; intros seen before; cbn [fromkeys_acc].
  - intros H. destruct before; discriminate H.
  - destruct (existsb (str_eqb a) seen) eqn:E.
    + intros H Hy. destruct (IH seen before H Hy) as (s1 & s2 & -> & N).
      exists (a :: s1), s2. split; [reflexivity|].
      intros [<- | F]; [|auto].
      apply existsb_str_eqb in E.
      assert (In a (fromkeys_acc seen (s1 ++ x :: s2))) as Hin
        by (rewrite H; apply in_or_app; right; right; exact Hy).
      apply fromkeys_acc_In in Hin. tauto.
    + intros H Hy. destruct before as [|b before]; cbn in H; inversion H; subst.
      * exists [], l. split; [reflexivity | intros []].
      * destruct (IH (b :: seen) before H2 Hy) as (s1 & s2 & -> & N).
        exists (b :: s1), s2. split; [reflexivity|].
        intros [<- | F]; [|auto].
        assert (In b (fromkeys_acc (b :: seen) (s1 ++ x :: s2))) as Hin
          by (rewrite H2; apply in_or_app; right; right; exact Hy).
        apply fromkeys_acc_In in Hin. cbn in Hin. tauto.
Qed.

End Fromkeys.

Lemma filter_split (p : pystr -> bool) (l s1 s2 : list pystr) (x : pystr) :
  filter p l = s1 ++ x :: s2 ->
  exists t1 t2, l = t1 ++ x :: t2 /\ filter p t1 = s1.
Proof.
  revert s1. induction l as [|a l IH]; intros s1; cbn [filter].
  - intros H. destruct s1; discriminate H.
  - destruct (p a) eqn:P.
    + destruct s1 as [|b s1]; cbn; intros H; inversion H; subst.
      * exists [], l. split; reflexivity.
      * destruct (IH s1 H2) as (t1 & t2 & -> & F).
        exists (b :: t1), t2. cbn. rewrite P, F. split; reflexivity.
    + intros H. destruct (IH s1 H) as (t1 & t2 & -> & F).
      exists (a :: t1), t2. cbn. rewrite P, F. split; reflexivity.
Qed.

(** The keyword block: what matches, and in which order it is listed. *)
Lemma match_keywords_spec (terms : list pystr) (haystack : pystr) :
  (forall kw, In kw terms -> kw <> []) ->
  let matched := fst (match_keywords terms haystack) in
  let flag := snd (match_keywords terms haystack) in
  (terms = [] -> flag = true /\ matched = []) /\
  (terms <> [] ->
     (flag = true <-> exists kw, In kw terms /\ substring kw haystack) /\
     NoDup matched /\
     (forall kw, In kw matched <-> In kw terms /\ substring kw haystack) /\
     first_seen_order terms matched).
Proof.
  intros Hne matched flag. subst matched flag. split.
  - intros ->. cbn. auto.
  - intros Hterms. destruct terms as [|t terms]; [congruence|]. clear Hterms.
    set (ts := t :: terms) in *.
    assert (Hhit : forall kw, In kw (keyword_hits ts haystack)
                              <-> In kw ts /\ substring kw haystack).
    { intros kw. unfold keyword_hits. rewrite filter_In, andb_true_iff, contains_spec.
      split; [tauto|]. intros [H1 H2]. repeat split; auto.
      apply truthy_true. auto. }
    assert (Hm : fst (match_keywords ts haystack) = fromkeys (keyword_hits ts haystack) /\
                 snd (match_keywords ts haystack) = nonempty (keyword_hits ts haystack)).
    { unfold match_keywords. subst ts. cbv zeta.
      destruct (keyword_hits (t :: terms) haystack) as [|k ks] eqn:K; cbn [nonempty fst snd].
      - split; reflexivity.
      - split; [reflexivity|]. unfold fromkeys. cbn. reflexivity. }
    destruct Hm as [-> ->].
    assert (Hin : forall kw, In kw (fromkeys (keyword_hits ts haystack))
                             <-> In kw ts /\ substring kw haystack).
    { intros kw. unfold fromkeys. rewrite fromkeys_acc_In, Hhit. cbn. tauto. }
    split; [|split; [|split]].
    + split.
      * intros H. destruct (keyword_hits ts haystack) as [|k ks] eqn:K; [discriminate H|].
        exists k. apply (proj1 (Hhit k)). left. reflexivity.
      * intros (kw & H). apply (proj2 (Hhit kw)) in H.
        destruct (keyword_hits ts haystack); [destruct H | reflexivity].
    + apply fromkeys_acc_NoDup.
    + exact Hin.
    + intros before x after y E Hy.
      destruct (fromkeys_acc_order [] _ before after x y E Hy) as (s1 & s2 & Es & N).
      destruct (filter_split _ ts s1 s2 x Es) as (t1 & t2 & Et & F).
      exists t1, t2. split; [exact Et|].
      intros Hy1. apply N. rewrite <- F. apply filter_In. split; [exact Hy1|].
      assert (In y (fromkeys (keyword_hits ts haystack))) as Hyin
        by (rewrite E; apply in_or_app; right; right; exact Hy).
      apply (proj1 (Hin y)) in Hyin. destruct Hyin as [Hyt Hys].
      rewrite andb_true_iff, contains_spec. split; [|exact Hys].
      apply truthy_true. apply Hne. subst ts. rewrite Et. apply in_or_app.
      left. exact Hy1.
Qed.

(** The parts of the haystack: those that are not absent. *)
Lemma truthy_parts_present (parts : list (option pystr)) :
  truthy_parts parts = present parts.
Proof.
  unfold present. induction parts as [|p parts IH]; [reflexivity|].
  destruct p as [[|ch s]|]; cbn [truthy_parts map or_empty filter truthy];
    rewrite IH; reflexivity.
Qed.

Lemma substring_trans (a b c : pystr) :
  substring a b -> substring b c -> substring a c.
Proof.
  intros (b1 & b2 & ->) (c1 & c2 & ->).
  exists (c1 ++ b1), (b2 ++ c2). rewrite <- !app_assoc. reflexivity.
Qed.

(** Every part that is joined occurs in the result. *)
Lemma substring_join (sep x : pystr) (l : list pystr) :
  In x l -> substring x (join sep l).
Proof.
  induction l as [|p l IH]; [intros []|].
  intros [-> | H].
  - destruct l as [|q l]; cbn [join].
    + exists [], []. rewrite app_nil_r. reflexivity.
    + exists [], (sep ++ join sep (q :: l)). reflexivity.
  - destruct l as [|q l]; [destruct H|].
    destruct (IH H) as (b1 & b2 & E).
    change (join sep (p :: q :: l)) with (p ++ sep ++ join sep (q :: l)).
    rewrite E. exists (p ++ sep ++ b1), b2. rewrite <- !app_assoc. reflexivity.
Qed.

(** A keyword found in a part of the entry is found in the haystack. *)
Lemma substring_haystack (e : FeedEntry) (extracted : option pystr) (kw part : pystr) :
  kw <> [] ->
  In (Some part) [title e; author e; content e; extracted] ->
  substring kw part ->
  substring kw (haystack_of e extracted).
Proof.
  intros Hkw Hin Hsub. apply (substring_trans kw part); [exact Hsub|].
  unfold haystack_of. rewrite truthy_parts_present. apply substring_join.
  unfold present. apply filter_In. split.
  - apply in_map_iff. exists (Some part). split; [reflexivity | exact Hin].
  - apply truthy_true. intros ->. destruct Hsub as (b1 & b2 & E).
    destruct b1; [destruct kw; [congruence | discriminate E] | discriminate E].
Qed.

Ltac head_scrutinee t :=
  lazymatch t with
  | match ?x with _ => _ end => head_scrutinee x
  | _ => t
  end.

Section WithComponents.

Variable exists_article : pystr -> pystr -> bool.
Variable extract_from_url : pystr -> float -> option pystr.
Variable summarize : FeedEntry -> pystr -> pystr -> pystr -> option Summary.
Variable fallback_summary : FeedEntry -> option pystr -> Summary.
Variable insert_article : ArticleCreate -> result (option Z).
Variable prune_articles : Z -> result unit.
Variable push_telegram : pystr -> Summary -> list pystr -> result bool.
Variable push_wecom : Summary -> list pystr -> result bool.
Variable settings : AppSettings.t.

(** The [try] block in closed form: the calls it makes, in order, and the
    counters it leaves.  [stored]: the insert gave a new row;
    [pruned]: pruning then returned; [telegram_done]: the Telegram step was
    then passed, by not pushing or by a push that returned. *)
Lemma store_and_push_spec (article : ArticleCreate) (item : Summary)
    (m : list pystr) (flag : bool) (tr : list event) (c : Counters) :
  let max_items := FetchSettings.max_items (AppSettings.fetch settings) in
  let chat_id := TelegramSettings.chat_id (AppSettings.telegram settings) in
  let stored := new_row (insert_article article) in
  let pruned := stored && is_ok (prune_articles max_items) in
  let to_telegram := tg_built settings && flag && tg_push_articles settings in
  let telegram_done :=
    pruned && (negb to_telegram || is_ok (push_telegram chat_id item m)) in
  let to_wecom := wecom_built settings && flag && wecom_push_articles settings in
  let raised :=
    negb (is_ok (insert_article article))
    || stored && negb (is_ok (prune_articles max_items))
    || pruned && to_telegram && negb (is_ok (push_telegram chat_id item m))
    || telegram_done && to_wecom && negb (is_ok (push_wecom item m)) in
  store_and_push insert_article prune_articles push_telegram push_wecom settings
    article item m flag tr c
  = (tr ++ Insert article
        :: (if stored then [Prune max_items] else [])
        ++ (if pruned && to_telegram then [PushTelegram chat_id item m] else [])
        ++ (if telegram_done && to_wecom then [PushWeCom item m] else []),
     let c := if stored then bump_new c else c in
     if raised then bump_failed c else c).
Proof.
  cbv zeta. unfold store_and_push. cbv zeta.
  repeat (cbn [new_row is_ok negb andb orb];
          match goal with
          | |- ?lhs = _ =>
              lazymatch lhs with
              | match ?x with _ => _ end =>
                  let s := head_scrutinee x in destruct s
              end
          end);
    cbn [new_row is_ok negb andb orb app];
    rewrite <- ?app_assoc; reflexivity.
Qed.

(** The loop body in closed form, for an entry that is not skipped. *)
Lemma do_fetch_once_entry_spec (force : bool) (feed : pystr) (e : FeedEntry)
    (c0 : Counters) :
  negb force && exists_article feed (uid e) = false ->
  let extracting :=
    FetchSettings.use_article_page (AppSettings.fetch settings)
    && truthy_opt (link e) in
  let extracted :=
    if extracting
    then extract_from_url (or_empty (link e))
           (FetchSettings.article_timeout_seconds (AppSettings.fetch settings))
    else None in
  let cs := or_empty (or_else (or_else extracted (content e)) (Some [])) in
  let fc := if truthy cs then Some cs else content e in
  let terms := filter_keywords settings in
  let m := fst (match_keywords terms (haystack_of e extracted)) in
  let flag := snd (match_keywords terms (haystack_of e extracted)) in
  let attempted := ai_built settings && flag in
  let answer :=
    if attempted
    then summarize e cs (AISettings.system_prompt (AppSettings.ai settings))
           (AISettings.user_prompt_template (AppSettings.ai settings))
    else None in
  let item := match answer with Some obj => obj | None => fallback_summary e fc end in
  let article :=
    {| feed_url := feed;
       item_uid := uid e;
       a_title := or_else (s_title item) (title e);
       a_link := link e;
       a_pub_date := or_else (s_pubDate item) (pub_date e);
       a_author := or_else (s_author item) (author e);
       content_text := cs;
       summary_text := or_empty (or_else (s_summary_text item) (Some []));
       matched_keywords := m |} in
  let max_items := FetchSettings.max_items (AppSettings.fetch settings) in
  let chat_id := TelegramSettings.chat_id (AppSettings.telegram settings) in
  let stored := new_row (insert_article article) in
  let pruned := stored && is_ok (prune_articles max_items) in
  let to_telegram := tg_built settings && flag && tg_push_articles settings in
  let telegram_done :=
    pruned && (negb to_telegram || is_ok (push_telegram chat_id item m)) in
  let to_wecom := wecom_built settings && flag && wecom_push_articles settings in
  let raised :=
    negb (is_ok (insert_article article))
    || stored && negb (is_ok (prune_articles max_items))
    || pruned && to_telegram && negb (is_ok (push_telegram chat_id item m))
    || telegram_done && to_wecom && negb (is_ok (push_wecom item m)) in
  let c := bump_processed c0 in
  let c := if nonempty terms && flag then bump_keywords (len m) c else c in
  let c :=
    if attempted
    then bump_ai 1 0 (match answer with None => 1 | Some _ => 0 end) no_usage c
    else c in
  let c :=
    match answer with
    | Some obj =>
        bump_ai 0 1 0 (match _ai_usage obj with Some u => u | None => no_usage end) c
    | None => c
    end in
  let c := if stored then bump_new c else c in
  let c := if raised then bump_failed c else c in
  do_fetch_once_entry exists_article extract_from_url summarize fallback_summary
    insert_article prune_articles push_telegram push_wecom settings force feed e c0
  = {| counters := c;
       trace :=
         (if extracting then [Extract (or_empty (link e))] else [])
         ++ (if attempted then [Summarize e cs] else [])
         ++ (match answer with None => [Fallback e fc] | Some _ => [] end)
         ++ Insert article
            :: (if stored then [Prune max_items] else [])
            ++ (if pruned && to_telegram then [PushTelegram chat_id item m] else [])
            ++ (if telegram_done && to_wecom then [PushWeCom item m] else []);
       keywords_matched := Some flag;
       entry_keywords := m |}.
Proof.
  intros Hdup. cbv zeta. unfold do_fetch_once_entry. rewrite Hdup. cbv zeta.
  destruct (match_keywords (filter_keywords settings) _) as [m flag].
  cbn [fst snd].
  destruct (FetchSettings.use_article_page (AppSettings.fetch settings)
            && truthy_opt (link e));
    destruct (ai_built settings && flag);
    try match goal with
        | |- context [summarize ?a ?b ?x ?y] => destruct (summarize a b x y) as [obj|]
        end;
    cbv beta iota; rewrite store_and_push_spec; cbv zeta;
    cbn [app]; rewrite <- ?app_assoc; reflexivity.
Qed.

End WithComponents.

End PipelineFacts.

Module PipelineClaims.

Import Pipeline.
Open Scope Z_scope.

(** C5.  For an entry that is not skipped as a duplicate.  The haystack is
    the parts that are not absent among title, author, feed content and
    extracted content, joined by a newline between two blanks.  With
    filter keywords configured the entry matches exactly when some keyword
    is a literal substring of the haystack, as is every keyword found in
    one of the parts, and [matched_keywords] lists the keywords that
    occur, without duplicates, in the order in which the filter list first
    has them; with no filter keyword every entry matches.  A matching
    entry is summarized by the AI client whenever one is built and is
    handed to [insert_article]; it is pushed to Telegram exactly when the
    insert gave a new row, pruning returned, and the Telegram client is
    built and pushes articles, and to WeCom exactly when moreover the
    Telegram step did not raise and the WeCom client is built and pushes
    articles.  An entry that does not match is never handed to the AI
    client and never pushed: it gets the fallback summary and is handed to
    [insert_article] with it. *)
Theorem keyword_filter_gates_entry
    (exists_article : pystr -> pystr -> bool)
    (extract_from_url : pystr -> float -> option pystr)
    (summarize : FeedEntry -> pystr -> pystr -> pystr -> option Summary)
    (fallback_summary : FeedEntry -> option pystr -> Summary)
    (insert_article : ArticleCreate -> result (option Z))
    (prune_articles : Z -> result unit)
    (push_telegram : pystr -> Summary -> list pystr -> result bool)
    (push_wecom : Summary -> list pystr -> result bool)
    (settings : AppSettings.t) (force : bool) (feed : pystr)
    (e : FeedEntry) (c : Counters) :
  negb force && exists_article feed (uid e) = false ->
  let terms := filter_keywords settings in
  let extracted :=
    if FetchSettings.use_article_page (AppSettings.fetch settings)
       && truthy_opt (link e)
    then extract_from_url (or_empty (link e))
           (FetchSettings.article_timeout_seconds (AppSettings.fetch settings))
    else None in
  let parts := [title e; author e; content e; extracted] in
  let haystack := join (lit " " ++ [WeCom.newline] ++ lit " ") (present parts) in
  let out := do_fetch_once_entry exists_article extract_from_url summarize
               fallback_summary insert_article prune_articles push_telegram
               push_wecom settings force feed e c in
  let matched := entry_keywords out in
  let max_items := FetchSettings.max_items (AppSettings.fetch settings) in
  let chat_id := TelegramSettings.chat_id (AppSettings.telegram settings) in
  haystack_of e extracted = haystack /\
  exists flag,
    keywords_matched out = Some flag /\
    (terms = [] -> flag = true) /\
    (terms <> [] ->
       (flag = true <-> exists kw, In kw terms /\ substring kw haystack) /\
       NoDup matched /\
       (forall kw, In kw matched <-> In kw terms /\ substring kw haystack) /\
       first_seen_order terms matched) /\
    (forall kw part,
       In kw terms -> In (Some part) parts -> substring kw part ->
       flag = true /\ In kw matched) /\
    (flag = true ->
       existsb is_summarize (trace out) = ai_built settings /\
       exists article item,
         In (Insert article) (trace out) /\
         matched_keywords article = matched /\
         summary_text article
         = or_empty (or_else (s_summary_text item) (Some [])) /\
         let pruned :=
           new_row (insert_article article) && is_ok (prune_articles max_items) in
         let to_telegram := tg_built settings && tg_push_articles settings in
         let telegram_done :=
           pruned && (negb to_telegram
                      || is_ok (push_telegram chat_id item matched)) in
         let to_wecom := wecom_built settings && wecom_push_articles settings in
         existsb is_prune (trace out) = new_row (insert_article article) /\
         existsb is_push_telegram (trace out) = pruned && to_telegram /\
         (pruned && to_telegram = true ->
          In (PushTelegram chat_id item matched) (trace out)) /\
         existsb is_push_wecom (trace out) = telegram_done && to_wecom /\
         (telegram_done && to_wecom = true ->
          In (PushWeCom item matched) (trace out))) /\
    (flag = false ->
       existsb is_summarize (trace out) = false /\
       existsb is_push_telegram (trace out) = false /\
       existsb is_push_wecom (trace out) = false /\
       exists content article,
         In (Fallback e content) (trace out) /\
         In (Insert article) (trace out) /\
         summary_text article
         = or_empty (or_else (s_summary_text (fallback_summary e content)) (Some [])) /\
         matched_keywords article = matched).
Proof.
  intros Hdup terms extracted parts haystack out matched max_items chat_id.
  subst max_items chat_id.
  assert (Hhay : haystack_of e extracted = haystack).
  { unfold haystack_of. rewrite PipelineFacts.truthy_parts_present. reflexivity. }
  split; [exact Hhay|].
  assert (Hne : forall kw, In kw terms -> kw <> [])
    by (intros kw; apply PipelineFacts.normalize_keywords_nonempty).
  pose proof (PipelineFacts.match_keywords_spec terms haystack Hne) as S.
  cbv zeta in S. destruct S as [S0 S1].
  assert (Spart : forall kw part,
            In kw terms -> In (Some part) parts -> substring kw part ->
            substring kw haystack).
  { intros kw part Hkw Hpart Hsub. rewrite <- Hhay.
    apply (PipelineFacts.substring_haystack e extracted kw part); auto. }
  pose proof (PipelineFacts.do_fetch_once_entry_spec exists_article extract_from_url
                summarize fallback_summary insert_article prune_articles
                push_telegram push_wecom settings force feed e c Hdup) as E.
  cbv zeta in E. fold extracted in E. rewrite Hhay in E. fold terms in E.
  unfold matched, out. rewrite E. clear E.
  cbn [trace keywords_matched entry_keywords].
  set (mk := match_keywords terms haystack) in *. clearbody mk.
  destruct mk as [m flag]. cbn [fst snd] in *.
  set (cs := or_empty (or_else (or_else extracted (content e)) (Some []))).
  set (fc := if truthy cs then Some cs else content e).
  set (tr0 := if FetchSettings.use_article_page (AppSettings.fetch settings)
                 && truthy_opt (link e)
              then [Extract (or_empty (link e))] else []).
  assert (T0 : existsb is_summarize tr0 = false /\ existsb is_prune tr0 = false /\
               existsb is_push_telegram tr0 = false /\
               existsb is_push_wecom tr0 = false).
  { subst tr0.
    destruct (FetchSettings.use_article_page (AppSettings.fetch settings)
              && truthy_opt (link e)); cbn; auto. }
  destruct T0 as (T1 & T2 & T3 & T4). clearbody tr0 fc cs.
  exists flag.
  split; [reflexivity|].
  split; [intros T; apply S0; exact T|].
  split; [exact S1|].
  split.
  { intros kw part Hkw Hpart Hsub.
    assert (Hterms : terms <> []) by (intros T; rewrite T in Hkw; destruct Hkw).
    destruct (S1 Hterms) as (F & _ & I & _).
    pose proof (Spart kw part Hkw Hpart Hsub) as Hhit.
    split; [apply F; exists kw; auto | apply I; auto]. }
  split; intros ->.
  - (* the entry matches *)
    rewrite !andb_true_r.
    destruct (ai_built settings);
      [destruct (summarize e cs _ _) as [obj|] |];
      cbv beta iota;
      match goal with
      | |- context [PushWeCom ?i _] => set (item := i)
      end;
      match goal with
      | |- context [Insert ?a] => set (article := a)
      end;
      (split; [rewrite !existsb_app, T1;
               repeat match goal with
                      | |- context [if ?b then _ else _] => destruct b
                      end; reflexivity|]);
      exists article, item;
      (split; [apply in_or_app; right; cbn; tauto|]);
      (split; [reflexivity|]); (split; [reflexivity|]);
      cbv zeta;
      destruct (new_row (insert_article article)),
               (is_ok (prune_articles _)),
               (tg_built settings && tg_push_articles settings),
               (is_ok (push_telegram _ item m)),
               (wecom_built settings && wecom_push_articles settings);
      cbn [andb orb negb app];
      rewrite !existsb_app, ?T2, ?T3, ?T4;
      repeat split; intros; try discriminate; try reflexivity;
      apply in_or_app; right; cbn; tauto.
  - (* the entry does not match *)
    rewrite !andb_false_r. cbn [andb]. rewrite ?andb_false_r. cbv beta iota.
    cbn [app].
    split; [rewrite !existsb_app, T1; destruct (new_row _); reflexivity|].
    split; [rewrite !existsb_app, T3; destruct (new_row _); reflexivity|].
    split; [rewrite !existsb_app, T4; destruct (new_row _); reflexivity|].
    eexists. eexists.
    split; [apply in_or_app; right; left; reflexivity|].
    split; [apply in_or_app; right; right; left; reflexivity|].
    split; reflexivity.
Qed.

Lemma keyword_filter_gates_entry_witness :
  negb false && Samples.no_article Samples.feed0 (uid Samples.entry_gamma) = false /\
  filter_keywords Samples.stored0 = [lit "alpha"; lit "beta"] /\
  keywords_matched (Samples.process_sample Samples.entry_gamma) = Some false /\
  existsb is_summarize (trace (Samples.process_sample Samples.entry_gamma)) = false /\
  existsb is_push_telegram (trace (Samples.process_sample Samples.entry_gamma)) = false /\
  existsb is_push_wecom (trace (Samples.process_sample Samples.entry_gamma)) = false.
Proof.
  split; [reflexivity|]. split; [reflexivity|]. split; [reflexivity|].
  destruct (keyword_filter_gates_entry Samples.no_article Samples.no_extraction
              Samples.ai_summary Samples.echo_summary Samples.insert_new
              Samples.prune_done Samples.telegram_sent Samples.wecom_sent
              Samples.stored0 false Samples.feed0 Samples.entry_gamma Samples.counters0
              eq_refl)
    as (_ & flag & Hflag & _ & _ & _ & _ & Hno).
  assert (F : flag = false) by (cbv in Hflag; congruence).
  destruct (Hno F) as (H1 & H2 & H3 & _).
  split; [exact H1|]. split; [exact H2 | exact H3].
Defined.

End PipelineClaims.

(** ** Further properties of the WeCom client *)

Module WeComMore.

Import WeCom.
Open Scope Z_scope.

Lemma join_app (c : codepoint) (a b : list pystr) :
  a <> [] -> b <> [] ->
  join [c] (a ++ b) = join [c] a ++ [c] ++ join [c] b.
Proof.
  intros Ha Hb. induction a as [|x a IH]; [congruence|].
  destruct a as [|y a].
  - cbn [app join]. destruct b; [congruence | reflexivity].
  - cbn [app].
    change (join [c] (x :: y :: a ++ b)) with (x ++ [c] ++ join [c] ((y :: a) ++ b)).
    change (join [c] (x :: y :: a)) with (x ++ [c] ++ join [c] (y :: a)).
    rewrite IH by discriminate. rewrite <- !app_assoc. reflexivity.
Qed.

(** X1.  A text that does not fit is cut at a line boundary and never
    altered: the result is a prefix of the text followed by the ellipsis,
    and the prefix is empty or is followed by a newline in the text. *)
Theorem truncate_text_keeps_whole_lines (text : pystr) (max_length : Z) :
  0 < max_length -> max_length < len text ->
  exists kept dropped,
    text = kept ++ dropped /\
    _truncate_text text max_length = kept ++ ellipsis /\
    (kept = [] \/ exists rest, dropped = newline :: rest).
Proof.
  intros Hpos Hlong.
  destruct (WeComFacts.truncate_text_greedy text max_length Hpos Hlong)
    as (kept & line & rest & Hsplit & _ & _ & Hres).
  pose proof (join_split newline text) as Hj. rewrite Hsplit in Hj.
  destruct kept as [|k kept].
  - exists [], text. cbn [join app] in *. auto.
  - rewrite join_app in Hj by discriminate.
    exists (join [newline] (k :: kept)), ([newline] ++ join [newline] (line :: rest)).
    split; [symmetry; exact Hj|]. split; [exact Hres|].
    right. eexists. reflexivity.
Qed.

Lemma truncate_text_keeps_whole_lines_witness :
  0 < 10 /\ 10 < len MoreSamples.three_lines /\
  exists kept dropped,
    MoreSamples.three_lines = kept ++ dropped /\
    _truncate_text MoreSamples.three_lines 10 = kept ++ ellipsis /\
    (kept = [] \/ exists rest, dropped = newline :: rest).
Proof.
  split; [reflexivity|]. split; [reflexivity|].
  apply (truncate_text_keeps_whole_lines MoreSamples.three_lines 10);
    reflexivity.
Defined.

(** X2.  When the first line alone is too long for [max_length - 3], no
    line is kept: the whole text is replaced by the bare ellipsis. *)
Theorem truncate_text_long_first_line (text : pystr) (max_length : Z) :
  0 < max_length -> max_length < len text ->
  max_length - 4 < len (first_line text) ->
  _truncate_text text max_length = ellipsis.
Proof.
  intros Hpos Hlong Hfirst. unfold _truncate_text, first_line in *.
  destruct (len text <=? max_length) eqn:E; [lia|].
  destruct (split newline text) as [|l ls] eqn:S;
    [exfalso; exact (split_nonempty _ _ S)|].
  cbn [hd] in Hfirst. cbn [truncate_loop].
  destruct (0 + len l + 1 >? max_length - 3) eqn:G; [|lia].
  cbn [join]. change (len (@nil codepoint)) with 0.
  destruct (0 <? len text) eqn:L; [reflexivity | lia].
Qed.

Lemma truncate_text_long_first_line_witness :
  0 < 10 /\ 10 < len (lit "abcdefghijkl") /\
  10 - 4 < len (first_line (lit "abcdefghijkl")) /\
  _truncate_text (lit "abcdefghijkl") 10 = ellipsis.
Proof.
  split; [reflexivity|]. split; [reflexivity|]. split; [reflexivity|].
  apply (truncate_text_long_first_line (lit "abcdefghijkl") 10); reflexivity.
Defined.

(** X3.  The article notice is short: its length is at most the lengths of
    the title, the link, the date, the author and the joined keywords, plus
    1034 (markup, labels, separators and at most 1000 characters of
    summary). *)
Theorem format_markdown_message_length
    (title link pub_date author summary_text : pystr)
    (matched_keywords : option (list pystr)) :
  len (format_markdown_message title link pub_date author summary_text
         matched_keywords)
  <= len title + len link + len pub_date + len author
     + len (join ideographic_comma (shown_keywords matched_keywords)) + 1034.
Proof.
  pose proof (WeComFacts.truncate_text_bound summary_text 1000 ltac:(lia)) as B.
  pose proof (len_nonneg title). pose proof (len_nonneg link).
  pose proof (len_nonneg pub_date). pose proof (len_nonneg author).
  pose proof (len_nonneg summary_text).
  pose proof (len_nonneg (join ideographic_comma (shown_keywords matched_keywords))).
  unfold format_markdown_message, shown_keywords in *.
  destruct pub_date as [|p ps]; destruct author as [|a au];
    destruct matched_keywords as [[|k ks]|]; destruct summary_text as [|s ss];
    cbn [truthy nonempty app join];
    repeat rewrite ?len_app, ?len_cons, ?len_nil;
    repeat rewrite ?len_app, ?len_cons, ?len_nil in B;
    change (len (lit "**")) with 2; change (len (lit "[")) with 1;
    change (len (lit "](")) with 2; change (len (lit ")")) with 1;
    change (len (lit " | ")) with 3;
    change (len label_link) with 4; change (len label_pub_date) with 5;
    change (len label_author) with 3; change (len label_keywords) with 4;
    lia.
Qed.

End WeComMore.

(** ** The manual push endpoints *)

Module ManualMore.

Import Notices Manual.
Open Scope Z_scope.

(** The hard cut of the report pushes. *)
Lemma cut_spec (max_len : Z) (message : pystr) :
  3 <= max_len ->
  len (cut max_len message) <= max_len /\
  (len message <= max_len -> cut max_len message = message) /\
  (max_len < len message ->
   cut max_len message = firstn (Z.to_nat (max_len - 3)) message ++ WeCom.ellipsis).
Proof.
  intros H3. unfold cut. destruct (len message >? max_len) eqn:G.
  - split; [|split; [lia | reflexivity]].
    rewrite len_app. unfold len at 1. rewrite length_firstn.
    change (len WeCom.ellipsis) with 3. unfold len in G. lia.
  - split; [lia|]. split; [reflexivity | lia].
Qed.

Section WithClients.

Variable get_article : Z -> option Article.
Variable get_report : Z -> option Report.
Variable tg_send : pystr -> pystr -> option pystr -> bool -> result bool.
Variable post : pystr -> float -> value -> result WeCom.Response.
Variable raises_for_status : Z -> bool.
Variable exn_str : exn -> pystr.

Lemma attempt_platform (name : pystr) (call : result bool) :
  platform (attempt exn_str name call) = name.
Proof. destruct call; reflexivity. Qed.

Lemma attempt_success (name : pystr) (call : result bool) :
  success (attempt exn_str name call) = true ->
  call = Ok true /\ message (attempt exn_str name call) = msg_pushed.
Proof. destruct call as [[|]|e]; cbn; intros H; try discriminate H; auto. Qed.

(** [send_message] never raises, so the [except] branch of the WeCom push
    is never taken. *)
Lemma attempt_wecom (client : WeCom.WeComClient) (text : pystr) :
  let r := attempt exn_str (lit "wecom")
             (WeCom.send_message post raises_for_status client text) in
  message r = msg_pushed \/ message r = msg_failed.
Proof.
  cbv zeta. rewrite WeComFacts.send_message_cases.
  match goal with |- context [attempt _ _ (Ok ?b)] => destruct b end; cbn; auto.
Qed.

Lemma push_to_platforms_eq (settings : AppSettings.t) (req : ManualPushRequest)
    (tg_text : pystr) (parse_mode : option pystr) (preview : bool) (wc_text : pystr) :
  let tg := requested (lit "telegram") (platforms req)
            && platform_ready settings (lit "telegram") in
  let wc := requested (lit "wecom") (platforms req)
            && platform_ready settings (lit "wecom") in
  let chat_id := TelegramSettings.chat_id (AppSettings.telegram settings) in
  push_to_platforms tg_send post raises_for_status exn_str
    settings req tg_text parse_mode preview wc_text
  = ((if tg then [attempt exn_str (lit "telegram")
                    (tg_send chat_id tg_text parse_mode preview)] else [])
     ++ (if wc then [attempt exn_str (lit "wecom")
                       (WeCom.send_message post raises_for_status
                          (wecom_client_of settings) wc_text)] else []),
     (if tg then [SentTelegram chat_id tg_text parse_mode preview] else [])
     ++ (if wc then [SentWeCom (wecom_client_of settings) wc_text] else [])).
Proof.
  unfold push_to_platforms, platform_ready, _build_wecom_client, wecom_client_of.
  change (str_eqb (lit "telegram") (lit "telegram")) with true.
  change (str_eqb (lit "wecom") (lit "telegram")) with false.
  change (str_eqb (lit "wecom") (lit "wecom")) with true.
  cbv iota zeta.
  destruct (requested (lit "telegram") (platforms req));
    destruct (Pipeline.tg_built settings);
    destruct (TelegramSettings.enabled (AppSettings.telegram settings));
    destruct (Pipeline.wecom_built settings);
    destruct (requested (lit "wecom") (platforms req));
    destruct (WeComSettings.enabled (AppSettings.wecom settings));
    reflexivity.
Qed.

(** The guarded pushes: one result per call, for the platforms that are
    requested and ready, Telegram first; the texts are the ones given; a
    result that reports success comes from a client that returned true. *)
Lemma push_to_platforms_spec (settings : AppSettings.t) (req : ManualPushRequest)
    (tg_text : pystr) (parse_mode : option pystr) (preview : bool) (wc_text : pystr) :
  let out := push_to_platforms tg_send post raises_for_status exn_str
               settings req tg_text parse_mode preview wc_text in
  map platform (fst out) = reached settings req /\
  List.length (fst out) = List.length (snd out) /\
  (forall c, In c (snd out) ->
     (is_telegram_call c = true /\ text_of c = tg_text) \/
     (is_telegram_call c = false /\ text_of c = wc_text)) /\
  (forall r, In r (fst out) -> platform r = lit "wecom" ->
     message r = msg_pushed \/ message r = msg_failed) /\
  (forall r, In r (fst out) -> success r = true -> message r = msg_pushed).
Proof.
  cbv zeta. rewrite push_to_platforms_eq. cbv zeta. unfold reached.
  cbn [filter fst snd].
  set (tg := requested (lit "telegram") (platforms req)
             && platform_ready settings (lit "telegram")).
  set (wc := requested (lit "wecom") (platforms req)
             && platform_ready settings (lit "wecom")).
  assert (D : forall (A : Type) (x : A) (l : list A), In x l ->
                match l with
                | [] => False
                | [a] => x = a
                | [a; b] => x = a \/ x = b
                | _ => True
                end).
  { intros A x [|a [|b [|c l]]] H; cbn in H; intuition auto. }
  split. { destruct tg, wc; cbn; rewrite ?attempt_platform; reflexivity. }
  split. { destruct tg, wc; reflexivity. }
  split.
  { destruct tg, wc; intros c Hc; apply D in Hc; cbn in Hc;
      try contradiction; try (destruct Hc as [Hc | Hc]); subst; cbn; auto. }
  split.
  { destruct tg, wc; intros r Hr Hp; apply D in Hr; cbn in Hr;
      try contradiction; try (destruct Hr as [Hr | Hr]); subst;
      first [ apply attempt_wecom
            | rewrite attempt_platform in Hp; discriminate Hp ]. }
  destruct tg, wc; intros r Hr Hs; apply D in Hr; cbn in Hr;
    try contradiction; try (destruct Hr as [Hr | Hr]); subst;
    apply attempt_success in Hs; apply Hs.
Qed.

(** X4.  [api_push_article] answers 404 for an unknown article without
    contacting any platform; for a known one it never raises, whatever the
    clients do, and returns one result per call made: for the platforms that
    are both requested and ready (client built and enabled), Telegram
    first, each at most once.  A result reports success only with the
    message of a successful push, and the WeCom result is never the one of
    the [except] branch. *)
Theorem api_push_article_reaches_ready_platforms
    (article_id : Z) (req : ManualPushRequest) (st : Api.State) :
  let out := api_push_article get_article tg_send post raises_for_status exn_str
               article_id req st in
  match get_article article_id with
  | None => out = (Raise (HTTPException 404 (lit "Article not found")), [])
  | Some item =>
      exists results,
        fst out = Ok results /\
        map platform results = reached (Api.load_settings st) req /\
        List.length results = List.length (snd out) /\
        (forall r, In r results -> success r = true -> message r = msg_pushed) /\
        (forall r, In r results -> platform r = lit "wecom" ->
           message r = msg_pushed \/ message r = msg_failed)
  end.
Proof.
  cbv zeta. unfold api_push_article.
  destruct (get_article article_id) as [item|]; [|reflexivity].
  match goal with
  | |- context [push_to_platforms ?a ?b ?c ?d ?e ?f ?g ?h ?i ?j] =>
      pose proof (push_to_platforms_spec e f g h i j) as S;
      destruct (push_to_platforms a b c d e f g h i j) as [results calls]
  end.
  cbn [fst snd] in *. destruct S as (S1 & S2 & _ & S4 & S5).
  exists results. repeat split; assumption.
Qed.

(** X5.  [api_push_report] answers 404 for an unknown report without
    contacting any platform; otherwise every text it hands to a client is
    the report message cut to the platform's cap, 3900 characters for
    Telegram and 4000 for WeCom: the message itself when it fits, else its
    first cap - 3 characters followed by the ellipsis. *)
Theorem api_push_report_texts_are_capped
    (report_id : Z) (req : ManualPushRequest) (st : Api.State) :
  let out := api_push_report get_report tg_send post raises_for_status exn_str
               report_id req st in
  match get_report report_id with
  | None => out = (Raise (HTTPException 404 (lit "Report not found")), [])
  | Some report =>
      is_ok (fst out) = true /\
      forall c, In c (snd out) ->
        let cap := if is_telegram_call c then 3900 else 4000 in
        len (text_of c) <= cap /\
        (len (report_message report) <= cap -> text_of c = report_message report) /\
        (cap < len (report_message report) ->
         text_of c = firstn (Z.to_nat (cap - 3)) (report_message report)
                     ++ WeCom.ellipsis)
  end.
Proof.
  cbv zeta. unfold api_push_report.
  destruct (get_report report_id) as [report|]; [|reflexivity].
  match goal with
  | |- context [push_to_platforms ?a ?b ?c ?d ?e ?f ?g ?h ?i ?j] =>
      pose proof (push_to_platforms_spec e f g h i j) as S;
      destruct (push_to_platforms a b c d e f g h i j) as [results calls]
  end.
  cbn [fst snd is_ok] in *. destruct S as (_ & _ & S3 & _).
  split; [reflexivity|]. intros c Hc.
  destruct (S3 c Hc) as [[-> ->] | [-> ->]].
  - apply (cut_spec 3900). lia.
  - apply (cut_spec 4000). lia.
Qed.

End WithClients.

Lemma join_head2 (a b : pystr) (rest : list pystr) :
  join [WeCom.newline] (a :: b :: rest)
  = a ++ [WeCom.newline] ++ b ++ tail_lines rest.
Proof.
  unfold tail_lines. destruct rest as [|r rest].
  - cbn [join]. rewrite app_nil_r. reflexivity.
  - reflexivity.
Qed.

Lemma telegram_message_lines (item : Item) (matched_keywords : option (list pystr)) :
  _format_telegram_message item matched_keywords
  = join [WeCom.newline]
      (  (lit "<b>" ++ fmt (Notices.title item) ++ lit "</b>")
      :: (lit "<a href=" ++ quote ++ fmt (Notices.link item) ++ quote ++ lit ">"
          ++ WeCom.label_link ++ lit "</a>")
      :: notice_rest (or_empty (Notices.pubDate item)) (or_empty (Notices.author item))
           (shown_keywords matched_keywords)
           (if truthy (or_empty (Notices.summary_text item))
            then Some (or_empty (Notices.summary_text item)) else None)).
Proof.
  unfold _format_telegram_message, notice_rest, shown_keywords,
    Rendering.metadata_line, Rendering.labelled, Rendering.keywords_part.
  destruct item as [t l p a s].
  cbn [Notices.title Notices.link Notices.pubDate Notices.author Notices.summary_text].
  destruct p as [[|pc ps]|]; destruct a as [[|ac au]|];
    destruct matched_keywords as [[|k ks]|]; destruct s as [[|sc ss]|];
    reflexivity.
Qed.

Lemma wecom_message_lines (item : Item) (matched_keywords : option (list pystr)) :
  _format_wecom_message item matched_keywords
  = join [WeCom.newline]
      (  (lit "**" ++ fmt (Notices.title item) ++ lit "**")
      :: (lit "[" ++ WeCom.label_link ++ lit "](" ++ fmt (Notices.link item) ++ lit ")")
      :: notice_rest (or_empty (Notices.pubDate item)) (or_empty (Notices.author item))
           (shown_keywords matched_keywords)
           (if truthy (or_empty (Notices.summary_text item))
            then Some (WeCom._truncate_text (or_empty (Notices.summary_text item)) 1000)
            else None)).
Proof.
  unfold _format_wecom_message, WeCom.format_markdown_message, notice_rest,
    shown_keywords, Rendering.metadata_line, Rendering.labelled,
    Rendering.keywords_part.
  destruct item as [t l p a s].
  cbn [Notices.title Notices.link Notices.pubDate Notices.author Notices.summary_text].
  destruct p as [[|pc ps]|]; destruct a as [[|ac au]|];
    destruct matched_keywords as [[|k ks]|]; destruct s as [[|sc ss]|];
    reflexivity.
Qed.

(** X6.  For an item whose summary has at most 1000 characters the Telegram
    and the WeCom notice differ in their first two lines only (HTML against
    Markdown markup): the metadata line and the summary that follow are the
    same text. *)
Theorem article_notices_share_body (item : Item)
    (matched_keywords : option (list pystr)) :
  len (or_empty (Notices.summary_text item)) <= 1000 ->
  exists body,
    _format_telegram_message item matched_keywords = html_head item ++ body /\
    _format_wecom_message item matched_keywords = markdown_head item ++ body.
Proof.
  intros Hfit.
  rewrite telegram_message_lines, wecom_message_lines, !join_head2.
  rewrite (WeComFacts.truncate_text_fits _ _ Hfit).
  eexists. unfold html_head, markdown_head. split.
  - rewrite <- !app_assoc. reflexivity.
  - rewrite <- !app_assoc. reflexivity.
Qed.

Lemma article_notices_share_body_witness :
  len (or_empty (Notices.summary_text MoreSamples.item0)) <= 1000 /\
  exists body,
    _format_telegram_message MoreSamples.item0 (Some [lit "alpha"])
    = html_head MoreSamples.item0 ++ body /\
    _format_wecom_message MoreSamples.item0 (Some [lit "alpha"])
    = markdown_head MoreSamples.item0 ++ body.
Proof.
  split; [cbv; discriminate|].
  apply (article_notices_share_body MoreSamples.item0 (Some [lit "alpha"])).
  cbv; discriminate.
Defined.

End ManualMore.

(** ** Further properties of the settings endpoints *)

Module ApiMore.

Import Api.
Open Scope Z_scope.

(** No digit is a whitespace character. *)
Lemma ranges_disjoint (rs1 rs2 : list (N * N)) (c : N) :
  forallb (fun r1 => forallb (fun r2 => N.ltb (snd r1) (fst r2)
                                        || N.ltb (snd r2) (fst r1)) rs2) rs1 = true ->
  in_ranges c rs1 = true -> in_ranges c rs2 = false.
Proof.
  induction rs1 as [|[lo hi] rs1 IH]; cbn [forallb in_ranges]; [discriminate|].
  intros H Hin. apply andb_true_iff in H. destruct H as [H1 H2].
  apply orb_true_iff in Hin. destruct Hin as [Hin | Hin]; [|auto].
  clear IH H2. apply andb_true_iff in Hin. destruct Hin as [Hlo Hhi].
  apply N.leb_le in Hlo, Hhi.
  induction rs2 as [|[lo' hi'] rs2 IH]; cbn [forallb in_ranges] in *; [reflexivity|].
  apply andb_true_iff in H1. destruct H1 as [Hd H1]. rewrite (IH H1), orb_false_r.
  cbn [fst snd] in Hd. apply orb_true_iff in Hd.
  apply andb_false_iff. rewrite !N.leb_gt.
  destruct Hd as [Hd | Hd]; apply N.ltb_lt in Hd; lia.
Qed.

Lemma digit_not_space (c : codepoint) :
  isdigit_cp c = true -> isspace_cp c = false.
Proof. apply ranges_disjoint. vm_compute. reflexivity. Qed.

Lemma lstrip_digit (c : codepoint) (s : pystr) :
  isdigit_cp c = true -> lstrip (c :: s) = c :: s.
Proof. intros H. cbn [lstrip]. rewrite (digit_not_space c H). reflexivity. Qed.

(** A string of digits has nothing to strip. *)
Lemma strip_digits (s : pystr) : isdigit s = true -> strip s = s.
Proof.
  intros H. unfold isdigit in H. destruct s as [|c s]; [discriminate H|].
  assert (Hall : forall x, In x (c :: s) -> isdigit_cp x = true)
    by (apply forallb_forall; exact H).
  unfold strip, rstrip. rewrite lstrip_digit by (apply Hall; left; reflexivity).
  destruct (rev (c :: s)) as [|d r] eqn:R.
  - apply (f_equal (@List.length _)) in R. rewrite length_rev in R. discriminate R.
  - rewrite lstrip_digit.
    + rewrite <- R. apply rev_involutive.
    + apply Hall. apply in_rev. rewrite R. left. reflexivity.
Qed.

Section WithDefaults.

Variable defaults : AppSettings.t.

(** [fill_defaults], field by field. *)
Lemma fill_defaults_filled (s : AppSettings.t) :
  fill_defaults defaults s = filled defaults s.
Proof.
  unfold fill_defaults, filled, pick_str, pick_float.
  destruct s as [f [en k bu mo te ti sp up] t w [de he drt rsp rup rto] sv lg sec].
  cbn -[blank float_falsy].
  destruct (blank sp); cbn -[blank float_falsy];
    destruct (blank up); cbn -[blank float_falsy];
    destruct (float_falsy ti); cbn -[blank float_falsy];
    destruct (blank rsp); cbn -[blank float_falsy];
    destruct (blank rup); cbn -[blank float_falsy];
    destruct (float_falsy rto); reflexivity.
Qed.

Lemma pick_str_idem (d x : pystr) : pick_str d (pick_str d x) = pick_str d x.
Proof. unfold pick_str. destruct (blank x) eqn:E; [|rewrite E]; [destruct (blank d)|]; reflexivity. Qed.

Lemma pick_float_idem (d x : float) : pick_float d (pick_float d x) = pick_float d x.
Proof.
  unfold pick_float. destruct (float_falsy x) eqn:E; [|rewrite E];
    [destruct (float_falsy d)|]; reflexivity.
Qed.

(** Back-filling twice is back-filling once. *)
Lemma filled_idem (s : AppSettings.t) :
  filled defaults (filled defaults s) = filled defaults s.
Proof.
  unfold filled. cbn -[pick_str pick_float].
  rewrite !pick_str_idem, !pick_float_idem. reflexivity.
Qed.

Lemma pick_str_present (d x : pystr) : blank d = false -> blank (pick_str d x) = false.
Proof. intros H. unfold pick_str. destruct (blank x) eqn:E; assumption. Qed.

Lemma pick_float_present (d x : float) :
  float_falsy d = false -> float_falsy (pick_float d x) = false.
Proof. intros H. unfold pick_float. destruct (float_falsy x) eqn:E; assumption. Qed.

Lemma filled_prompts_present (s : AppSettings.t) :
  prompts_present defaults = true -> prompts_present (filled defaults s) = true.
Proof.
  unfold prompts_present. rewrite !andb_true_iff, !negb_true_iff.
  intros (((((H1 & H2) & H3) & H4) & H5) & H6). cbn -[pick_str pick_float blank float_falsy].
  rewrite !pick_str_present, !pick_float_present by assumption. repeat split.
Qed.

(** What [validated_settings] hands over is a back-filled document with
    its [security] section set last; everything but secrets, prompts,
    timeouts and [security] is as submitted. *)
Lemma validated_settings_shape (req : UpdateSettingsRequest) (old new : AppSettings.t) :
  validated_settings defaults req old = Ok new ->
  exists s security,
    new = AppSettings.set_security security (filled defaults s) /\
    AppSettings.fetch s = AppSettings.fetch (settings req) /\
    AppSettings.reports s = AppSettings.reports (settings req) /\
    AppSettings.server s = AppSettings.server (settings req) /\
    AppSettings.logging s = AppSettings.logging (settings req).
Proof.
  unfold validated_settings.
  destruct (negb _); [discriminate|].
  destruct (AppSettings.security old) as [old_security|]; cbn [bind]; [|discriminate].
  destruct (negb _); [discriminate|].
  set (s1 := if str_eqb (AISettings.api_key (AppSettings.ai (settings req))) sentinel
             then _ else _).
  set (s2 := if str_eqb (TelegramSettings.bot_token (AppSettings.telegram s1)) sentinel
             then _ else _).
  set (s3 := if str_eqb (WeComSettings.webhook_key (AppSettings.wecom s2)) sentinel
             then _ else _).
  assert (H3 : AppSettings.fetch s3 = AppSettings.fetch (settings req) /\
               AppSettings.reports s3 = AppSettings.reports (settings req) /\
               AppSettings.server s3 = AppSettings.server (settings req) /\
               AppSettings.logging s3 = AppSettings.logging (settings req)).
  { subst s3 s2 s1.
    repeat match goal with
           | |- context [if ?c then _ else _] => destruct c
           end; cbn; auto. }
  rewrite fill_defaults_filled.
  set (s5 := match AppSettings.security (filled defaults s3) with
             | None => _ | Some _ => _ end).
  assert (H5 : exists so, s5 = AppSettings.set_security so (filled defaults s3)).
  { subst s5. destruct (AppSettings.security (filled defaults s3)) eqn:E.
    - exists (Some t). unfold AppSettings.set_security. rewrite <- E.
      destruct (filled defaults s3); reflexivity.
    - eexists. reflexivity. }
  destruct H5 as [so H5].
  intros H. exists s3.
  destruct (truthy (strip (or_empty (new_password req)))).
  - destruct (negb _); cbn [bind] in H; [discriminate H|].
    destruct (AppSettings.security s5); [|discriminate H].
    inversion H; subst new. rewrite H5. eexists. split; [reflexivity | exact H3].
  - cbn [bind] in H. destruct (AppSettings.security s5); [|discriminate H].
    inversion H; subst new. rewrite H5. eexists. split; [reflexivity | exact H3].
Qed.

(** X7.  With built-in defaults that have their prompts and timeouts, no
    document leaves the settings endpoints with a blank prompt or a zero
    timeout: neither the one [get_settings] returns nor the one a successful
    [update_settings] persists. *)
Theorem prompts_never_blank (st : State) (req : UpdateSettingsRequest) :
  prompts_present defaults = true ->
  prompts_present (get_settings defaults st) = true /\
  (is_ok (fst (update_settings defaults req st)) = true ->
   prompts_present (stored (snd (update_settings defaults req st))) = true).
Proof.
  intros Hd. split.
  - unfold get_settings. rewrite fill_defaults_filled.
    apply filled_prompts_present. exact Hd.
  - unfold update_settings.
    destruct (validated_settings defaults req (load_settings st)) as [new|e] eqn:V;
      cbn [fst snd is_ok]; [intros _ | discriminate].
    destruct (validated_settings_shape req _ new V) as (s & so & -> & _).
    cbn [stored _configure_report_schedulers update_interval save_settings].
    pose proof (filled_prompts_present s Hd) as P.
    unfold prompts_present in *. exact P.
Qed.

(** X8.  After a successful update the schedulers follow the submitted
    document: a running fetch scheduler takes the new interval, the hourly
    report scheduler runs exactly when hourly reports are enabled, and the
    daily one exactly when daily reports are enabled.  A daily scheduler
    that was already running keeps the report time it was created
    with: a new [daily_report_time] reaches only a scheduler created by
    this update. *)
Theorem update_settings_reconciles_schedulers (st : State) (req : UpdateSettingsRequest) :
  is_ok (fst (update_settings defaults req st)) = true ->
  let after := snd (update_settings defaults req st) in
  let submitted := settings req in
  fetch_scheduler after
  = match fetch_scheduler st with
    | Some _ => Some (FetchSettings.interval_minutes (AppSettings.fetch submitted))
    | None => None
    end /\
  hourly_scheduler after
  = ReportSettings.hourly_enabled (AppSettings.reports submitted) /\
  daily_scheduler after
  = if ReportSettings.daily_enabled (AppSettings.reports submitted)
    then Some match daily_scheduler st with
              | Some running => running
              | None => ReportSettings.daily_report_time (AppSettings.reports submitted)
              end
    else None.
Proof.
  unfold update_settings.
  destruct (validated_settings defaults req (load_settings st)) as [new|e] eqn:V;
    cbn [fst snd is_ok]; [intros _ | discriminate].
  destruct (validated_settings_shape req _ new V) as (s & so & -> & Hf & Hr & _).
  cbv zeta.
  cbn [fetch_scheduler hourly_scheduler daily_scheduler stored
       _configure_report_schedulers update_interval save_settings
       AppSettings.set_security AppSettings.fetch AppSettings.reports filled
       ReportSettings.daily_enabled ReportSettings.hourly_enabled
       ReportSettings.daily_report_time].
  rewrite Hf, Hr. repeat split.
  destruct (ReportSettings.daily_enabled _); [|reflexivity].
  destruct (daily_scheduler st); reflexivity.
Qed.

(** X9.  [update_settings] is all or nothing.  Either it succeeds and
    returns the redacted reading of the new state, or it raises and
    leaves the whole state as it was; the only exceptions are the 400 of
    a malformed password, the 403 of a wrong one, the 400 of a malformed
    new password, and the [AttributeError] of a missing [security]
    section. *)
Theorem update_settings_all_or_nothing (st : State) (req : UpdateSettingsRequest) :
  let after := update_settings defaults req st in
  fst after = Ok (get_settings defaults (snd after)) \/
  (snd after = st /\
   (fst after = Raise (HTTPException 400 detail_password_format) \/
    fst after = Raise (HTTPException 403 detail_password_wrong) \/
    fst after = Raise (HTTPException 400 detail_new_password_format) \/
    fst after = Raise AttributeError)).
Proof.
  cbv zeta. unfold update_settings.
  destruct (validated_settings defaults req (load_settings st)) as [new|e] eqn:V;
    cbn [fst snd]; [left; reflexivity | right; split; [reflexivity|]].
  revert V. unfold validated_settings.
  destruct (negb _); [intros V; inversion V; auto|].
  destruct (AppSettings.security (load_settings st)); cbn [bind];
    [|intros V; inversion V; auto].
  destruct (negb _); [intros V; inversion V; auto|].
  destruct (truthy (strip (or_empty (new_password req)))).
  - destruct (negb _); cbn [bind]; [intros V; inversion V; auto|].
    match goal with
    | |- context [match AppSettings.security ?x with _ => _ end] =>
        destruct (AppSettings.security x)
    end; intros V; inversion V; auto.
  - cbn [bind].
    match goal with
    | |- context [match AppSettings.security ?x with _ => _ end] =>
        destruct (AppSettings.security x)
    end; intros V; inversion V; auto.
Qed.

(** X10.  Saving the settings page unchanged loses nothing.  When the
    document [get_settings] returned is submitted back as it is, with the
    current password and no new one, the update succeeds and the persisted
    document is the stored one with its blank prompts and zero timeouts
    back-filled: every secret, masked on the way out, is the stored one
    again, the admin password included. *)
Theorem settings_page_round_trip (st : State) (sec : SecuritySettings.t) :
  AppSettings.security (stored st) = Some sec ->
  well_formed (SecuritySettings.admin_password sec) = true ->
  let after := update_settings defaults
                 (save_unchanged defaults st (SecuritySettings.admin_password sec)) st in
  is_ok (fst after) = true /\
  stored (snd after) = filled defaults (stored st).
Proof.
  destruct st as [s fs hs ds], s as [f a t w r sv lg so], sec as [pw].
  destruct a as [en k bu mo te ti sp up], t as [ten tok ch pm ps fse],
           w as [wen wk wpm wps wfse].
  cbn [stored AppSettings.security SecuritySettings.admin_password].
  intros -> Hwf. cbv zeta.
  unfold well_formed in Hwf. apply andb_prop in Hwf as [Hd Hl].
  unfold save_unchanged.
  remember (get_settings defaults _) as doc eqn:G.
  unfold get_settings, load_settings in G. rewrite fill_defaults_filled in G.
  unfold update_settings, validated_settings, load_settings.
  cbn [password new_password settings or_empty stored].
  rewrite (strip_digits pw Hd), Hd, Hl.
  cbn [andb negb AppSettings.security bind SecuritySettings.admin_password].
  rewrite str_eqb_refl. cbn [negb].
  rewrite fill_defaults_filled.
  destruct pw as [|c pw']; [discriminate Hd|].
  destruct k, tok, wk; cbn -[pick_str pick_float] in G; subst doc;
    cbn -[pick_str pick_float];
    unfold filled, AppSettings.set_security;
    cbn -[pick_str pick_float];
    rewrite ?pick_str_idem, ?pick_float_idem; split; reflexivity.
Qed.

End WithDefaults.

Lemma prompts_never_blank_witness :
  prompts_present Samples.defaults0 = true /\
  prompts_present (get_settings Samples.defaults0 Samples.state0) = true.
Proof.
  split; [reflexivity|].
  destruct (prompts_never_blank Samples.defaults0 Samples.state0
              Samples.padded_password_request eq_refl) as [H _].
  exact H.
Defined.

Lemma update_settings_reconciles_schedulers_witness :
  is_ok (fst (update_settings Samples.defaults0 MoreSamples.report_time_request
                Samples.state0)) = true /\
  daily_scheduler Samples.state0 = Some (lit "09:30") /\
  ReportSettings.daily_report_time
    (AppSettings.reports
       (stored (snd (update_settings Samples.defaults0 MoreSamples.report_time_request
                       Samples.state0)))) = lit "10:00" /\
  daily_scheduler (snd (update_settings Samples.defaults0
                          MoreSamples.report_time_request Samples.state0))
  = Some (lit "09:30").
Proof.
  split; [reflexivity|]. split; [reflexivity|]. split; [reflexivity|].
  destruct (update_settings_reconciles_schedulers Samples.defaults0 Samples.state0
              MoreSamples.report_time_request eq_refl) as (_ & _ & H).
  exact H.
Defined.

Lemma settings_page_round_trip_witness :
  AppSettings.security (stored Samples.state0)
  = Some {| SecuritySettings.admin_password := lit "1234" |} /\
  well_formed (lit "1234") = true /\
  stored (snd (update_settings Samples.defaults0
                 (save_unchanged Samples.defaults0 Samples.state0 (lit "1234"))
                 Samples.state0))
  = filled Samples.defaults0 (stored Samples.state0).
Proof.
  split; [reflexivity|]. split; [reflexivity|].
  destruct (settings_page_round_trip Samples.defaults0 Samples.state0
              {| SecuritySettings.admin_password := lit "1234" |} eq_refl eq_refl)
    as [_ H].
  exact H.
Defined.

End ApiMore.

(** ** Report windows and the cadence of the schedulers *)

Module ScheduleMore.

Import Schedule ScheduleFacts.
Open Scope Z_scope.

(** A datetime converted to UTC is determined by its instant. *)
Lemma astimezone_utc_canon (d : datetime) :
  astimezone utc d = of_wall utc (instant (astimezone utc d)).
Proof.
  unfold astimezone. rewrite instant_of_wall. f_equal. unfold utc. lia.
Qed.

Lemma next_top_of_hour_canon (now : datetime) :
  _next_top_of_hour now = of_wall utc (instant (_next_top_of_hour now)).
Proof. unfold _next_top_of_hour. cbv zeta. apply astimezone_utc_canon. Qed.

Lemma next_midnight_canon (now : datetime) (report_time : pystr) :
  _next_midnight now report_time
  = of_wall utc (instant (_next_midnight now report_time)).
Proof.
  unfold _next_midnight. cbv zeta.
  destruct (report_hour_minute report_time) as [h m].
  apply astimezone_utc_canon.
Qed.

(** The target of the day, in microseconds after local midnight, is within
    the day. *)
Lemma target_in_day (report_time : pystr) :
  0 <= fst (report_hour_minute report_time) * us_per_hour
       + snd (report_hour_minute report_time) * us_per_minute < us_per_day.
Proof.
  pose proof (report_hour_minute_range report_time).
  unfold us_per_hour, us_per_minute, us_per_day. lia.
Qed.

(** X11.  The window of a manual report ends at [now] and is in UTC.  For
    a daily report it starts at the midnight that opened the local day of
    [now] in the reference zone, so it is shorter than a day; for an hourly
    report it is exactly the hour before [now]; any other report type
    raises [ValueError]. *)
Theorem manual_report_timeframe_window (now : datetime) (report_type : pystr) :
  match Manual._manual_report_timeframe now report_type with
  | Ok (start_utc, end_utc) =>
      utcoffset start_utc = utc /\ utcoffset end_utc = utc /\
      instant end_utc = instant now /\
      (if str_eqb report_type (lit "daily") then
         astimezone BEIJING_TZ start_utc
         = beijing (ordinal (astimezone BEIJING_TZ now)) 0 0 0 /\
         0 <= instant end_utc - instant start_utc < days 1
       else
         report_type = lit "hourly" /\
         instant end_utc - instant start_utc = hours 1)
  | Raise e =>
      e = ValueError /\ report_type <> lit "daily" /\ report_type <> lit "hourly"
  end.
Proof.
  unfold Manual._manual_report_timeframe. cbv zeta.
  destruct (str_eqb report_type (lit "daily")) eqn:D; cbn [bind].
  - split; [reflexivity|]. split; [reflexivity|].
    rewrite !instant_astimezone. split; [reflexivity|].
    assert (Hs : instant (replace (Some 0) (Some 0) (Some 0) (Some 0)
                            (astimezone BEIJING_TZ now))
                 = local_clock now - local_clock now mod us_per_day - BEIJING_TZ).
    { unfold instant at 1. rewrite utcoffset_replace.
      change (astimezone BEIJING_TZ now) with (of_wall BEIJING_TZ (local_clock now)).
      rewrite wall_target. cbn [utcoffset of_wall]. lia. }
    split.
    + unfold astimezone at 1. rewrite instant_astimezone, Hs.
      change (astimezone BEIJING_TZ now) with (of_wall BEIJING_TZ (local_clock now)).
      generalize (local_clock now) as l. intros l.
      unfold of_wall, beijing. cbn [ordinal]. unfold BEIJING_TZ.
      f_equal; clock_arith.
    + rewrite Hs. unfold local_clock, days.
      pose proof (Z.mod_pos_bound (instant now + BEIJING_TZ) us_per_day eq_refl).
      lia.
  - destruct (str_eqb report_type (lit "hourly")) eqn:H; cbn [bind].
    + split; [reflexivity|]. split; [reflexivity|].
      rewrite !instant_astimezone. split; [reflexivity|].
      split; [apply str_eqb_eq; exact H|].
      unfold add. rewrite instant_of_wall, wall_astimezone.
      cbn [utcoffset astimezone of_wall]. lia.
    + split; [reflexivity|]. split; apply str_eqb_neq; assumption.
Qed.

(** X12.  The hourly scheduler has one target per hour and no drift.
    Whenever it is asked between [now] and the run computed for [now], it
    names that same run; asked at the run itself, it names the run exactly
    one hour later. *)
Theorem next_top_of_hour_cadence (now later : datetime) :
  instant now <= instant later < instant (_next_top_of_hour now) ->
  _next_top_of_hour later = _next_top_of_hour now /\
  instant (_next_top_of_hour (_next_top_of_hour now))
  = instant (_next_top_of_hour now) + hours 1.
Proof.
  intros H.
  destruct (next_top_of_hour_instant now) as [Hn _].
  destruct (next_top_of_hour_instant later) as [Hl _].
  destruct (next_top_of_hour_instant (_next_top_of_hour now)) as [Hnn _].
  rewrite Hn in H. split.
  - rewrite (next_top_of_hour_canon later), (next_top_of_hour_canon now).
    f_equal. rewrite Hn, Hl. revert H. unfold local_clock, BEIJING_TZ.
    generalize (instant now) (instant later). intros a b H. clock_arith.
  - rewrite Hnn. unfold local_clock. rewrite Hn. unfold local_clock, hours, BEIJING_TZ.
    generalize (instant now). intros a. clock_arith.
Qed.

(** X13.  The daily scheduler has one target per day and no drift, for
    every report time.  Whenever it is asked between [now] and the run
    computed for [now], it names that same run; asked at the run itself,
    it names the run exactly one day later. *)
Theorem next_midnight_cadence (now later : datetime) (report_time : pystr) :
  instant now <= instant later < instant (_next_midnight now report_time) ->
  _next_midnight later report_time = _next_midnight now report_time /\
  instant (_next_midnight (_next_midnight now report_time) report_time)
  = instant (_next_midnight now report_time) + days 1.
Proof.
  intros H.
  destruct (next_midnight_instant now report_time) as [Hn _].
  destruct (next_midnight_instant later report_time) as [Hl _].
  destruct (next_midnight_instant (_next_midnight now report_time) report_time)
    as [Hnn _].
  pose proof (target_in_day report_time) as Ht.
  cbv zeta in Hn, Hl, Hnn.
  set (t := fst (report_hour_minute report_time) * us_per_hour
            + snd (report_hour_minute report_time) * us_per_minute) in *.
  clearbody t.
  rewrite Hn in H. split.
  - rewrite (next_midnight_canon later), (next_midnight_canon now).
    f_equal. rewrite Hn, Hl. revert H. unfold local_clock, BEIJING_TZ.
    generalize (instant now) (instant later). intros a b H.
    destruct (t <=? (a + 8 * us_per_hour) mod us_per_day) eqn:Ta;
      [apply Z.leb_le in Ta | apply Z.leb_gt in Ta];
      (destruct (t <=? (b + 8 * us_per_hour) mod us_per_day) eqn:Tb;
       [apply Z.leb_le in Tb | apply Z.leb_gt in Tb]);
      clock_arith.
  - rewrite Hnn. unfold local_clock. rewrite Hn. unfold local_clock, days, BEIJING_TZ.
    generalize (instant now). intros a.
    destruct (t <=? (a + 8 * us_per_hour) mod us_per_day) eqn:Ta;
      [apply Z.leb_le in Ta | apply Z.leb_gt in Ta];
      match goal with
      | |- context [t <=? ?x] =>
          destruct (t <=? x) eqn:Tb; [apply Z.leb_le in Tb | apply Z.leb_gt in Tb]
      end;
      clock_arith.
Qed.

Lemma next_top_of_hour_cadence_witness :
  instant (beijing 738000 14 30 0) <= instant (beijing 738000 14 45 0)
    < instant (_next_top_of_hour (beijing 738000 14 30 0)) /\
  _next_top_of_hour (beijing 738000 14 45 0)
  = _next_top_of_hour (beijing 738000 14 30 0).
Proof.
  assert (H : instant (beijing 738000 14 30 0) <= instant (beijing 738000 14 45 0)
              < instant (_next_top_of_hour (beijing 738000 14 30 0)))
    by (vm_compute; split; [discriminate | reflexivity]).
  split; [exact H|].
  destruct (next_top_of_hour_cadence _ _ H) as [E _]. exact E.
Defined.

Lemma next_midnight_cadence_witness :
  instant (beijing 738000 7 0 0) <= instant (beijing 738000 9 29 59)
    < instant (_next_midnight (beijing 738000 7 0 0) (lit "09:30")) /\
  _next_midnight (beijing 738000 9 29 59) (lit "09:30")
  = _next_midnight (beijing 738000 7 0 0) (lit "09:30").
Proof.
  assert (H : instant (beijing 738000 7 0 0) <= instant (beijing 738000 9 29 59)
              < instant (_next_midnight (beijing 738000 7 0 0) (lit "09:30")))
    by (vm_compute; split; [discriminate | reflexivity]).
  split; [exact H|].
  destruct (next_midnight_cadence _ _ (lit "09:30") H) as [E _]. exact E.
Defined.

End ScheduleMore.

(** ** The loop body of the fetch pipeline, call by call *)

Module PipelineMore.

Import Pipeline.
Open Scope Z_scope.

Section WithComponents.

Variable exists_article : pystr -> pystr -> bool.
Variable extract_from_url : pystr -> float -> option pystr.
Variable summarize : FeedEntry -> pystr -> pystr -> pystr -> option Summary.
Variable fallback_summary : FeedEntry -> option pystr -> Summary.
Variable insert_article : ArticleCreate -> result (option Z).
Variable prune_articles : Z -> result unit.
Variable push_telegram : pystr -> Summary -> list pystr -> result bool.
Variable push_wecom : Summary -> list pystr -> result bool.
Variable settings : AppSettings.t.

(** X14.  The counters of a run stay consistent with the calls made.
    Every entry counts as processed; it counts as a duplicate exactly
    when it was skipped, and then as nothing else.  Each of duplicate, new
    and failed grows by at most one; an entry may count both as new and as
    failed (a row was stored and a later call of the [try] block raised),
    and it counts as failed only if [insert_article] was called.
    [ai_calls] grows by one exactly when the AI client was called, and by
    as much as [ai_success] and [ai_failed] together; the fallback
    summarizer is called exactly for an entry that was not skipped and had
    no AI success; [new_items] grows exactly when pruning was called. *)
Theorem do_fetch_once_entry_counters (force : bool) (feed : pystr) (e : FeedEntry)
    (c : Counters) :
  let out := do_fetch_once_entry exists_article extract_from_url summarize
               fallback_summary insert_article prune_articles push_telegram
               push_wecom settings force feed e c in
  let k := counters out in
  processed k = processed c + 1 /\
  (dup k = dup c + 1 <-> keywords_matched out = None) /\
  (dup k = dup c + 1 ->
   new_items k = new_items c /\ failed_items k = failed_items c /\ trace out = []) /\
  0 <= dup k - dup c <= 1 /\ 0 <= new_items k - new_items c <= 1 /\
  0 <= failed_items k - failed_items c <= 1 /\
  (failed_items k = failed_items c + 1 -> existsb is_insert (trace out) = true) /\
  ai_calls k - ai_calls c
  = (ai_success k - ai_success c) + (ai_failed k - ai_failed c) /\
  (existsb is_summarize (trace out) = true <-> ai_calls k = ai_calls c + 1) /\
  (existsb is_summarize (trace out) = false <-> ai_calls k = ai_calls c) /\
  (existsb is_fallback (trace out) = true
   <-> keywords_matched out <> None /\ ai_success k = ai_success c) /\
  (existsb is_fallback (trace out) = false
   <-> keywords_matched out = None \/ ai_success k = ai_success c + 1) /\
  (existsb is_prune (trace out) = true <-> new_items k = new_items c + 1) /\
  (existsb is_prune (trace out) = false <-> new_items k = new_items c).
Proof.
  cbv zeta.
  destruct (negb force && exists_article feed (uid e)) eqn:Hdup.
  - unfold do_fetch_once_entry. rewrite Hdup.
    cbn. repeat split; intros; try lia; try congruence; auto;
      match goal with
      | H : _ /\ _ |- _ => destruct H; congruence
      end.
  - pose proof (PipelineFacts.do_fetch_once_entry_spec exists_article extract_from_url
                  summarize fallback_summary insert_article prune_articles
                  push_telegram push_wecom settings force feed e c Hdup) as E.
    cbv zeta in E. rewrite E. clear E.
    destruct (match_keywords (filter_keywords settings) _) as [m flag].
    cbn [fst snd].
    destruct (FetchSettings.use_article_page (AppSettings.fetch settings)
              && truthy_opt (link e));
      destruct (nonempty (filter_keywords settings) && flag);
      destruct (ai_built settings && flag);
      try match goal with
          | |- context [summarize ?a ?b ?x ?y] => destruct (summarize a b x y) as [obj|]
          end;
      cbv beta iota;
      match goal with
      | |- context [new_row ?r] => set (stored := new_row r)
      end;
      match goal with
      | |- context [if negb (is_ok ?r) || ?x || ?y || ?z then _ else _] =>
          set (raised := negb (is_ok r) || x || y || z)
      end;
      clearbody raised; clearbody stored;
      destruct stored, raised;
      cbn [andb];
      repeat match goal with
             | |- context [if ?b then _ else _] => destruct b
             end;
      cbn;
      repeat split; intros; try lia; try congruence; auto;
      try (right; lia);
      try match goal with
          | H : _ /\ _ |- _ => destruct H; lia
          | H : _ \/ _ |- _ => destruct H; [congruence | lia]
          end.
Qed.

(** X15.  The calls of one entry come in a fixed order.  A skipped
    duplicate causes no call at all.  Any other entry is handed to
    [insert_article] exactly once, under its own feed and uid, after the
    extraction and summary calls.  Nothing follows an insert that raised
    or gave no new row.  A new row is counted and followed by pruning;
    when pruning returns, by the Telegram push if the platform is ready;
    when that step did not raise, by the WeCom push if the platform is
    ready.  The pushes carry the very summary the article was stored with
    and its keywords.  The first call of the [try] block that raises ends
    it: nothing more is called, and the entry counts as failed, once,
    exactly in that case. *)
Theorem do_fetch_once_entry_call_order (force : bool) (feed : pystr) (e : FeedEntry)
    (c : Counters) :
  let out := do_fetch_once_entry exists_article extract_from_url summarize
               fallback_summary insert_article prune_articles push_telegram
               push_wecom settings force feed e c in
  let max_items := FetchSettings.max_items (AppSettings.fetch settings) in
  let chat_id := TelegramSettings.chat_id (AppSettings.telegram settings) in
  if negb force && exists_article feed (uid e) then
    trace out = [] /\ failed_items (counters out) = failed_items c
  else
    exists before article item,
      let keywords := matched_keywords article in
      let stored := new_row (insert_article article) in
      let pruned := stored && is_ok (prune_articles max_items) in
      let to_telegram :=
        tg_built settings && passed (keywords_matched out)
        && tg_push_articles settings in
      let telegram_done :=
        pruned && (negb to_telegram
                   || is_ok (push_telegram chat_id item keywords)) in
      let to_wecom :=
        wecom_built settings && passed (keywords_matched out)
        && wecom_push_articles settings in
      let raised :=
        negb (is_ok (insert_article article))
        || stored && negb (is_ok (prune_articles max_items))
        || pruned && to_telegram && negb (is_ok (push_telegram chat_id item keywords))
        || telegram_done && to_wecom && negb (is_ok (push_wecom item keywords)) in
      trace out
      = before ++ Insert article
          :: (if stored then [Prune max_items] else [])
          ++ (if pruned && to_telegram
              then [PushTelegram chat_id item keywords] else [])
          ++ (if telegram_done && to_wecom
              then [PushWeCom item keywords] else []) /\
      forallb prepares before = true /\
      feed_url article = feed /\ item_uid article = uid e /\
      summary_text article = or_empty (or_else (s_summary_text item) (Some [])) /\
      new_items (counters out) = new_items c + (if stored then 1 else 0) /\
      failed_items (counters out) = failed_items c + (if raised then 1 else 0).
Proof.
  cbv zeta.
  destruct (negb force && exists_article feed (uid e)) eqn:Hdup.
  - unfold do_fetch_once_entry. rewrite Hdup. split; reflexivity.
  - pose proof (PipelineFacts.do_fetch_once_entry_spec exists_article extract_from_url
                  summarize fallback_summary insert_article prune_articles
                  push_telegram push_wecom settings force feed e c Hdup) as E.
    cbv zeta in E. rewrite E. clear E.
    cbn [trace counters keywords_matched passed].
    match goal with
    | |- context [?a ++ ?b ++ ?d ++ Insert ?art :: _] =>
        exists (a ++ b ++ d), art
    end.
    match goal with
    | |- context [PushWeCom ?i _] => exists i
    end.
    cbn [matched_keywords feed_url item_uid summary_text].
    split; [rewrite <- !app_assoc; reflexivity|].
    split.
    { destruct (FetchSettings.use_article_page (AppSettings.fetch settings)
                && truthy_opt (link e)), (ai_built settings && _);
        try match goal with
            | |- context [summarize ?a ?b ?x ?y] => destruct (summarize a b x y)
            end; reflexivity. }
    split; [reflexivity|]. split; [reflexivity|]. split; [reflexivity|].
    match goal with
    | |- context [new_row ?r] => set (stored := new_row r)
    end.
    match goal with
    | |- context [if negb (is_ok ?r) || ?x || ?y || ?z then _ else _] =>
        set (raised := negb (is_ok r) || x || y || z)
    end.
    clearbody raised. clearbody stored.
    destruct (nonempty (filter_keywords settings) && _), (ai_built settings && _);
      try match goal with
          | |- context [summarize ?a ?b ?x ?y] => destruct (summarize a b x y)
          end;
      destruct stored, raised; cbn; split; lia.
Qed.

End WithComponents.

End PipelineMore.

(** ** The keyword list and the choice of entries *)

Module KeywordMore.

Import Pipeline.
Open Scope Z_scope.

Lemma lstrip_head (s : pystr) :
  match lstrip s with
  | [] => True
  | c :: _ => isspace_cp c = false
  end.
Proof.
  induction s as [|c s IH]; cbn [lstrip]; [exact I|].
  destruct (isspace_cp c) eqn:E; [exact IH | exact E].
Qed.

Lemma lstrip_fixed (c : codepoint) (s : pystr) :
  isspace_cp c = false -> lstrip (c :: s) = c :: s.
Proof. intros E. cbn [lstrip]. rewrite E. reflexivity. Qed.

Lemma lstrip_app_fixed (a : pystr) (c : codepoint) :
  isspace_cp c = false -> lstrip (a ++ [c]) = lstrip a ++ [c].
Proof.
  intros E. induction a as [|x a IH]; cbn [lstrip app].
  - rewrite E. reflexivity.
  - destruct (isspace_cp x); [exact IH | reflexivity].
Qed.

Lemma rstrip_cons (c : codepoint) (s : pystr) :
  isspace_cp c = false -> rstrip (c :: s) = c :: rstrip s.
Proof.
  intros E. unfold rstrip. cbn [rev].
  rewrite (lstrip_app_fixed _ c E), rev_app_distr. reflexivity.
Qed.

Lemma lstrip_idem (s : pystr) : lstrip (lstrip s) = lstrip s.
Proof.
  pose proof (lstrip_head s) as H. destruct (lstrip s) as [|c r]; [reflexivity|].
  apply lstrip_fixed. exact H.
Qed.

Lemma rstrip_idem (s : pystr) : rstrip (rstrip s) = rstrip s.
Proof. unfold rstrip. rewrite rev_involutive, lstrip_idem. reflexivity. Qed.

(** Stripping twice is stripping once. *)
Lemma strip_idem (s : pystr) : strip (strip s) = strip s.
Proof.
  unfold strip. pose proof (lstrip_head s) as H.
  destruct (lstrip s) as [|c r]; [reflexivity|].
  rewrite (rstrip_cons c r H), (lstrip_fixed c _ H), (rstrip_cons c _ H), rstrip_idem.
  reflexivity.
Qed.

(** X16.  The keyword filter is the configured list cleaned up: the
    strings of the list, stripped, without those that are blank; entries
    that are not strings are ignored.  Each keyword of the filter is
    non-empty and has no blank at either end.  A list that holds nothing
    but blank strings and non-strings configures no filter at all: every
    entry matches, with no keyword. *)
Theorem normalize_keywords_cleans (raw_keywords : list value) :
  (forall kw, In kw (normalize_keywords raw_keywords)
              <-> kw <> [] /\ exists s, In (PyStr s) raw_keywords /\ strip s = kw) /\
  (forall kw, In kw (normalize_keywords raw_keywords) -> strip kw = kw) /\
  ((forall s, In (PyStr s) raw_keywords -> strip s = []) ->
   forall haystack,
     match_keywords (normalize_keywords raw_keywords) haystack = ([], true)).
Proof.
  assert (S : forall kw, In kw (normalize_keywords raw_keywords)
                <-> kw <> [] /\ exists s, In (PyStr s) raw_keywords /\ strip s = kw).
  { intros kw. induction raw_keywords as [|v raw IH]; cbn [normalize_keywords In].
    - split; [intros [] | intros (_ & s & [] & _)].
    - assert (Skip : In kw (normalize_keywords raw)
                     <-> kw <> [] /\ exists s, In (PyStr s) raw /\ strip s = kw)
        by exact IH.
      destruct v as [| | | |s| |];
        try (rewrite Skip; split;
             [intros (N & s & H & E); split; [exact N|]; exists s; auto
             |intros (N & s & [H|H] & E); [discriminate H|];
              split; [exact N|]; exists s; auto]).
      destruct (truthy (strip s)) eqn:T.
      + cbn [In]. rewrite Skip. split.
        * intros [E | (N & s' & H & E)].
          -- split; [subst kw; apply truthy_true; exact T|]. exists s. auto.
          -- split; [exact N|]. exists s'. auto.
        * intros (N & s' & [H|H] & E).
          -- left. inversion H. subst s'. exact E.
          -- right. split; [exact N|]. exists s'. auto.
      + rewrite Skip. split.
        * intros (N & s' & H & E). split; [exact N|]. exists s'. auto.
        * intros (N & s' & [H|H] & E).
          -- inversion H. subst s'. subst kw.
             apply truthy_true in N. congruence.
          -- split; [exact N|]. exists s'. auto. }
  split; [exact S|]. split.
  - intros kw H. apply S in H. destruct H as (_ & s & _ & <-). apply strip_idem.
  - intros Hblank haystack.
    destruct (normalize_keywords raw_keywords) as [|kw rest] eqn:E; [reflexivity|].
    exfalso.
    assert (H : In kw (kw :: rest)) by (left; reflexivity).
    apply S in H. destruct H as (N & s & Hin & Hs).
    apply N. rewrite <- Hs. apply Hblank. exact Hin.
Qed.

End KeywordMore.

Module SelectionMore.

Import Pipeline Selection.
Open Scope Z_scope.

Section WithTimestamps.

Variable sort_ts : FeedEntry -> Z.

Lemma insert_newest_first_perm (x : FeedEntry) (l : list FeedEntry) :
  Permutation (insert_newest_first sort_ts x l) (x :: l).
Proof.
  induction l as [|y l IH]; cbn [insert_newest_first]; [reflexivity|].
  destruct (sort_ts x <? sort_ts y); [|reflexivity].
  rewrite IH. apply perm_swap.
Qed.

Lemma sort_newest_first_perm (l : list FeedEntry) :
  Permutation (sort_newest_first sort_ts l) l.
Proof.
  induction l as [|x l IH]; cbn [sort_newest_first]; [reflexivity|].
  rewrite insert_newest_first_perm, IH. reflexivity.
Qed.

Lemma insert_newest_first_In (x y : FeedEntry) (l : list FeedEntry) :
  In y (insert_newest_first sort_ts x l) <-> y = x \/ In y l.
Proof.
  split; intros H.
  - apply (Permutation_in _ (insert_newest_first_perm x l)) in H.
    destruct H; auto.
  - apply (Permutation_in _ (Permutation_sym (insert_newest_first_perm x l))).
    destruct H; [left | right]; auto.
Qed.

Lemma insert_newest_first_sorted (x : FeedEntry) (l : list FeedEntry) :
  newest_first sort_ts l -> newest_first sort_ts (insert_newest_first sort_ts x l).
Proof.
  induction l as [|y l IH]; cbn [insert_newest_first newest_first].
  - intros _. split; [intros z []| exact I].
  - intros [Hy Hl]. destruct (sort_ts x <? sort_ts y) eqn:C.
    + apply Z.ltb_lt in C. cbn [newest_first]. split; [|apply IH; exact Hl].
      intros z Hz. apply insert_newest_first_In in Hz.
      destruct Hz as [-> | Hz]; [lia | apply Hy; exact Hz].
    + apply Z.ltb_ge in C. cbn [newest_first]. split; [|split; assumption].
      intros z [<- | Hz]; [exact C|]. specialize (Hy z Hz). lia.
Qed.

Lemma sort_newest_first_sorted (l : list FeedEntry) :
  newest_first sort_ts (sort_newest_first sort_ts l).
Proof.
  induction l as [|x l IH]; cbn [sort_newest_first]; [exact I|].
  apply insert_newest_first_sorted. exact IH.
Qed.

Lemma newest_first_app (a b : list FeedEntry) :
  newest_first sort_ts (a ++ b) ->
  newest_first sort_ts a /\
  forall k d, In k a -> In d b -> sort_ts d <= sort_ts k.
Proof.
  induction a as [|x a IH]; cbn [app newest_first].
  - intros _. split; [exact I | intros k d []].
  - intros [Hx Hr]. destruct (IH Hr) as [Ha Hab]. split.
    + split; [|exact Ha]. intros y Hy. apply Hx. apply in_or_app. left. exact Hy.
    + intros k d [<- | Hk] Hd; [apply Hx; apply in_or_app; right; exact Hd|].
      apply Hab; assumption.
Qed.

(** X17.  The entries of a feed that are processed are its newest ones.
    The feed's entries split into those kept and those dropped; the kept
    ones come newest first, none of them is older than a dropped one, and
    there are as many of them as the feed has entries, up to
    [per_feed_limit]: a limit of zero or less still keeps one entry. *)
Theorem select_entries_keeps_newest (per_feed_limit : Z) (entries : list FeedEntry) :
  let kept := select_entries sort_ts per_feed_limit entries in
  exists dropped,
    Permutation entries (kept ++ dropped) /\
    newest_first sort_ts kept /\
    (forall k d, In k kept -> In d dropped -> sort_ts d <= sort_ts k) /\
    len kept = Z.min (len entries) (Z.max 1 per_feed_limit).
Proof.
  cbv zeta. unfold select_entries.
  destruct entries as [|x rest].
  { exists []. cbn. repeat split; auto; try lia; intros k d []. }
  set (l := x :: rest). cbv zeta.
  set (sorted := sort_newest_first sort_ts l).
  assert (P : Permutation sorted l) by apply sort_newest_first_perm.
  assert (L : len sorted = len l)
    by (unfold len; rewrite (Permutation_length P); reflexivity).
  assert (S : newest_first sort_ts sorted) by apply sort_newest_first_sorted.
  clearbody sorted. clearbody l.
  destruct (len sorted >? Z.max 1 per_feed_limit) eqn:C.
  - apply Z.gtb_lt in C.
    exists (skipn (Z.to_nat (Z.max 1 per_feed_limit)) sorted).
    rewrite firstn_skipn.
    rewrite <- (firstn_skipn (Z.to_nat (Z.max 1 per_feed_limit)) sorted) in S.
    destruct (newest_first_app _ _ S) as [S1 S2].
    split; [symmetry; exact P|]. split; [exact S1|]. split; [exact S2|].
    unfold len in *. rewrite length_firstn. lia.
  - rewrite Z.gtb_ltb in C. apply Z.ltb_ge in C.
    exists []. rewrite app_nil_r.
    split; [symmetry; exact P|]. split; [exact S|].
    split; [intros k d _ []|]. lia.
Qed.

End WithTimestamps.

End SelectionMore.

(** ** Worked examples *)

Module PyExamples.

Example strip_padded : strip (lit " 1234 ") = lit "1234".
Proof. reflexivity. Qed.

Example split_lines : split 10%N (lit "a" ++ [10%N] ++ lit "b" ++ [10%N])
                      = [lit "a"; lit "b"; []].
Proof. reflexivity. Qed.

Example split_empty : split 10%N [] = [[]].
Proof. reflexivity. Qed.

Example int_plain : Py.int (lit "09") = Some 9%Z.
Proof. reflexivity. Qed.

Example int_padded_signed : Py.int (lit " -1_0 ") = Some (-10)%Z.
Proof. reflexivity. Qed.

Example int_double_underscore : Py.int (lit "1__0") = None.
Proof. reflexivity. Qed.

Example int_fullwidth : Py.int [65297; 65298]%N = Some 12%Z.
Proof. reflexivity. Qed.

Example int_empty : Py.int [] = None.
Proof. reflexivity. Qed.

Example isdigit_superscript : isdigit [178%N] = true /\ Py.int [178%N] = None.
Proof. split; reflexivity. Qed.

Example fromkeys_first_seen :
  fromkeys [lit "b"; lit "a"; lit "b"; lit "c"; lit "a"] = [lit "b"; lit "a"; lit "c"].
Proof. reflexivity. Qed.

End PyExamples.

Module WeComExamples.
Import WeCom.

Example truncate_fits :
  _truncate_text (lit "a" ++ [newline] ++ lit "b" ++ [newline] ++ lit "c") 5
  = lit "a" ++ [newline] ++ lit "b" ++ [newline] ++ lit "c".
Proof. reflexivity. Qed.

Example truncate_lines :
  _truncate_text (lit "ab" ++ [newline] ++ lit "cd" ++ [newline] ++ lit "efghij") 10
  = lit "ab" ++ [newline] ++ lit "cd...".
Proof. reflexivity. Qed.

Example truncate_long_first_line :
  _truncate_text (lit "abcdefghijkl") 10 = lit "...".
Proof. reflexivity. Qed.

Example format_two_keywords :
  format_markdown_message (lit "T") (lit "L") [] [] [] (Some [lit "a"; lit "b"])
  = lit "**T**" ++ [newline] ++ lit "[" ++ label_link ++ lit "](L)" ++ [newline]
    ++ label_keywords ++ lit "a" ++ ideographic_comma ++ lit "b".
Proof. reflexivity. Qed.

Example send_empty_key :
  send_message (Samples.post_errcode 0) Samples.httpx_raises (init [] 20%float) (lit "hi")
  = Ok false.
Proof. reflexivity. Qed.

Example send_acknowledged :
  send_message (Samples.post_errcode 0) Samples.httpx_raises Samples.client0 (lit "hi")
  = Ok true.
Proof. reflexivity. Qed.

Example send_refused :
  send_message (Samples.post_errcode 93000) Samples.httpx_raises Samples.client0 (lit "hi")
  = Ok false.
Proof. reflexivity. Qed.

Example send_unreachable :
  send_message Samples.post_unreachable Samples.httpx_raises Samples.client0 (lit "hi")
  = Ok false.
Proof. reflexivity. Qed.

End WeComExamples.

Module ApiExamples.
Import Api.

Example three_digits_rejected :
  update_settings Samples.defaults0 (Samples.request_with_password (lit "123"))
    Samples.state0
  = (Raise (HTTPException 400 detail_password_format), Samples.state0).
Proof. reflexivity. Qed.

Example letters_rejected :
  update_settings Samples.defaults0 (Samples.request_with_password (lit "12a4"))
    Samples.state0
  = (Raise (HTTPException 400 detail_password_format), Samples.state0).
Proof. reflexivity. Qed.

Example wrong_password_rejected :
  update_settings Samples.defaults0 (Samples.request_with_password (lit "0000"))
    Samples.state0
  = (Raise (HTTPException 403 detail_password_wrong), Samples.state0).
Proof. reflexivity. Qed.

Example read_masks :
  let out := get_settings Samples.defaults0 Samples.state0 in
  AISettings.api_key (AppSettings.ai out) = sentinel /\
  TelegramSettings.bot_token (AppSettings.telegram out) = sentinel /\
  WeComSettings.webhook_key (AppSettings.wecom out) = sentinel /\
  AppSettings.security out = Samples.with_password [].
Proof. repeat split. Qed.

Example masked_write_keeps_secrets :
  let req := {| settings := Samples.masked0; password := Some (lit "1234");
                new_password := None |} in
  let after := update_settings Samples.defaults0 req Samples.state0 in
  stored (snd after) = Samples.stored0 /\
  is_ok (fst after) = true.
Proof. split; reflexivity. Qed.

End ApiExamples.

Module ScheduleExamples.
Import Schedule.
Open Scope Z_scope.

Example half_past_nine : report_hour_minute (lit "09:30") = (9, 30).
Proof. reflexivity. Qed.

Example clamped : report_hour_minute (lit "25:99") = (23, 59).
Proof. reflexivity. Qed.

Example clamped_below : report_hour_minute (lit "-1:-5") = (0, 0).
Proof. reflexivity. Qed.

Example not_a_time : report_hour_minute (lit "soon") = (0, 0).
Proof. reflexivity. Qed.

Example minute_not_a_number : report_hour_minute (lit "09:xx") = (0, 0).
Proof. reflexivity. Qed.

Example three_fields : report_hour_minute (lit "09:30:00") = (0, 0).
Proof. reflexivity. Qed.

(** 1 January 2024 has ordinal 738886. *)
Example daily_before_target :
  astimezone BEIJING_TZ (_next_midnight (beijing 738886 9 0 0) (lit "09:30"))
  = beijing 738886 9 30 0.
Proof. vm_compute. reflexivity. Qed.

Example daily_after_target :
  astimezone BEIJING_TZ (_next_midnight (beijing 738886 10 0 0) (lit "09:30"))
  = beijing 738887 9 30 0.
Proof. vm_compute. reflexivity. Qed.

Example daily_on_target :
  astimezone BEIJING_TZ (_next_midnight (beijing 738886 9 30 0) (lit "09:30"))
  = beijing 738887 9 30 0.
Proof. vm_compute. reflexivity. Qed.

Example daily_unparsable :
  astimezone BEIJING_TZ (_next_midnight (beijing 738886 10 0 0) (lit "soon"))
  = beijing 738887 0 0 0.
Proof. vm_compute. reflexivity. Qed.

Example hourly_in_utc :
  _next_top_of_hour (beijing 738886 14 30 0)
  = {| ordinal := 738886; hour := 7; minute := 0; second := 0; microsecond := 0;
       utcoffset := utc |}.
Proof. vm_compute. reflexivity. Qed.

Example hourly_across_midnight :
  astimezone BEIJING_TZ (_next_top_of_hour (beijing 738886 23 59 59))
  = beijing 738887 0 0 0.
Proof. vm_compute. reflexivity. Qed.

End ScheduleExamples.

Module PipelineExamples.
Import Pipeline.

Example keywords_normalized :
  filter_keywords Samples.stored0 = [lit "alpha"; lit "beta"].
Proof. reflexivity. Qed.

Example alpha_twice_beta_once :
  match_keywords [lit "alpha"; lit "beta"]
    (haystack_of Samples.entry_alpha None)
  = ([lit "alpha"; lit "beta"], true).
Proof. reflexivity. Qed.

Example repeated_filter_keyword :
  match_keywords [lit "beta"; lit "alpha"; lit "beta"] (lit "alpha beta")
  = ([lit "beta"; lit "alpha"], true).
Proof. reflexivity. Qed.

Example matching_entry_is_summarized_and_pushed :
  let out := Samples.process_sample Samples.entry_alpha in
  keywords_matched out = Some true /\
  entry_keywords out = [lit "alpha"; lit "beta"] /\
  map (fun ev => (is_summarize ev, is_fallback ev, is_insert ev, is_prune ev,
                  is_push_telegram ev, is_push_wecom ev)) (trace out)
  = [ (true, false, false, false, false, false);
      (false, false, true, false, false, false);
      (false, false, false, true, false, false);
      (false, false, false, false, true, false);
      (false, false, false, false, false, true) ].
Proof. repeat split. Qed.

Example other_entry_is_stored_only :
  let out := Samples.process_sample Samples.entry_gamma in
  keywords_matched out = Some false /\
  entry_keywords out = [] /\
  map (fun ev => (is_summarize ev, is_fallback ev, is_insert ev, is_prune ev,
                  is_push_telegram ev, is_push_wecom ev)) (trace out)
  = [ (false, true, false, false, false, false);
      (false, false, true, false, false, false);
      (false, false, false, true, false, false) ].
Proof. repeat split. Qed.

(** Pruning raises after the row was stored: the entry counts as new and
    as failed, and nothing is pushed. *)
Example prune_raises_nothing_pushed :
  let out := Samples.process_sample_prune_raises Samples.entry_alpha in
  new_items (counters out) = 1 /\ failed_items (counters out) = 1 /\
  map (fun ev => (is_summarize ev, is_fallback ev, is_insert ev, is_prune ev,
                  is_push_telegram ev, is_push_wecom ev)) (trace out)
  = [ (true, false, false, false, false, false);
      (false, false, true, false, false, false);
      (false, false, false, true, false, false) ].
Proof. repeat split. Qed.

(** The Telegram push raises: the WeCom push is not made. *)
Example telegram_raises_wecom_skipped :
  let out := Samples.process_sample_telegram_raises Samples.entry_alpha in
  new_items (counters out) = 1 /\ failed_items (counters out) = 1 /\
  map (fun ev => (is_summarize ev, is_fallback ev, is_insert ev, is_prune ev,
                  is_push_telegram ev, is_push_wecom ev)) (trace out)
  = [ (true, false, false, false, false, false);
      (false, false, true, false, false, false);
      (false, false, false, true, false, false);
      (false, false, false, false, true, false) ].
Proof. repeat split. Qed.

End PipelineExamples.
